(** * Firejail: filesystem policy engine (fs.c) and namespace join (join.c)

    A shallow embedding of the mount-namespace code of firejail and of its
    join protocol.  The program is sequential C that mutates process-wide
    globals, issues system calls and terminates the process on fatal errors.
    It is embedded as functions in a state-and-exit monad:

    - the operating system is an abstract state [K] with an interface
      [World K] (system calls as a labelled step function, libc queries, and
      the helpers of the repository that live in other translation units);
    - the process state carries the kernel state, the globals the two files
      read and write, their file-static variables, and the trace of system
      calls, log entries and messages issued so far;
    - [exit], [errExit] and failed assertions end the run with the state
      reached.

    Conventions.  Format strings are recorded as the source writes them,
    with their arguments beside them.  Memory allocation ([malloc],
    [asprintf], [strdup]) is taken to succeed.  The code is the one built
    with HAVE_CHROOT, HAVE_OVERLAYFS and HAVE_SECCOMP.  Calls into other
    translation units are recorded in the trace and their results are read
    from the [World] interface. *)

From Stdlib Require Import ZArith List String Ascii Bool Lia DecimalString.
Import ListNotations.

Local Open Scope string_scope.
Local Open Scope Z_scope.

(** ** C strings *)

(** The first [n] characters of a string (all of it if it is shorter). *)
Fixpoint str_take (n : nat) (s : string) : string :=
  match n with
  | O => EmptyString
  | S n' =>
      match s with
      | EmptyString => EmptyString
      | String c s' => String c (str_take n' s')
      end
  end.

(** [strncmp(a, b, n) == 0]: the first [n] characters agree (a string that
    ends earlier must end at the same place). *)
Definition strncmp0 (a b : string) (n : nat) : bool :=
  String.eqb (str_take n a) (str_take n b).

(** [strcmp(a, b) == 0] *)
Definition strcmp0 (a b : string) : bool := String.eqb a b.

(** Pointer arithmetic [s + n] on a string that has at least [n] characters. *)
Fixpoint str_drop (n : nat) (s : string) : string :=
  match n, s with
  | O, _ => s
  | S n', String _ s' => str_drop n' s'
  | S _, EmptyString => EmptyString
  end.

(** [printf("%d", z)] *)
Definition string_of_Z (z : Z) : string := NilZero.string_of_int (Z.to_int z).

(** glibc prints a NULL [%s] argument as "(null)". *)
Definition str_or_null (o : option string) : string :=
  match o with Some s => s | None => "(null)" end.

(** C truth value of an int. *)
Definition nz (x : Z) : bool := negb (x =? 0).

(** ** Linux constants used by the two files *)

Definition MS_RDONLY : Z := 1.
Definition MS_NOSUID : Z := 2.
Definition MS_NODEV : Z := 4.
Definition MS_NOEXEC : Z := 8.
Definition MS_REMOUNT : Z := 32.
Definition MS_BIND : Z := 4096.
Definition MS_REC : Z := 16384.
Definition MS_STRICTATIME : Z := 16777216.
Definition MS_MGC_VAL : Z := 3236757504.

Definition S_IFMT : Z := 61440.
Definition S_IFDIR : Z := 16384.
Definition S_IRUSR : Z := 256.
Definition S_IXUSR : Z := 64.
Definition S_IRWXU : Z := 448.
Definition S_IRWXG : Z := 56.
Definition S_IRWXO : Z := 7.
Definition S_IRGRP : Z := 32.
Definition S_IXGRP : Z := 8.
Definition S_IROTH : Z := 4.
Definition S_IXOTH : Z := 1.

(** The octal permission literals of the source. *)
Abbreviation o0755 := 493%Z.
Abbreviation o0644 := 420%Z.

Definition EACCES : Z := 13.
Definition SIGTERM : Z := 15.
Definition SIGKILL : Z := 9.
Definition PR_SET_PDEATHSIG : Z := 1.

(** [struct stat], the fields the code reads. *)
Record stat_t := mkStat { st_mode : Z; st_uid : Z; st_gid : Z }.

Definition S_ISDIR (m : Z) : bool := Z.land m S_IFMT =? S_IFDIR.

(** [struct utsname], the fields the code reads. *)
Record utsname := mkUts { release : string; version : string }.

(** Result of [fnmatch(pattern, path, FNM_PATHNAME)]. *)
Inductive fnm_result := FNM_MATCH | FNM_NOMATCH | FNM_ERROR (rv : Z).

(** ** System calls, external calls and the trace *)

(** State-changing system calls, with their arguments as the code passes them
    ([None] is a NULL pointer). *)
Inductive syscall :=
| SysMount (source : option string) (target : string) (fstype : option string)
           (flags : Z) (data : option string)
| SysMkdir (path : string) (mode : Z)
| SysChmod (path : string) (mode : Z)
| SysChown (path : string) (uid gid : Z)
| SysChroot (path : string)
| SysChdir (path : string)
| SysFopenW (path : string)
| SysSetenv (name value : string) (overwrite : Z)
| SysPrctl (option_ arg2 : Z)
| SysNice (inc : Z)
| SysSignal (sig : Z)
| SysWaitpid (pid : Z).

(** Functions of the repository that are defined outside the two files (or
    macros of firejail.h) and act on the process or the system. *)
Inductive call :=
| CFsDevShm | CFsVarLock | CFsVarTmp | CFsVarLog | CFsVarLib | CFsVarCache
| CFsVarUtmp | CRestrictUsers
| CCopyFile (src dst : string) (uid gid mode : Z)
| CSetPermsStream (path : string) (uid gid mode : Z)
| CEuidRoot | CEuidUser
| CCtflush
| CBuildCmdline (argv : list string) (index : Z)
| CLoadCpu (fname : string)
| CLoadCgroup (fname : string)
| CSetCgroup (path : string)
| CJoinNamespace (pid : Z) (ns : string)
| CSetCpuAffinity
| CCapsSet (caps : Z)
| CProtocolFilterLoad (fname : string)
| CProtocolFilter
| CSeccompSet
| CDropPrivs (nogroups : Z)
| CStartApplication.

(** What an external call does to the calling process. *)
Inductive call_result (K : Type) :=
| Returned (rv : Z) (k : K)
| Exited (code : Z) (k : K).
Arguments Returned {K} rv k.
Arguments Exited {K} code k.

(** Arguments of a printf-style message. *)
Inductive farg := FS (s : string) | FD (z : Z).

Inductive event :=
| EvSys (c : syscall)
| EvCall (c : call)
| EvFork
| EvLogger (msg : string)
| EvLogger2 (msg1 msg2 : string)
| EvStdout (fmt : string) (args : list farg)
| EvStderr (fmt : string) (args : list farg)
| EvPerror (msg : string).

(** ** The operating system and the rest of the program *)

Class World (K : Type) := {
  (* system calls that change the system: [None] is a return value of -1 *)
  sys_step : K -> syscall -> option K;
  (* queries *)
  k_stat : K -> string -> option stat_t;
  k_realpath : K -> string -> string + Z;          (* resolved path or errno *)
  k_glob : K -> string -> option (list string);    (* glob(3) with GLOB_NOCHECK | GLOB_NOSORT | GLOB_PERIOD; [None] is a non-zero return *)
  k_fnmatch : string -> string -> fnm_result;
  k_uname : K -> option utsname;
  k_getenv : K -> string -> option string;
  k_getuid : K -> Z;
  k_fork : K -> Z * K;
  k_child_status : K -> Z -> Z;                    (* the status waitpid reports for a child that ended *)
  k_readdir : K -> string -> option (list string); (* the entries of a directory other than . and .. *)
  k_fgets : K -> string -> option (list string);   (* the successive buffers fgets yields for a file; [None] if fopen fails *)
  k_indeterminate : K -> Z;                        (* value of an uninitialised int *)
  (* the rest of firejail *)
  ext_call : K -> call -> call_result K;
  ASSERT_PERMS_ok : K -> string -> Z -> Z -> Z -> bool;
  EUID_ASSERT_ok : K -> bool;
  is_link : K -> string -> bool;
  is_dir : K -> string -> bool;
  checkcfg : K -> Z -> bool;
  expand_home : string -> string -> option string;
  build_paths : K -> list string;
  split_comma : string -> string * option string;  (* the buffer as left behind, and the returned pointer *)
  gnu_basename : string -> string;
  pid_proc_comm : K -> Z -> option string;
  find_child : K -> Z -> option Z;
  pid_get_uid : K -> Z -> Z;
  name2pid : K -> string -> option Z;
  guess_shell : K -> option string;
  loaded_cpus : K -> option Z;                     (* what load_cpu stores in cfg.cpus, if anything *)
  loaded_cgroup : K -> option string;              (* what load_cgroup stores in cfg.cgroup, if anything *)
  built_cmdline : list string -> Z -> option string * option string;
  (* constants of firejail.h *)
  RUN_FIREJAIL_BASEDIR : string;
  RUN_FIREJAIL_DIR : string;
  RUN_FIREJAIL_NETWORK_DIR : string;
  RUN_FIREJAIL_BANDWIDTH_DIR : string;
  RUN_FIREJAIL_NAME_DIR : string;
  RUN_FIREJAIL_X11_DIR : string;
  RUN_FIREJAIL_APPIMAGE_DIR : string;
  RUN_RO_DIR : string;
  RUN_RO_FILE : string;
  RUN_MNT_DIR : string;
  RUN_GROUPS_CFG : string;
  RUN_CPU_CFG : string;
  RUN_CGROUP_CFG : string;
  RUN_PROTOCOL_CFG : string;
  CFG_CHROOT_DESKTOP : Z
}.

(** ** Process state *)

Inductive LAST_DISABLE_OPERATION := UNSUCCESSFUL | SUCCESSFUL.

(** Globals defined in other files ([cfg] and the [arg_] flags). *)
Record globals := mkGlobals {
  arg_debug : Z;
  arg_debug_blacklists : Z;
  arg_overlay_keep : Z;
  arg_overlay_reuse : Z;
  arg_private_dev : Z;
  arg_join_network : Z;
  arg_join_filesystem : Z;
  arg_doubledash : Z;
  arg_nogroups : Z;
  arg_noroot : Z;
  arg_nice : Z;
  mask_x11_abstract_socket : Z;
  cfg_homedir : option string;
  cfg_profile : list string;
  cfg_overlay_dir : string;
  cfg_command_line : option string;
  cfg_window_title : option string;
  cfg_shell : option string;
  cfg_cwd : option string;
  cfg_cgroup : option string;
  cfg_cpus : Z;
  cfg_protocol : option string;
  cfg_nice : Z
}.

(** Assignments to the globals the two files write. *)
Definition with_arg_doubledash (v : Z) (g : globals) : globals :=
  mkGlobals
    (arg_debug g) (arg_debug_blacklists g) (arg_overlay_keep g)
    (arg_overlay_reuse g) (arg_private_dev g) (arg_join_network g)
    (arg_join_filesystem g) v (arg_nogroups g) (arg_noroot g) (arg_nice g)
    (mask_x11_abstract_socket g) (cfg_homedir g) (cfg_profile g)
    (cfg_overlay_dir g) (cfg_command_line g) (cfg_window_title g)
    (cfg_shell g) (cfg_cwd g) (cfg_cgroup g) (cfg_cpus g) (cfg_protocol g)
    (cfg_nice g).

Definition with_arg_nogroups (v : Z) (g : globals) : globals :=
  mkGlobals
    (arg_debug g) (arg_debug_blacklists g) (arg_overlay_keep g)
    (arg_overlay_reuse g) (arg_private_dev g) (arg_join_network g)
    (arg_join_filesystem g) (arg_doubledash g) v (arg_noroot g) (arg_nice g)
    (mask_x11_abstract_socket g) (cfg_homedir g) (cfg_profile g)
    (cfg_overlay_dir g) (cfg_command_line g) (cfg_window_title g)
    (cfg_shell g) (cfg_cwd g) (cfg_cgroup g) (cfg_cpus g) (cfg_protocol g)
    (cfg_nice g).

Definition with_arg_noroot (v : Z) (g : globals) : globals :=
  mkGlobals
    (arg_debug g) (arg_debug_blacklists g) (arg_overlay_keep g)
    (arg_overlay_reuse g) (arg_private_dev g) (arg_join_network g)
    (arg_join_filesystem g) (arg_doubledash g) (arg_nogroups g) v (arg_nice g)
    (mask_x11_abstract_socket g) (cfg_homedir g) (cfg_profile g)
    (cfg_overlay_dir g) (cfg_command_line g) (cfg_window_title g)
    (cfg_shell g) (cfg_cwd g) (cfg_cgroup g) (cfg_cpus g) (cfg_protocol g)
    (cfg_nice g).

Definition with_mask_x11_abstract_socket (v : Z) (g : globals) : globals :=
  mkGlobals
    (arg_debug g) (arg_debug_blacklists g) (arg_overlay_keep g)
    (arg_overlay_reuse g) (arg_private_dev g) (arg_join_network g)
    (arg_join_filesystem g) (arg_doubledash g) (arg_nogroups g) (arg_noroot g)
    (arg_nice g) v (cfg_homedir g) (cfg_profile g) (cfg_overlay_dir g)
    (cfg_command_line g) (cfg_window_title g) (cfg_shell g) (cfg_cwd g)
    (cfg_cgroup g) (cfg_cpus g) (cfg_protocol g) (cfg_nice g).

Definition with_cfg_command_line (v : option string) (g : globals) : globals :=
  mkGlobals
    (arg_debug g) (arg_debug_blacklists g) (arg_overlay_keep g)
    (arg_overlay_reuse g) (arg_private_dev g) (arg_join_network g)
    (arg_join_filesystem g) (arg_doubledash g) (arg_nogroups g) (arg_noroot g)
    (arg_nice g) (mask_x11_abstract_socket g) (cfg_homedir g) (cfg_profile g)
    (cfg_overlay_dir g) v (cfg_window_title g) (cfg_shell g) (cfg_cwd g)
    (cfg_cgroup g) (cfg_cpus g) (cfg_protocol g) (cfg_nice g).

Definition with_cfg_window_title (v : option string) (g : globals) : globals :=
  mkGlobals
    (arg_debug g) (arg_debug_blacklists g) (arg_overlay_keep g)
    (arg_overlay_reuse g) (arg_private_dev g) (arg_join_network g)
    (arg_join_filesystem g) (arg_doubledash g) (arg_nogroups g) (arg_noroot g)
    (arg_nice g) (mask_x11_abstract_socket g) (cfg_homedir g) (cfg_profile g)
    (cfg_overlay_dir g) (cfg_command_line g) v (cfg_shell g) (cfg_cwd g)
    (cfg_cgroup g) (cfg_cpus g) (cfg_protocol g) (cfg_nice g).

Definition with_cfg_shell (v : option string) (g : globals) : globals :=
  mkGlobals
    (arg_debug g) (arg_debug_blacklists g) (arg_overlay_keep g)
    (arg_overlay_reuse g) (arg_private_dev g) (arg_join_network g)
    (arg_join_filesystem g) (arg_doubledash g) (arg_nogroups g) (arg_noroot g)
    (arg_nice g) (mask_x11_abstract_socket g) (cfg_homedir g) (cfg_profile g)
    (cfg_overlay_dir g) (cfg_command_line g) (cfg_window_title g) v
    (cfg_cwd g) (cfg_cgroup g) (cfg_cpus g) (cfg_protocol g) (cfg_nice g).

Definition with_cfg_cgroup (v : option string) (g : globals) : globals :=
  mkGlobals
    (arg_debug g) (arg_debug_blacklists g) (arg_overlay_keep g)
    (arg_overlay_reuse g) (arg_private_dev g) (arg_join_network g)
    (arg_join_filesystem g) (arg_doubledash g) (arg_nogroups g) (arg_noroot g)
    (arg_nice g) (mask_x11_abstract_socket g) (cfg_homedir g) (cfg_profile g)
    (cfg_overlay_dir g) (cfg_command_line g) (cfg_window_title g)
    (cfg_shell g) (cfg_cwd g) v (cfg_cpus g) (cfg_protocol g) (cfg_nice g).

Definition with_cfg_cpus (v : Z) (g : globals) : globals :=
  mkGlobals
    (arg_debug g) (arg_debug_blacklists g) (arg_overlay_keep g)
    (arg_overlay_reuse g) (arg_private_dev g) (arg_join_network g)
    (arg_join_filesystem g) (arg_doubledash g) (arg_nogroups g) (arg_noroot g)
    (arg_nice g) (mask_x11_abstract_socket g) (cfg_homedir g) (cfg_profile g)
    (cfg_overlay_dir g) (cfg_command_line g) (cfg_window_title g)
    (cfg_shell g) (cfg_cwd g) (cfg_cgroup g) v (cfg_protocol g) (cfg_nice g).

Record state (K : Type) := mkState {
  kern : K;
  trace : list event;
  glob : globals;
  (* fs.c *)
  tmpfs_mounted : Z;
  last_disable : LAST_DISABLE_OPERATION;
  (* join.c *)
  apply_caps : Z;
  caps : Z;
  apply_seccomp : Z
}.
Arguments mkState {K}.
Arguments kern {K}.
Arguments trace {K}.
Arguments glob {K}.
Arguments tmpfs_mounted {K}.
Arguments last_disable {K}.
Arguments apply_caps {K}.
Arguments caps {K}.
Arguments apply_seccomp {K}.

(** ** The monad *)

Inductive outcome (S A : Type) :=
| Ret (a : A) (s : S)        (* the function returns *)
| Exit (code : Z) (s : S)    (* exit(code) *)
| Abort (s : S).             (* a failed assert *)
Arguments Ret {S A} a s.
Arguments Exit {S A} code s.
Arguments Abort {S A} s.

Definition M (S A : Type) : Type := S -> outcome S A.

Definition ret {S A} (a : A) : M S A := fun s => Ret a s.

Definition bind {S A B} (m : M S A) (f : A -> M S B) : M S B :=
  fun s => match m s with
           | Ret a s' => f a s'
           | Exit c s' => Exit c s'
           | Abort s' => Abort s'
           end.

Definition final {S A} (o : outcome S A) : S :=
  match o with Ret _ s => s | Exit _ s => s | Abort s => s end.

Declare Scope run_scope.
Delimit Scope run_scope with run.
Notation "x <- m ;; k" := (bind m (fun x => k))
  (at level 100, m at next level, right associativity) : run_scope.
Notation "m ;; k" := (bind m (fun _ => k))
  (at level 100, right associativity) : run_scope.
Local Open Scope run_scope.

(** Monadic iteration over a list, in order. *)
Fixpoint for_each {S A} (f : A -> M S unit) (l : list A) : M S unit :=
  match l with
  | [] => ret tt
  | a :: l' => f a ;; for_each f l'
  end.

(** * The model *)

Section Model.

Context {K : Type} {W : World K}.

Abbreviation st := (state K).
Abbreviation Run := (M (state K)).

(** ** State updates *)

Definition set_kern (k : K) (s : st) : st :=
  mkState k (trace s) (glob s) (tmpfs_mounted s) (last_disable s)
          (apply_caps s) (caps s) (apply_seccomp s).

Definition emit (e : event) (s : st) : st :=
  mkState (kern s) (trace s ++ [e]) (glob s) (tmpfs_mounted s) (last_disable s)
          (apply_caps s) (caps s) (apply_seccomp s).

Definition set_glob (g : globals) (s : st) : st :=
  mkState (kern s) (trace s) g (tmpfs_mounted s) (last_disable s)
          (apply_caps s) (caps s) (apply_seccomp s).

Definition set_tmpfs_mounted (v : Z) (s : st) : st :=
  mkState (kern s) (trace s) (glob s) v (last_disable s)
          (apply_caps s) (caps s) (apply_seccomp s).

Definition set_last_disable (v : LAST_DISABLE_OPERATION) (s : st) : st :=
  mkState (kern s) (trace s) (glob s) (tmpfs_mounted s) v
          (apply_caps s) (caps s) (apply_seccomp s).

Definition set_apply_caps (v : Z) (s : st) : st :=
  mkState (kern s) (trace s) (glob s) (tmpfs_mounted s) (last_disable s)
          v (caps s) (apply_seccomp s).

Definition set_caps (v : Z) (s : st) : st :=
  mkState (kern s) (trace s) (glob s) (tmpfs_mounted s) (last_disable s)
          (apply_caps s) v (apply_seccomp s).

Definition set_apply_seccomp (v : Z) (s : st) : st :=
  mkState (kern s) (trace s) (glob s) (tmpfs_mounted s) (last_disable s)
          (apply_caps s) (caps s) v.

(** ** Primitive actions *)

Definition get {A} (f : st -> A) : Run A := fun s => Ret (f s) s.
Definition modify (f : st -> st) : Run unit := fun s => Ret tt (f s).
(** Assignment to a global of another file. *)
Definition assign (f : globals -> globals) : Run unit :=
  modify (fun s => set_glob (f (glob s)) s).
Definition exit {A} (code : Z) : Run A := fun s => Exit code s.
Definition abort {A} : Run A := fun s => Abort s.

(** [assert(b)] *)
Definition assert (b : bool) : Run unit := if b then ret tt else abort.

Definition when (b : bool) (m : Run unit) : Run unit := if b then m else ret tt.

(** A system call: the attempt is recorded, the kernel decides. The result is
    [true] when the call returns 0. *)
Definition sys (c : syscall) : Run bool :=
  fun s =>
    let s1 := emit (EvSys c) s in
    match sys_step (kern s) c with
    | Some k' => Ret true (set_kern k' s1)
    | None => Ret false s1
    end.

(** A call into another file of the program. *)
Definition call_ext (c : call) : Run Z :=
  fun s =>
    let s1 := emit (EvCall c) s in
    match ext_call (kern s) c with
    | Returned rv k' => Ret rv (set_kern k' s1)
    | Exited code k' => Exit code (set_kern k' s1)
    end.

Definition call_ext_ (c : call) : Run unit := call_ext c ;; ret tt.

Definition printf (fmt : string) (args : list farg) : Run unit :=
  modify (emit (EvStdout fmt args)).
Definition eprintf (fmt : string) (args : list farg) : Run unit :=
  modify (emit (EvStderr fmt args)).

(** Modelled from the spec: the [errExit] macro of firejail.h is not part of
    the two files; fatal errors report through perror and end the process with
    exit code 1 (spec, Exit codes). *)
Definition errExit {A} (msg : string) : Run A :=
  modify (emit (EvPerror msg)) ;; exit 1.

Definition fs_logger (msg : string) : Run unit := modify (emit (EvLogger msg)).
Definition fs_logger2 (msg1 msg2 : string) : Run unit :=
  modify (emit (EvLogger2 msg1 msg2)).

(** [if (arg_debug) printf(...)] *)
Definition debugf (fmt : string) (args : list farg) : Run unit :=
  d <- get (fun s => arg_debug (glob s)) ;;
  when (nz d) (printf fmt args).

Definition stat (path : string) : Run (option stat_t) :=
  get (fun s => k_stat (kern s) path).

Definition getuid : Run Z := get (fun s => k_getuid (kern s)).

Definition getenv (name : string) : Run (option string) :=
  get (fun s => k_getenv (kern s) name).

(** [if (c < 0) errExit(msg)] around a system call *)
Definition sys_or_die (c : syscall) (msg : string) : Run unit :=
  ok <- sys c ;;
  if ok then ret tt else errExit msg.

(** The [ASSERT_PERMS] macro of firejail.h: the process does not survive a
    file whose owner or mode is not the expected one. *)
Definition ASSERT_PERMS (file : string) (uid gid mode : Z) : Run unit :=
  ok <- get (fun s => ASSERT_PERMS_ok (kern s) file uid gid mode) ;;
  assert ok.

Definition EUID_ASSERT : Run unit :=
  ok <- get (fun s => EUID_ASSERT_ok (kern s)) ;;
  assert ok.

(** ** fs.c: the staging directory *)

Definition create_dir_as_root (dir : string) (mode : Z) : Run unit :=
  debugf "Creating %s directory\n" [FS dir] ;;
  sys_or_die (SysMkdir dir mode) "mkdir" ;;
  sys_or_die (SysChmod dir mode) "chmod" ;;
  ASSERT_PERMS dir 0 0 mode.

Definition create_empty_dir : Run unit :=
  r <- stat RUN_RO_DIR ;;
  match r with
  | Some _ => ret tt
  | None =>
      sys_or_die (SysMkdir RUN_RO_DIR (Z.lor S_IRUSR S_IXUSR)) "mkdir" ;;
      sys_or_die (SysChmod RUN_RO_DIR (Z.lor S_IRUSR S_IXUSR)) "chmod" ;;
      ASSERT_PERMS RUN_RO_DIR 0 0 (Z.lor S_IRUSR S_IXUSR)
  end.

Definition create_empty_file : Run unit :=
  r <- stat RUN_RO_FILE ;;
  match r with
  | Some _ => ret tt
  | None =>
      sys_or_die (SysFopenW RUN_RO_FILE) "fopen" ;;
      call_ext_ (CSetPermsStream RUN_RO_FILE 0 0 S_IRUSR)
  end.

(** [if (stat(dir, &s)) create_dir_as_root(dir, 0755);] *)
Definition ensure_dir (dir : string) : Run unit :=
  r <- stat dir ;;
  match r with
  | Some _ => ret tt
  | None => create_dir_as_root dir o0755
  end.

Definition fs_build_firejail_dir : Run unit :=
  ensure_dir RUN_FIREJAIL_BASEDIR ;;
  r <- stat RUN_FIREJAIL_DIR ;;
  match r with
  | Some s =>
      if negb (st_uid s =? 0) || negb (st_gid s =? 0) then
        eprintf "Error: non-root %s directory, exiting...\n" [FS RUN_FIREJAIL_DIR] ;;
        exit 1
      else ret tt
  | None => create_dir_as_root RUN_FIREJAIL_DIR o0755
  end ;;
  ensure_dir RUN_FIREJAIL_NETWORK_DIR ;;
  ensure_dir RUN_FIREJAIL_BANDWIDTH_DIR ;;
  ensure_dir RUN_FIREJAIL_NAME_DIR ;;
  ensure_dir RUN_FIREJAIL_X11_DIR ;;
  ensure_dir RUN_FIREJAIL_APPIMAGE_DIR ;;
  create_empty_dir ;;
  create_empty_file.

Definition staging_mount : syscall :=
  SysMount (Some "tmpfs") RUN_MNT_DIR (Some "tmpfs")
           (Z.lor (Z.lor MS_NOSUID MS_STRICTATIME) MS_REC) (Some "mode=755,gid=0").

Definition fs_build_mnt_dir : Run unit :=
  fs_build_firejail_dir ;;
  ensure_dir RUN_MNT_DIR ;;
  m <- get tmpfs_mounted ;;
  if nz m then ret tt
  else
    debugf "Mounting tmpfs on %s directory\n" [FS RUN_MNT_DIR] ;;
    sys_or_die staging_mount "mounting /run/firejail/mnt" ;;
    modify (set_tmpfs_mounted 1) ;;
    fs_logger2 "tmpfs" RUN_MNT_DIR.

Definition fs_build_remount_mnt_dir : Run unit :=
  modify (set_tmpfs_mounted 0) ;;
  fs_build_mnt_dir.

(** ** fs.c: mount primitives *)

Definition fs_rdonly (dir : string) : Run unit :=
  r <- stat dir ;;
  match r with
  | Some _ =>
      sys_or_die (SysMount (Some dir) dir None (Z.lor MS_BIND MS_REC) None)
                 "mount read-only" ;;
      sys_or_die (SysMount None dir None
                           (Z.lor (Z.lor (Z.lor MS_BIND MS_REMOUNT) MS_RDONLY) MS_REC) None)
                 "mount read-only" ;;
      fs_logger2 "read-only" dir
  | None => ret tt
  end.

Definition fs_rdwr (dir : string) : Run unit :=
  r <- stat dir ;;
  match r with
  | Some s =>
      u <- getuid ;;
      if negb (u =? 0) && negb (st_uid s =? u) then
        eprintf "Warning: you are not allowed to change %s to read-write\n" [FS dir]
      else
        sys_or_die (SysMount (Some dir) dir None (Z.lor MS_BIND MS_REC) None)
                   "mount read-write" ;;
        sys_or_die (SysMount None dir None
                             (Z.lor (Z.lor MS_BIND MS_REMOUNT) MS_REC) None)
                   "mount read-write" ;;
        fs_logger2 "read-write" dir
  | None => ret tt
  end.

Definition fs_noexec (dir : string) : Run unit :=
  r <- stat dir ;;
  match r with
  | Some _ =>
      sys_or_die (SysMount (Some dir) dir None (Z.lor MS_BIND MS_REC) None)
                 "mount noexec" ;;
      sys_or_die (SysMount None dir None
                           (Z.lor (Z.lor (Z.lor (Z.lor (Z.lor MS_BIND MS_REMOUNT) MS_NOEXEC)
                                                MS_NODEV) MS_NOSUID) MS_REC) None)
                 "mount read-only" ;;
      fs_logger2 "noexec" dir
  | None => ret tt
  end.

(** ** fs.c: processing one profile target *)

Inductive OPERATION :=
| BLACKLIST_FILE | BLACKLIST_NOLOG | MOUNT_READONLY | MOUNT_TMPFS
| MOUNT_NOEXEC | MOUNT_RDWR | OPERATION_MAX.

Definition is_blacklist_op (op : OPERATION) : bool :=
  match op with BLACKLIST_FILE | BLACKLIST_NOLOG => true | _ => false end.

(** The two donors, as [disable_file] mounts them. *)
Definition donor_mount (donor target : string) : syscall :=
  SysMount (Some donor) target (Some "none") MS_BIND (Some "mode=400,gid=0").

Definition tmpfs_mount (target : string) : syscall :=
  SysMount (Some "tmpfs") target (Some "tmpfs")
           (Z.lor (Z.lor (Z.lor MS_NOSUID MS_NODEV) MS_STRICTATIME) MS_REC) None.

(** [fs_logger2("blacklist", name)] or [fs_logger2("blacklist-nolog", name)] *)
Definition log_blacklist (op : OPERATION) (name : string) : Run unit :=
  match op with
  | BLACKLIST_FILE => fs_logger2 "blacklist" name
  | _ => fs_logger2 "blacklist-nolog" name
  end.

(** realpath failed with EACCES: mount a donor over the raw name. *)
Definition disable_file_forced (op : OPERATION) (filename : string) : Run unit :=
  debugf "Debug: no access to file %s, forcing mount\n" [FS filename] ;;
  rv <- sys (donor_mount RUN_RO_DIR filename) ;;
  (if rv then modify (set_last_disable SUCCESSFUL)
   else
     rv <- sys (donor_mount RUN_RO_FILE filename) ;;
     when rv (modify (set_last_disable SUCCESSFUL))) ;;
  ld <- get last_disable ;;
  match ld with
  | SUCCESSFUL =>
      debugf "Disable %s\n" [FS filename] ;;
      log_blacklist op filename
  | UNSUCCESSFUL =>
      debugf "Warning (blacklisting): %s is an invalid file, skipping...\n" [FS filename]
  end.

(** The symlinked /bin or /usr/bin directory that is left alone. *)
Definition bin_link_exempt (k : K) (filename fname : string) (s : stat_t) : bool :=
  (strcmp0 fname "/bin" || strcmp0 fname "/usr/bin")
  && is_link k filename && S_ISDIR (st_mode s).

Definition disable_file_blacklist (op : OPERATION) (filename fname : string)
           (s : stat_t) : Run unit :=
  ex <- get (fun x => bin_link_exempt (kern x) filename fname s) ;;
  if ex then
    eprintf "Warning: %s directory link was not blacklisted\n" [FS filename]
  else
    d <- get (fun x => arg_debug (glob x)) ;;
    db <- get (fun x => arg_debug_blacklists (glob x)) ;;
    (if nz d then printf "Disable %s\n" [FS fname]
     else if nz db then
       printf "Disable %s" [FS fname] ;;
       match op with
       | BLACKLIST_FILE => printf "\n" []
       | _ => printf " - no logging\n" []
       end
     else ret tt) ;;
    (if S_ISDIR (st_mode s)
     then sys_or_die (donor_mount RUN_RO_DIR fname) "disable file"
     else sys_or_die (donor_mount RUN_RO_FILE fname) "disable file") ;;
    modify (set_last_disable SUCCESSFUL) ;;
    log_blacklist op fname.

Definition disable_file_tmpfs (fname : string) (s : stat_t) : Run unit :=
  if S_ISDIR (st_mode s) then
    debugf "Mounting tmpfs on %s\n" [FS fname] ;;
    sys_or_die (tmpfs_mount fname) "mounting tmpfs" ;;
    sys_or_die (SysChown fname (st_uid s) (st_gid s)) "mounting tmpfs chmod" ;;
    modify (set_last_disable SUCCESSFUL) ;;
    fs_logger2 "tmpfs" fname
  else
    printf "Warning: %s is not a directory; cannot mount a tmpfs on top of it.\n" [FS fname].

Definition disable_file (op : OPERATION) (filename : string) : Run unit :=
  assert (negb (match op with OPERATION_MAX => true | _ => false end)) ;;
  modify (set_last_disable UNSUCCESSFUL) ;;
  fs_build_firejail_dir ;;
  r <- get (fun s => k_realpath (kern s) filename) ;;
  match r with
  | inr errno =>
      if negb (errno =? EACCES) then ret tt
      else disable_file_forced op filename
  | inl fname =>
      r <- stat fname ;;
      match r with
      | None => debugf "Warning: %s does not exist, skipping...\n" [FS fname]
      | Some s =>
          match op with
          | BLACKLIST_FILE | BLACKLIST_NOLOG =>
              disable_file_blacklist op filename fname s
          | MOUNT_READONLY =>
              debugf "Mounting read-only %s\n" [FS fname] ;;
              fs_rdonly fname
          | MOUNT_RDWR =>
              debugf "Mounting read-only %s\n" [FS fname] ;;
              fs_rdwr fname
          | MOUNT_NOEXEC =>
              debugf "Mounting noexec %s\n" [FS fname] ;;
              fs_noexec fname
          | MOUNT_TMPFS => disable_file_tmpfs fname s
          | OPERATION_MAX => abort
          end
      end
  end.

(** ** fs.c: globbing *)

(** The inner loop of [globbing]: compare a path with the exception list.
    [inl b] is the final value of [okay_to_blacklist], [inr p] the pattern
    fnmatch could not handle. *)
Fixpoint okay_to_blacklist (noblacklist : list string) (path : string)
  : bool + string :=
  match noblacklist with
  | [] => inl true
  | p :: rest =>
      match k_fnmatch p path with
      | FNM_NOMATCH => okay_to_blacklist rest path
      | FNM_MATCH => inl false
      | FNM_ERROR _ => inr p
      end
  end.

(** One iteration of the outer loop of [globbing]. *)
Definition globbing_path (op : OPERATION) (noblacklist : list string)
           (path : string) : Run unit :=
  let base := gnu_basename path in
  if strcmp0 base "." || strcmp0 base ".." then ret tt
  else
    match okay_to_blacklist noblacklist path with
    | inr p =>
        eprintf "Error: failed to compare path %s with pattern %s\n" [FS path; FS p] ;;
        exit 1
    | inl true => disable_file op path
    | inl false => debugf "Not blacklist %s\n" [FS path]
    end.

Definition globbing (op : OPERATION) (pattern : string)
           (noblacklist : list string) : Run unit :=
  g <- get (fun s => k_glob (kern s) pattern) ;;
  match g with
  | None =>
      eprintf "Error: failed to glob pattern %s\n" [FS pattern] ;;
      exit 1
  | Some paths => for_each (globbing_path op noblacklist) paths
  end.

(** ** fs.c: the profile interpreter *)

(** The [bind] directive; [arg] is the text after "bind ". *)
Definition fs_blacklist_bind (arg : string) : Run unit :=
  let (dname1, o) := split_comma arg in
  match o with
  | None => eprintf "Error: second directory missing in bind command\n" []
  | Some dname2 =>
      r1 <- stat dname1 ;;
      match r1 with
      | None => eprintf "Error: cannot find %s for bind command\n" [FS dname1]
      | Some _ =>
          r2 <- stat dname2 ;;
          match r2 with
          | None => eprintf "Error: cannot find %s for bind command\n" [FS dname2]
          | Some s =>
              debugf "Mount-bind %s on top of %s\n" [FS dname1; FS dname2] ;;
              sys_or_die (SysMount (Some dname1) dname2 None (Z.lor MS_BIND MS_REC) None)
                         "mount bind" ;;
              sys_or_die (SysChown dname2 (st_uid s) (st_gid s)) "mount-bind chown" ;;
              sys_or_die (SysChmod dname2 (st_mode s)) "mount-bind chmod"
          end
      end
  end.

(** The names a [noblacklist] directive appends to the exception list; [arg]
    is the text after "noblacklist ".  (The C array [enames] has room for
    [sizeof(paths)] names; [build_paths] is taken to return no more.) *)
Definition noblacklist_enames (k : K) (homedir arg : string) : list string :=
  if strncmp0 arg "${PATH}" 7
  then map (fun p => p ++ str_drop 7 arg) (build_paths k)
  else match expand_home arg homedir with
       | Some e => [e]
       | None => []
       end.

(** The chain of prefix tests that selects the operation of a directive. *)
Definition directive_op (data : string) : option (OPERATION * string) :=
  if strncmp0 data "blacklist " 10 then Some (BLACKLIST_FILE, str_drop 10 data)
  else if strncmp0 data "blacklist-nolog " 16 then Some (BLACKLIST_NOLOG, str_drop 16 data)
  else if strncmp0 data "read-only " 10 then Some (MOUNT_READONLY, str_drop 10 data)
  else if strncmp0 data "read-write " 11 then Some (MOUNT_RDWR, str_drop 11 data)
  else if strncmp0 data "noexec " 7 then Some (MOUNT_NOEXEC, str_drop 7 data)
  else if strncmp0 data "tmpfs " 6 then Some (MOUNT_TMPFS, str_drop 6 data)
  else None.

(** Macro expansion and globbing of the target of a directive. *)
Definition fs_blacklist_target (homedir : string) (op : OPERATION) (ptr : string)
           (noblacklist : list string) : Run unit :=
  match expand_home ptr homedir with
  | None => ret tt
  | Some new_name =>
      if strncmp0 new_name "${PATH}" 7 then
        let fname := str_drop 7 new_name in
        paths <- get (fun s => build_paths (kern s)) ;;
        for_each (fun path => globbing op (path ++ fname) noblacklist) paths
      else globbing op new_name noblacklist
  end.

(** The directives [fs_blacklist] skips without a word. *)
Definition ignored_directive (data : string) : bool :=
  strncmp0 data "whitelist " 10
  || String.eqb data ""
  || strncmp0 data "args-path " 10
  || strncmp0 data "args-whitelist " 15
  || strncmp0 data "args-read-only " 15
  || strncmp0 data "args-noexec " 11.

(** One iteration of the [while (entry)] loop; the result is the exception
    list for the next entry. *)
Definition fs_blacklist_entry (homedir : string) (data : string)
           (noblacklist : list string) : Run (list string) :=
  if ignored_directive data then ret noblacklist
  else if strncmp0 data "bind " 5 then
    fs_blacklist_bind (str_drop 5 data) ;;
    ret noblacklist
  else if strncmp0 data "noblacklist " 12 then
    enames <- get (fun s => noblacklist_enames (kern s) homedir (str_drop 12 data)) ;;
    ret (noblacklist ++ enames)%list
  else
    match directive_op data with
    | None =>
        eprintf "Error: invalid profile line %s\n" [FS data] ;;
        ret noblacklist
    | Some (op, ptr) =>
        fs_blacklist_target homedir op ptr noblacklist ;;
        ret noblacklist
    end.

Fixpoint fs_blacklist_entries (homedir : string) (entries : list string)
         (noblacklist : list string) : Run (list string) :=
  match entries with
  | [] => ret noblacklist
  | data :: rest =>
      nb <- fs_blacklist_entry homedir data noblacklist ;;
      fs_blacklist_entries homedir rest nb
  end.

(** Memory allocation is taken to succeed. *)
Definition fs_blacklist : Run unit :=
  h <- get (fun s => cfg_homedir (glob s)) ;;
  match h with
  | None => abort
  | Some homedir =>
      entries <- get (fun s => cfg_profile (glob s)) ;;
      match entries with
      | [] => ret tt
      | _ => fs_blacklist_entries homedir entries [] ;; ret tt
      end
  end.

(** ** fs.c: the standard bootstrap after a change of root *)

Definition disable_config : Run unit :=
  h <- get (fun s => cfg_homedir (glob s)) ;;
  let fname := str_or_null h ++ "/.config/firejail" in
  r <- stat fname ;;
  when (match r with Some _ => true | None => false end)
       (disable_file BLACKLIST_FILE fname) ;;
  for_each (fun d =>
              r <- stat d ;;
              when (match r with Some _ => true | None => false end)
                   (disable_file BLACKLIST_FILE d))
           [RUN_FIREJAIL_NETWORK_DIR; RUN_FIREJAIL_BANDWIDTH_DIR;
            RUN_FIREJAIL_NAME_DIR; RUN_FIREJAIL_X11_DIR].

(** The block shared by [fs_overlayfs] and [fs_chroot] after the chroot. *)
Definition post_chroot_bootstrap : Run unit :=
  pd <- get (fun s => arg_private_dev (glob s)) ;;
  when (negb (nz pd)) (call_ext_ CFsDevShm) ;;
  call_ext_ CFsVarLock ;;
  call_ext_ CFsVarTmp ;;
  call_ext_ CFsVarLog ;;
  call_ext_ CFsVarLib ;;
  call_ext_ CFsVarCache ;;
  call_ext_ CFsVarUtmp ;;
  call_ext_ CRestrictUsers ;;
  u <- getuid ;;
  when (negb (u =? 0)) disable_config.

(** ** sscanf(release, "%d.%d", &major, &minor) *)

Definition isspace (c : ascii) : bool :=
  let n := Z.of_nat (nat_of_ascii c) in
  (n =? 32) || ((9 <=? n) && (n <=? 13)).

Fixpoint skip_space (s : string) : string :=
  match s with
  | String c s' => if isspace c then skip_space s' else s
  | EmptyString => s
  end.

Definition digit_val (c : ascii) : option Z :=
  let n := Z.of_nat (nat_of_ascii c) in
  if (48 <=? n) && (n <=? 57) then Some (n - 48) else None.

Fixpoint scan_digits (acc : Z) (s : string) : Z * string :=
  match s with
  | String c s' =>
      match digit_val c with
      | Some d => scan_digits (acc * 10 + d) s'
      | None => (acc, s)
      end
  | EmptyString => (acc, s)
  end.

(** glibc converts with strtol, which saturates at the bounds of [long], and
    stores the low 32 bits in the [int]. *)
Definition store_int (v : Z) : Z :=
  let l := Z.max (- 2 ^ 63) (Z.min v (2 ^ 63 - 1)) in
  (l + 2 ^ 31) mod 2 ^ 32 - 2 ^ 31.

(** One [%d] conversion: the value and the rest of the input, or [None] on a
    matching failure. *)
Definition scan_int (s : string) : option (Z * string) :=
  let s1 := skip_space s in
  let '(neg, s2) :=
    match s1 with
    | String "-" r => (true, r)
    | String "+" r => (false, r)
    | _ => (false, s1)
    end in
  match s2 with
  | String c _ =>
      match digit_val c with
      | Some _ =>
          let (v, rest) := scan_digits 0 s2 in
          Some (store_int (if neg then - v else v), rest)
      | None => None
      end
  | EmptyString => None
  end.

(** [Some (major, minor)] exactly when sscanf returns 2. *)
Definition sscanf_d_dot_d (s : string) : option (Z * Z) :=
  match scan_int s with
  | Some (major, String "." rest) =>
      match scan_int rest with
      | Some (minor, _) => Some (major, minor)
      | None => None
      end
  | _ => None
  end.

(** ** fs.c: the overlay *)

(** [if (stat(d, &s) != 0) { if (mkdir(d, mode)) errExit("mkdir"); }
     if (chown(d, 0, 0) < 0) errExit("chown");
     if (chmod(d, 0755) < 0) errExit("chmod");] *)
Definition overlay_dir (d : string) (mode : Z) : Run unit :=
  r <- stat d ;;
  match r with
  | Some _ => ret tt
  | None => sys_or_die (SysMkdir d mode) "mkdir"
  end ;;
  sys_or_die (SysChown d 0 0) "chown" ;;
  sys_or_die (SysChmod d o0755) "chmod".

Definition overlay_basedir : Run string :=
  keep <- get (fun s => arg_overlay_keep (glob s)) ;;
  if nz keep then
    basedir <- get (fun s => cfg_overlay_dir (glob s)) ;;
    r <- stat basedir ;;
    match r with
    | Some _ =>
        reuse <- get (fun s => arg_overlay_reuse (glob s)) ;;
        if reuse =? 0 then
          eprintf "Error: overlay directory exists, but reuse is not allowed\n" [] ;;
          exit 1
        else ret tt
    | None =>
        ok <- sys (SysMkdir basedir o0755) ;;
        if ok then ret tt
        else eprintf "Error: cannot create overlay directory\n" [] ;; exit 1
    end ;;
    ret basedir
  else ret RUN_MNT_DIR.

Definition legacy_overlay_mount (oroot odiff : string) : syscall :=
  SysMount (Some "overlayfs") oroot (Some "overlayfs") MS_MGC_VAL
           (Some ("lowerdir=/,upperdir=" ++ odiff)).

Definition modern_overlay_mount (oroot odiff owork : string) : syscall :=
  SysMount (Some "overlay") oroot (Some "overlay") MS_MGC_VAL
           (Some ("lowerdir=/,upperdir=" ++ odiff ++ ",workdir=" ++ owork)).

(** The second overlay, for a home directory on its own mount point. *)
Definition overlay_home (basedir oroot odiff owork : string) : Run unit :=
  debugf "DEBUG: chroot dirs are oroot %s  odiff %s  owork %s\n"
         [FS oroot; FS odiff; FS owork] ;;
  h <- get (fun s => cfg_homedir (glob s)) ;;
  let overlayhome := oroot ++ str_or_null h in
  debugf "DEBUG: overlayhome var holds ##%s##\n" [FS overlayhome] ;;
  r <- stat overlayhome ;;
  match r with
  | Some _ => ret tt
  | None =>
      let hroot := RUN_MNT_DIR ++ "/oroot/home" in
      let hdiff := basedir ++ "/hdiff" in
      overlay_dir hdiff (Z.lor (Z.lor S_IRWXU S_IRWXG) S_IRWXO) ;;
      let hwork := basedir ++ "/hwork" in
      overlay_dir hwork (Z.lor (Z.lor S_IRWXU S_IRWXG) S_IRWXO) ;;
      sys_or_die (SysMount (Some "overlay") hroot (Some "overlay") MS_MGC_VAL
                           (Some ("lowerdir=/home,upperdir=" ++ hdiff ++ ",workdir=" ++ hwork)))
                 "mounting overlayfs for mounted home directory" ;;
      printf "OverlayFS for /home configured in %s directory\n" [FS basedir]
  end.

Definition overlay_mount (oldkernel : bool) (basedir oroot odiff owork : string)
  : Run unit :=
  debugf "Mounting OverlayFS\n" [] ;;
  if oldkernel then
    keep <- get (fun s => arg_overlay_keep (glob s)) ;;
    (if nz keep then
       eprintf "Error: option --overlay= not available for kernels older than 3.18\n" [] ;;
       exit 1
     else ret tt) ;;
    sys_or_die (legacy_overlay_mount oroot odiff) "mounting overlayfs"
  else
    sys_or_die (modern_overlay_mount oroot odiff owork) "mounting overlayfs" ;;
    overlay_home basedir oroot odiff owork.

(** Bind mounts of /dev, /run and the X11 sockets into the overlay root. *)
Definition overlay_binds (oroot : string) : Run unit :=
  debugf "Mounting /dev\n" [] ;;
  sys_or_die (SysMount (Some "/dev") (oroot ++ "/dev") None (Z.lor MS_BIND MS_REC) None)
             "mounting /dev" ;;
  fs_logger "whitelist /dev" ;;
  debugf "Mounting /run\n" [] ;;
  sys_or_die (SysMount (Some "/run") (oroot ++ "/run") None (Z.lor MS_BIND MS_REC) None)
             "mounting /run" ;;
  fs_logger "whitelist /run" ;;
  r <- stat "/tmp/.X11-unix" ;;
  match r with
  | None => ret tt
  | Some _ =>
      debugf "Mounting /tmp/.X11-unix\n" [] ;;
      ok <- sys (SysMount (Some "/tmp/.X11-unix") (oroot ++ "/tmp/.X11-unix") None
                          (Z.lor MS_BIND MS_REC) None) ;;
      if ok then fs_logger "whitelist /tmp/.X11-unix"
      else eprintf "Warning: cannot mount /tmp/.X11-unix in overlay\n" []
  end.

(** The kernel version test at the head of [fs_overlayfs]: the value of
    [oldkernel], or the fatal error. *)
Definition overlay_kernel_check : Run bool :=
  u <- get (fun s => k_uname (kern s)) ;;
  match u with
  | None => errExit "uname"
  | Some u =>
      match sscanf_d_dot_d (release u) with
      | None =>
          eprintf "Error: cannot extract Linux kernel version: %s\n" [FS (version u)] ;;
          exit 1
      | Some (major, minor) =>
          debugf "Linux kernel version %d.%d\n" [FD major; FD minor] ;;
          if major <? 3 then
            eprintf "Error: minimum kernel version required 3.x\n" [] ;;
            exit 1
          else ret ((major =? 3) && (minor <? 18))
      end
  end.

(** The directories of the overlay and its mounts, up to the chroot. *)
Definition overlay_layers (oldkernel : bool) (oroot : string) : Run unit :=
  sys_or_die (SysMkdir oroot o0755) "mkdir" ;;
  sys_or_die (SysChmod oroot o0755) "chmod" ;;
  ASSERT_PERMS oroot 0 0 o0755 ;;
  basedir <- overlay_basedir ;;
  let odiff := basedir ++ "/odiff" in
  overlay_dir odiff o0755 ;;
  let owork := basedir ++ "/owork" in
  overlay_dir owork o0755 ;;
  overlay_mount oldkernel basedir oroot odiff owork ;;
  printf "OverlayFS configured in %s directory\n" [FS basedir] ;;
  overlay_binds oroot.

(** [fs_overlayfs] once the driver is known. *)
Definition fs_overlayfs_build (oldkernel : bool) : Run unit :=
  fs_build_mnt_dir ;;
  let oroot := RUN_MNT_DIR ++ "/oroot" in
  overlay_layers oldkernel oroot ;;
  sys_or_die (SysChroot oroot) "chroot" ;;
  post_chroot_bootstrap.

Definition fs_overlayfs : Run unit :=
  oldkernel <- overlay_kernel_check ;;
  fs_overlayfs_build oldkernel.

(** ** fs.c: chroot *)

Definition fs_chroot_prepare (rootdir : string) : Run unit :=
  let newdev := rootdir ++ "/dev" in
  debugf "Mounting /dev on %s\n" [FS newdev] ;;
  sys_or_die (SysMount (Some "/dev") newdev None (Z.lor MS_BIND MS_REC) None)
             "mounting /dev" ;;
  x <- getenv "FIREJAIL_X11" ;;
  match x with
  | None => ret tt
  | Some _ =>
      assign (with_mask_x11_abstract_socket 1) ;;
      let newx11 := rootdir ++ "/tmp/.X11-unix" in
      debugf "Mounting /tmp/.X11-unix on %s\n" [FS newx11] ;;
      sys_or_die (SysMount (Some "/tmp/.X11-unix") newx11 None (Z.lor MS_BIND MS_REC) None)
                 "mounting /tmp/.X11-unix"
  end ;;
  let rundir := rootdir ++ "/run" in
  d <- get (fun s => is_dir (kern s) rundir) ;;
  (if d then ret tt
   else sys (SysMkdir rundir o0755) ;; sys (SysChown rundir 0 0) ;; ret tt) ;;
  let fname := rootdir ++ "/etc/resolv.conf" in
  debugf "Updating /etc/resolv.conf in %s\n" [FS fname] ;;
  l <- get (fun s => is_link (kern s) fname) ;;
  if l then
    eprintf "Error: invalid %s file\n" [FS fname] ;;
    exit 1
  else
    rv <- call_ext (CCopyFile "/etc/resolv.conf" fname 0 0 o0644) ;;
    when (rv =? -1) (eprintf "Warning: /etc/resolv.conf not initialized\n" []).

Definition fs_chroot (rootdir : string) : Run unit :=
  desktop <- get (fun s => checkcfg (kern s) CFG_CHROOT_DESKTOP) ;;
  when desktop (fs_chroot_prepare rootdir) ;;
  debugf "Chrooting into %s\n" [FS rootdir] ;;
  sys_or_die (SysChroot rootdir) "chroot" ;;
  fs_build_remount_mnt_dir ;;
  desktop <- get (fun s => checkcfg (kern s) CFG_CHROOT_DESKTOP) ;;
  when desktop post_chroot_bootstrap.

(** ** join.c *)

(** [printf("%u", pid)] *)
Definition string_of_unsigned (z : Z) : string := string_of_Z (z mod 2 ^ 32).

Definition signal_handler (sig : Z) : Run unit :=
  call_ext_ CCtflush ;;
  exit sig.

Definition extract_command (argv : list string) (index : Z) : Run unit :=
  EUID_ASSERT ;;
  let argc := Z.of_nat (List.length argv) in
  if index >=? argc then ret tt
  else
    let dd := strcmp0 (nth (Z.to_nat index) argv "") "--" in
    when dd (assign (with_arg_doubledash 1)) ;;
    let index := if dd then index + 1 else index in
    if dd && (index >=? argc) then ret tt
    else
      doubledash <- get (fun s => arg_doubledash (glob s)) ;;
      let arg := nth (Z.to_nat index) argv "" in
      if (doubledash =? 0) && strncmp0 arg "-" 1 then
        eprintf "Error: invalid option %s after --join\n" [FS arg] ;;
        exit 1
      else
        call_ext_ (CBuildCmdline argv index) ;;
        let (cl, wt) := built_cmdline argv index in
        assign (with_cfg_command_line cl) ;;
        assign (with_cfg_window_title wt) ;;
        cl <- get (fun s => cfg_command_line (glob s)) ;;
        debugf "Extracted command #%s#\n" [FS (str_or_null cl)].

Definition extract_nogroups (pid : Z) : Run unit :=
  let fname := "/proc/" ++ string_of_Z pid ++ "/root" ++ RUN_GROUPS_CFG in
  r <- stat fname ;;
  match r with
  | None => ret tt
  | Some _ => assign (with_arg_nogroups 1)
  end.

Definition extract_cpu (pid : Z) : Run unit :=
  let fname := "/proc/" ++ string_of_Z pid ++ "/root" ++ RUN_CPU_CFG in
  r <- stat fname ;;
  match r with
  | None => ret tt
  | Some _ =>
      call_ext_ (CLoadCpu fname) ;;
      v <- get (fun s => loaded_cpus (kern s)) ;;
      match v with
      | Some c => assign (with_cfg_cpus c)
      | None => ret tt
      end
  end.

Definition extract_cgroup (pid : Z) : Run unit :=
  let fname := "/proc/" ++ string_of_Z pid ++ "/root" ++ RUN_CGROUP_CFG in
  r <- stat fname ;;
  match r with
  | None => ret tt
  | Some _ =>
      call_ext_ (CLoadCgroup fname) ;;
      v <- get (fun s => loaded_cgroup (kern s)) ;;
      match v with
      | Some c => assign (with_cfg_cgroup (Some c))
      | None => ret tt
      end
  end.

(** [sscanf(ptr, "%llx", &val)] *)
Definition hex_val (c : ascii) : option Z :=
  let n := Z.of_nat (nat_of_ascii c) in
  if (48 <=? n) && (n <=? 57) then Some (n - 48)
  else if (97 <=? n) && (n <=? 102) then Some (n - 87)
  else if (65 <=? n) && (n <=? 70) then Some (n - 55)
  else None.

Fixpoint scan_hex_digits (acc : Z) (s : string) : Z :=
  match s with
  | String c s' =>
      match hex_val c with
      | Some d => scan_hex_digits (acc * 16 + d) s'
      | None => acc
      end
  | EmptyString => acc
  end.

Definition scan_llx (s : string) : option Z :=
  let s1 := skip_space s in
  let '(neg, s2) :=
    match s1 with
    | String "-" r => (true, r)
    | String "+" r => (false, r)
    | _ => (false, s1)
    end in
  let s3 :=
    match s2 with
    | String "0" (String x (String h r)) =>
        if (Ascii.eqb x "x" || Ascii.eqb x "X")
           && match hex_val h with Some _ => true | None => false end
        then String h r else s2
    | _ => s2
    end in
  match s3 with
  | String c _ =>
      match hex_val c with
      | Some _ =>
          let v := Z.min (scan_hex_digits 0 s3) (2 ^ 64 - 1) in
          Some ((if neg then - v else v) mod 2 ^ 64)
      | None => None
      end
  | EmptyString => None
  end.

(** The [while (fgets(...))] loop of [extract_caps_seccomp]. *)
Fixpoint scan_status (lines : list string) : Run unit :=
  match lines with
  | [] => ret tt
  | buf :: rest =>
      if strncmp0 buf "Seccomp:" 8 then
        junk <- get (fun s => k_indeterminate (kern s)) ;;
        let val := match scan_int (str_drop 8 buf) with
                   | Some (v, _) => v
                   | None => junk
                   end in
        when (val =? 2) (modify (set_apply_seccomp 1))
      else if strncmp0 buf "CapBnd:" 7 then
        junk <- get (fun s => k_indeterminate (kern s)) ;;
        let val := match scan_llx (str_drop 7 buf) with
                   | Some v => v
                   | None => junk mod 2 ^ 64
                   end in
        modify (set_apply_caps 1) ;;
        modify (set_caps val) ;;
        scan_status rest
      else scan_status rest
  end.

Definition extract_caps_seccomp (pid : Z) : Run unit :=
  let file := "/proc/" ++ string_of_unsigned pid ++ "/status" in
  f <- get (fun s => k_fgets (kern s) file) ;;
  match f with
  | None =>
      eprintf "Error: cannot open stat file for process %u\n" [FD pid] ;;
      exit 1
  | Some lines => scan_status lines
  end.

(** [fscanf(fp, "%d %d", &u1, &u2) == 2] *)
Definition fscanf_d_d (content : string) : option (Z * Z) :=
  match scan_int content with
  | Some (u1, rest) =>
      match scan_int rest with
      | Some (u2, _) => Some (u1, u2)
      | None => None
      end
  | None => None
  end.

Definition extract_user_namespace (pid : Z) : Run unit :=
  s1 <- stat "/proc/self/ns/user" ;;
  s2 <- stat "/proc/self/uid_map" ;;
  s3 <- stat "/proc/self/gid_map" ;;
  match s1, s2, s3 with
  | Some _, Some _, Some _ =>
      let uidmap := "/proc/" ++ string_of_unsigned pid ++ "/uid_map" in
      f <- get (fun s => k_fgets (kern s) uidmap) ;;
      match f with
      | None => ret tt
      | Some lines =>
          match fscanf_d_d (String.concat "" lines) with
          | Some (u1, u2) =>
              debugf "User namespace detected: %s, %d, %d\n" [FS uidmap; FD u1; FD u2] ;;
              when (negb (u1 =? 0) || negb (u2 =? 0)) (assign (with_arg_noroot 1))
          | None => ret tt
          end
      end
  | _, _, _ => ret tt
  end.

(** [if (join_namespace(pid, ns)) exit(1);] *)
Definition join_namespace_or_exit (pid : Z) (ns : string) : Run unit :=
  rv <- call_ext (CJoinNamespace pid ns) ;;
  if rv =? 0 then ret tt else exit 1.

(** The privilege check of [join]. *)
Definition join_check_privileges (pid : Z) : Run unit :=
  uid <- getuid ;;
  if uid =? 0 then ret tt
  else
    sandbox_uid <- get (fun s => pid_get_uid (kern s) pid) ;;
    if uid =? sandbox_uid then ret tt
    else
      eprintf "Error: permission is denied to join a sandbox created by a different user.\n" [] ;;
      exit 1.

(** "in user mode set caps seccomp, cpu, cgroup, etc" *)
Definition join_extract (pid : Z) : Run unit :=
  uid <- getuid ;;
  if uid =? 0 then ret tt
  else
    extract_caps_seccomp pid ;;
    extract_cpu pid ;;
    extract_cgroup pid ;;
    extract_nogroups pid ;;
    extract_user_namespace pid.

Definition join_namespaces (pid : Z) : Run unit :=
  jn <- get (fun s => arg_join_network (glob s)) ;;
  jf <- get (fun s => arg_join_filesystem (glob s)) ;;
  if nz jn then join_namespace_or_exit pid "net"
  else if nz jf then join_namespace_or_exit pid "mnt"
  else
    join_namespace_or_exit pid "ipc" ;;
    join_namespace_or_exit pid "net" ;;
    join_namespace_or_exit pid "pid" ;;
    join_namespace_or_exit pid "uts" ;;
    join_namespace_or_exit pid "mnt".

(** [chdir("/")], then the home directory if it is there. *)
Definition chdir_home (homedir : option string) : Run unit :=
  sys_or_die (SysChdir "/") "chdir" ;;
  match homedir with
  | None => ret tt
  | Some h =>
      r <- stat h ;;
      match r with
      | Some _ => sys_or_die (SysChdir h) "chdir"
      | None => ret tt
      end
  end.

Definition dquote : string := String (ascii_of_nat 34) EmptyString.

(** The green prompt, as the shell receives it. *)
Definition prompt_command : string :=
  "export PS1=" ++ dquote ++ "\[\e[1;32m\][\u@\h \W]\$\[\e[0m\] " ++ dquote.

(** The command line falls back to a shell found inside the sandbox. *)
Definition join_resolve_shell : Run unit :=
  cl <- get (fun s => cfg_command_line (glob s)) ;;
  match cl with
  | Some _ => ret tt
  | None =>
      sh <- get (fun s => cfg_shell (glob s)) ;;
      match sh with
      | Some _ => ret tt
      | None =>
          g <- get (fun s => guess_shell (kern s)) ;;
          assign (with_cfg_shell g) ;;
          match g with
          | Some _ => ret tt
          | None =>
              eprintf "Error: no POSIX shell found, please use --shell command line option\n" [] ;;
              exit 1
          end
      end ;;
      sh <- get (fun s => cfg_shell (glob s)) ;;
      r <- stat (str_or_null sh) ;;
      match r with
      | None =>
          eprintf "Error: %s shell not found inside the sandbox\n" [FS (str_or_null sh)] ;;
          exit 1
      | Some _ => ret tt
      end ;;
      assign (with_cfg_command_line sh) ;;
      assign (with_cfg_window_title sh)
  end.

(** The security context, as the child applies it (built with HAVE_SECCOMP). *)
Definition join_apply_context : Run unit :=
  cpus <- get (fun s => cfg_cpus (glob s)) ;;
  when (nz cpus) (call_ext_ CSetCpuAffinity) ;;
  ac <- get apply_caps ;;
  c <- get caps ;;
  when (ac =? 1) (call_ext_ (CCapsSet c)) ;;
  u <- getuid ;;
  when (negb (u =? 0)) (call_ext_ (CProtocolFilterLoad RUN_PROTOCOL_CFG)) ;;
  p <- get (fun s => cfg_protocol (glob s)) ;;
  when (match p with Some _ => true | None => false end) (call_ext_ CProtocolFilter) ;;
  sc <- get apply_seccomp ;;
  when (sc =? 1) (call_ext_ CSeccompSet) ;;
  sys_or_die (SysSetenv "QT_X11_NO_MITSHM" "1" 1) "setenv" ;;
  sys_or_die (SysSetenv "container" "firejail" 1) "setenv" ;;
  noroot <- get (fun s => arg_noroot (glob s)) ;;
  if nz noroot then
    debugf "Joining user namespace\n" [] ;;
    join_namespace_or_exit 1 "user" ;;
    ac <- get apply_caps ;;
    c <- get caps ;;
    when (ac =? 1) (call_ext_ (CCapsSet c))
  else
    ng <- get (fun s => arg_nogroups (glob s)) ;;
    call_ext_ (CDropPrivs ng).

(** The branch of [join] taken when fork returns 0. *)
Definition join_child (pid : Z) (homedir : option string) : Run unit :=
  let rootdir := "/proc/" ++ string_of_Z pid ++ "/root" in
  jn <- get (fun s => arg_join_network (glob s)) ;;
  (if nz jn then ret tt
   else
     rv <- sys (SysChroot rootdir) ;;
     when rv (printf "changing root to %s\n" [FS rootdir])) ;;
  sys (SysPrctl PR_SET_PDEATHSIG SIGKILL) ;;
  chdir_home homedir ;;
  join_apply_context ;;
  prompt <- getenv "FIREJAIL_PROMPT" ;;
  when (match prompt with Some p => strcmp0 p "yes" | None => false end)
       (sys_or_die (SysSetenv "PROMPT_COMMAND" prompt_command 1) "setenv") ;;
  an <- get (fun s => arg_nice (glob s)) ;;
  (if nz an then
     n <- get (fun s => cfg_nice (glob s)) ;;
     ok <- sys (SysNice n) ;;
     when (negb ok) (eprintf "Warning: cannot set nice value\n" [])
   else ret tt) ;;
  join_resolve_shell ;;
  cwd <- get (fun s => cfg_cwd (glob s)) ;;
  cwd_done <- match cwd with
              | Some d => sys (SysChdir d)
              | None => ret false
              end ;;
  (if cwd_done then ret tt
   else
     h <- get (fun s => cfg_homedir (glob s)) ;;
     chdir_home h) ;;
  call_ext_ CStartApplication.

(** The code after the child's branch: the parent's side of the join. *)
Definition join_parent (child : Z) : Run unit :=
  sys (SysSignal SIGTERM) ;;
  sys (SysWaitpid child) ;;
  call_ext_ CCtflush ;;
  exit 0.

Definition fork : Run Z :=
  fun s =>
    let (child, k') := k_fork (kern s) in
    Ret child (set_kern k' (emit EvFork s)).

(** The head of [join]: the command, and the pid that is really joined. *)
Definition join_target (pid : Z) (argv : list string) (index : Z) : Run Z :=
  extract_command argv index ;;
  call_ext_ CEuidRoot ;;
  comm <- get (fun s => pid_proc_comm (kern s) pid) ;;
  call_ext_ CEuidUser ;;
  match comm with
  | Some c =>
      if strcmp0 c "firejail" then
        ch <- get (fun s => find_child (kern s) pid) ;;
        match ch with
        | Some child =>
            printf "Switching to pid %u, the first child process inside the sandbox\n"
                   [FD child] ;;
            ret child
        | None => ret pid
        end
      else ret pid
  | None => ret pid
  end.

(** [join] from the return of fork. *)
Definition join_forked (pid : Z) (homedir : option string) (child : Z) : Run unit :=
  if child <? 0 then errExit "fork"
  else
    when (child =? 0) (join_child pid homedir) ;;
    join_parent child.

(** [join] after the privilege check. *)
Definition join_enter (pid : Z) (homedir : option string) : Run unit :=
  call_ext_ CEuidRoot ;;
  join_extract pid ;;
  cg <- get (fun s => cfg_cgroup (glob s)) ;;
  match cg with
  | Some c => call_ext_ (CSetCgroup c)
  | None => ret tt
  end ;;
  join_namespaces pid ;;
  child <- fork ;;
  join_forked pid homedir child.

Definition join (pid : Z) (argv : list string) (index : Z) : Run unit :=
  EUID_ASSERT ;;
  homedir <- get (fun s => cfg_homedir (glob s)) ;;
  pid <- join_target pid argv index ;;
  join_check_privileges pid ;;
  join_enter pid homedir.

Definition join_name (name : option string) (argv : list string) (index : Z)
  : Run unit :=
  EUID_ASSERT ;;
  match name with
  | Some n =>
      if (String.length n =? 0)%nat then
        eprintf "Error: invalid sandbox name\n" [] ;;
        exit 1
      else
        p <- get (fun s => name2pid (kern s) n) ;;
        match p with
        | None =>
            eprintf "Error: cannot find sandbox %s\n" [FS n] ;;
            exit 1
        | Some pid => join pid argv index
        end
  | None =>
      eprintf "Error: invalid sandbox name\n" [] ;;
      exit 1
  end.

End Model.

(** * A small concrete system

    A finite table of files with owner, mode and directory entries, and a
    table of symbolic links.  Creating a directory, changing owner or mode and
    mounting a tmpfs act on the table; the other system calls succeed and
    leave it alone.  It instantiates [World], so the model can be run. *)

Module Toy.

Record node := mkNode { n_stat : stat_t; n_entries : list string }.

Record kernel := mkKernel {
  files : list (string * node);
  links : list (string * string);   (* a symbolic link and its canonical target *)
  uid : Z;
  rel : string;                     (* the kernel release *)
  fork_result : Z;
  child_status : Z;
  sandbox_uid : Z
}.

Fixpoint lookup {A} (l : list (string * A)) (p : string) : option A :=
  match l with
  | [] => None
  | (q, a) :: l' => if String.eqb q p then Some a else lookup l' p
  end.

Fixpoint update {A} (l : list (string * A)) (p : string) (f : A -> A)
  : list (string * A) :=
  match l with
  | [] => []
  | (q, a) :: l' =>
      if String.eqb q p then (q, f a) :: l' else (q, a) :: update l' p f
  end.

Definition with_files (k : kernel) (fs : list (string * node)) : kernel :=
  mkKernel fs (links k) (uid k) (rel k) (fork_result k) (child_status k) (sandbox_uid k).

Definition exists_ (k : kernel) (p : string) : bool :=
  match lookup (files k) p with Some _ => true | None => false end.

Definition on_existing (k : kernel) (p : string) (f : node -> node) : option kernel :=
  if exists_ k p then Some (with_files k (update (files k) p f)) else None.

Definition create (k : kernel) (p : string) (n : node) : option kernel :=
  if exists_ k p then None else Some (with_files k ((p, n) :: files k)).

Definition step (k : kernel) (c : syscall) : option kernel :=
  match c with
  | SysMount (Some "tmpfs") target (Some "tmpfs") _ _ =>
      on_existing k target (fun _ => mkNode (mkStat (Z.lor S_IFDIR o0755) 0 0) [])
  | SysMount _ _ _ _ _ => Some k
  | SysMkdir p m => create k p (mkNode (mkStat (Z.lor S_IFDIR m) 0 0) [])
  | SysFopenW p =>
      if exists_ k p then Some k else create k p (mkNode (mkStat 33188 0 0) [])
  | SysChmod p m =>
      on_existing k p (fun n =>
        mkNode (mkStat (Z.lor (Z.land (st_mode (n_stat n)) S_IFMT) m)
                       (st_uid (n_stat n)) (st_gid (n_stat n)))
               (n_entries n))
  | SysChown p u g =>
      on_existing k p (fun n => mkNode (mkStat (st_mode (n_stat n)) u g) (n_entries n))
  | _ => Some k
  end.

Definition realpath (k : kernel) (p : string) : string + Z :=
  match lookup (links k) p with
  | Some t => inl t
  | None => if exists_ k p then inl p else inr 2
  end.

Definition readdir (k : kernel) (p : string) : option (list string) :=
  match lookup (files k) p with
  | Some n => if S_ISDIR (st_mode (n_stat n)) then Some (n_entries n) else None
  | None => None
  end.

Fixpoint basename_from (acc s : string) : string :=
  match s with
  | EmptyString => acc
  | String c s' => if Ascii.eqb c "/" then basename_from s' s' else basename_from acc s'
  end.

Fixpoint comma_split (s : string) : string * option string :=
  match s with
  | EmptyString => (EmptyString, None)
  | String c s' =>
      if Ascii.eqb c ","
      then (EmptyString, match s' with EmptyString => None | _ => Some s' end)
      else let (a, b) := comma_split s' in (String c a, b)
  end.

(** Globbing with GLOB_NOCHECK and GLOB_PERIOD, for patterns whose last
    component is [*] or [.*]: the entries of the directory (with . and ..),
    or the pattern itself when nothing matches. *)
Definition glob_expand (k : kernel) (pattern : string) : list string :=
  let base := basename_from pattern pattern in
  let dirlen := (String.length pattern - String.length base - 1)%nat in
  let dirname := str_take dirlen pattern in
  let dot_only := String.eqb base ".*" in
  if String.eqb base "*" || dot_only then
    match lookup (files k) dirname with
    | Some n =>
        let names :=
          filter (fun e => negb dot_only || strncmp0 e "." 1)
                 ("." :: ".." :: n_entries n) in
        match names with
        | [] => [pattern]
        | _ => map (fun e => dirname ++ "/" ++ e) names
        end
    | None => [pattern]
    end
  else [pattern].

Definition home_expand (path homedir : string) : option string :=
  if strncmp0 path "${HOME}" 7 then Some (homedir ++ str_drop 7 path)
  else Some path.

(** The system as a [World]; with [fixed_uid] the real uid of the caller is
    the same in every state. *)
Definition world_of (fixed_uid : option Z) : World kernel := {|
  sys_step := step;
  k_stat := fun k p => option_map n_stat (lookup (files k) p);
  k_realpath := realpath;
  k_glob := fun k pattern => Some (glob_expand k pattern);
  k_fnmatch := fun pattern path =>
    if String.eqb pattern path then FNM_MATCH else FNM_NOMATCH;
  k_uname := fun k => Some (mkUts (rel k) "#1 SMP");
  k_getenv := fun _ _ => None;
  k_getuid := fun k => match fixed_uid with Some u => u | None => uid k end;
  k_fork := fun k => (fork_result k, k);
  k_child_status := fun k _ => child_status k;
  k_readdir := readdir;
  k_fgets := fun _ _ => None;
  k_indeterminate := fun _ => 0;
  ext_call := fun k _ => Returned 0 k;
  ASSERT_PERMS_ok := fun _ _ _ _ _ => true;
  EUID_ASSERT_ok := fun _ => true;
  is_link := fun k p => match lookup (links k) p with Some _ => true | None => false end;
  is_dir := fun k p =>
    match lookup (files k) p with
    | Some n => S_ISDIR (st_mode (n_stat n))
    | None => false
    end;
  checkcfg := fun _ _ => true;
  expand_home := home_expand;
  build_paths := fun _ =>
    ["/usr/local/bin"; "/usr/local/sbin"; "/bin"; "/usr/bin"; "/sbin"; "/usr/sbin"];
  split_comma := comma_split;
  gnu_basename := fun p => basename_from p p;
  pid_proc_comm := fun _ _ => None;
  find_child := fun _ _ => None;
  pid_get_uid := fun k _ => sandbox_uid k;
  name2pid := fun _ _ => None;
  guess_shell := fun _ => Some "/bin/sh";
  loaded_cpus := fun _ => None;
  loaded_cgroup := fun _ => None;
  built_cmdline := fun argv index =>
    let c := nth (Z.to_nat index) argv "" in (Some c, Some c);
  RUN_FIREJAIL_BASEDIR := "/run";
  RUN_FIREJAIL_DIR := "/run/firejail";
  RUN_FIREJAIL_NETWORK_DIR := "/run/firejail/network";
  RUN_FIREJAIL_BANDWIDTH_DIR := "/run/firejail/bandwidth";
  RUN_FIREJAIL_NAME_DIR := "/run/firejail/name";
  RUN_FIREJAIL_X11_DIR := "/run/firejail/x11";
  RUN_FIREJAIL_APPIMAGE_DIR := "/run/firejail/appimage";
  RUN_RO_DIR := "/run/firejail/firejail.ro.dir";
  RUN_RO_FILE := "/run/firejail/firejail.ro.file";
  RUN_MNT_DIR := "/run/firejail/mnt";
  RUN_GROUPS_CFG := "/run/firejail/mnt/groups";
  RUN_CPU_CFG := "/run/firejail/mnt/cpu";
  RUN_CGROUP_CFG := "/run/firejail/mnt/cgroup";
  RUN_PROTOCOL_CFG := "/run/firejail/mnt/protocol";
  CFG_CHROOT_DESKTOP := 7
|}.

#[export] Instance world : World kernel := world_of None.

(** The same system when the caller is root throughout. *)
Definition root_world : World kernel := world_of (Some 0).

Definition dir (u : Z) (entries : list string) : node :=
  mkNode (mkStat (Z.lor S_IFDIR o0755) u u) entries.
Definition file (u : Z) : node := mkNode (mkStat 33188 u u) [].

(** A system with a home directory of user 1000 and the staging directory
    not built yet. *)
Definition fs0 : list (string * node) :=
  [ ("/", dir 0 ["bin"; "usr"; "home"; "run"; "tmp"; "etc"]);
    ("/run", dir 0 []);
    ("/usr/bin", dir 0 ["env"]);
    ("/etc/passwd", file 0);
    ("/home/user", dir 1000 [".ssh"; ".bashrc"; "notes"]);
    ("/home/user/.ssh", dir 1000 ["id_rsa"]);
    ("/home/user/.bashrc", file 1000);
    ("/home/user/notes", dir 1000 ["a.txt"; "b.txt"]);
    ("/srv/data", dir 0 ["x"]) ].

Definition kernel0 (u : Z) (release_ : string) : kernel :=
  mkKernel fs0 [("/bin", "/usr/bin")] u release_ 4242 7 0.

Definition globals0 : globals :=
  mkGlobals 0 0 0 0 0 0 0 0 0 0 0 0 (Some "/home/user") [] "/home/user/.firejail/ov"
            None None None None None 0 None 0.

Definition state0 (u : Z) (release_ : string) : state kernel :=
  mkState (kernel0 u release_) [] globals0 0 UNSUCCESSFUL 0 0 0.

(** User 1000 on a 4.4 kernel. *)
Definition start : state kernel := state0 1000 "4.4.0".

(** [start] once the staging directory has been rebuilt. *)
Definition staged : state kernel :=
  final (fs_build_firejail_dir (set_last_disable UNSUCCESSFUL start)).

(** [start] with a profile. *)
Definition with_profile (profile : list string) : state kernel :=
  set_glob (mkGlobals 0 0 0 0 0 0 0 0 0 0 0 0 (Some "/home/user") profile
                      "/home/user/.firejail/ov" None None None None None 0 None 0)
           start.

(** [start] on another kernel release, with the keep mode of the overlay. *)
Definition with_keep (release_ : string) : state kernel :=
  set_glob (mkGlobals 0 0 1 0 0 0 0 0 0 0 0 0 (Some "/home/user") []
                      "/home/user/.firejail/ov" None None None None None 0 None 0)
           (state0 1000 release_).

Definition join_argv : list string := ["firejail"; "--join=55"; "ls"].

(** Root, in the process where fork returns 0. *)
Definition forked_child : state kernel :=
  mkState (mkKernel fs0 [("/bin", "/usr/bin")] 0 "4.4.0" 0 7 0)
          [] globals0 0 UNSUCCESSFUL 0 0 0.

End Toy.

(** * Vocabulary of the properties *)

Section Vocabulary.

Context {K : Type} {W : World K}.

Abbreviation st := (state K).
Abbreviation Run := (M (state K)).

(** ** Invariants and the events a run adds *)

(** [grows P s s']: the trace of [s'] is the trace of [s] followed by events
    that all satisfy [P]. *)
Definition grows (P : event -> Prop) (s s' : st) : Prop :=
  exists tr, trace s' = (trace s ++ tr)%list /\ Forall P tr.

(** [triple I P m]: started in a state that satisfies [I], the run [m] ends
    (by return, exit or abort) in a state that satisfies [I], having added
    only events that satisfy [P]. *)
Definition triple {A} (I : st -> Prop) (P : event -> Prop) (m : Run A) : Prop :=
  forall s, I s -> I (final (m s)) /\ grows P s (final (m s)).

(** An invariant that does not look at the kernel state or the trace. *)
Definition stable (I : st -> Prop) : Prop :=
  (forall e s, I s -> I (emit e s)) /\ (forall k s, I s -> I (set_kern k s)).

(** ** Classes of events *)

Definition is_mount (e : event) : bool :=
  match e with
  | EvSys (SysMount _ _ _ _ _) => true
  | _ => false
  end.

Definition is_log_entry (e : event) : bool :=
  match e with
  | EvLogger _ | EvLogger2 _ _ => true
  | _ => false
  end.

(** Neither a mount nor an entry of the filesystem log. *)
Definition quiet (e : event) : Prop := is_mount e = false /\ is_log_entry e = false.

(** The state after [if (arg_debug) printf(fmt, args)]. *)
Definition debugged (fmt : string) (args : list farg) (s : st) : st :=
  if nz (arg_debug (glob s)) then emit (EvStdout fmt args) s else s.

(** ** Targets *)

(** realpath fails for a reason other than EACCES, or the resolved path fails
    stat. *)
Definition target_absent (k : K) (filename : string) : Prop :=
  match k_realpath k filename with
  | inr errno => errno <> EACCES
  | inl fname => k_stat k fname = None
  end.

Definition is_stdout (e : event) : Prop :=
  match e with
  | EvStdout _ _ => True
  | _ => False
  end.

(** The donor a denial uses for a target with the stat snapshot [s]. *)
Definition donor_for (s : stat_t) : string :=
  if S_ISDIR (st_mode s) then RUN_RO_DIR else RUN_RO_FILE.

(** The name under which a denial is logged. *)
Definition blacklist_tag (op : OPERATION) : string :=
  match op with
  | BLACKLIST_FILE => "blacklist"
  | _ => "blacklist-nolog"
  end.

(** ** What the code expects of the kernel *)

(** chown sets the owner and the group of the file. *)
Definition chown_sets_owner : Prop :=
  forall k p u g k',
    sys_step k (SysChown p u g) = Some k' ->
    exists s, k_stat k' p = Some s /\ st_uid s = u /\ st_gid s = g.

(** chown leaves the content of a directory alone. *)
Definition chown_keeps_entries : Prop :=
  forall k p u g k',
    sys_step k (SysChown p u g) = Some k' -> k_readdir k' p = k_readdir k p.

(** A freshly mounted tmpfs has no entries. *)
Definition tmpfs_is_empty : Prop :=
  forall k p k',
    sys_step k (tmpfs_mount p) = Some k' -> k_readdir k' p = Some [].

(** ** Directives *)

(** A line that is none of the forms [fs_blacklist] knows. *)
Definition unrecognized (data : string) : bool :=
  negb (ignored_directive data)
  && negb (strncmp0 data "bind " 5)
  && negb (strncmp0 data "noblacklist " 12)
  && match directive_op data with Some _ => false | None => true end.






(** ** States after a call *)

(** The state after a system call, whatever its result. *)
Definition after_sys (c : syscall) (s : st) : st :=
  match sys_step (kern s) c with
  | Some k' => set_kern k' (emit (EvSys c) s)
  | None => emit (EvSys c) s
  end.

(** The end of a run that flushes the log and then exits with [code], unless
    the flush itself ends the process. *)
Definition flush_and_exit (code : Z) (s : st) : outcome st unit :=
  match ext_call (kern s) CCtflush with
  | Returned _ k' => Exit code (set_kern k' (emit (EvCall CCtflush) s))
  | Exited c k' => Exit c (set_kern k' (emit (EvCall CCtflush) s))
  end.

(** ** A join by root *)

(** The events of a join that takes nothing from the target: the target's
    configuration files are not loaded, no capability set, seccomp filter or
    protocol filter is installed, and cpu affinity, control group, user
    namespace and supplementary groups are those of the caller's own
    configuration [g]. *)
Definition root_join_event (g : globals) (e : event) : Prop :=
  match e with
  | EvCall (CLoadCpu _) | EvCall (CLoadCgroup _) => False
  | EvCall (CCapsSet _) | EvCall CSeccompSet | EvCall (CProtocolFilterLoad _) => False
  | EvCall CSetCpuAffinity => cfg_cpus g <> 0
  | EvCall (CSetCgroup c) => cfg_cgroup g = Some c
  | EvCall (CJoinNamespace _ ns) => ns = "user" -> arg_noroot g <> 0
  | EvCall (CDropPrivs ng) => ng = arg_nogroups g
  | _ => True
  end.

(** An event that loads or applies a piece of security context. *)
Definition applies_context (e : event) : bool :=
  match e with
  | EvCall (CLoadCpu _) | EvCall (CLoadCgroup _) => true
  | EvCall (CCapsSet _) | EvCall CSeccompSet | EvCall (CProtocolFilterLoad _) => true
  | EvCall CSetCpuAffinity | EvCall (CSetCgroup _) => true
  | EvCall (CJoinNamespace _ ns) => String.eqb ns "user"
  | EvCall (CDropPrivs ng) => nz ng
  | _ => false
  end.

(** The caller's own configuration asks for no cpu affinity, control group,
    user namespace or dropping of supplementary groups. *)
Definition caller_requests_none (g : globals) : Prop :=
  cfg_cpus g = 0 /\ cfg_cgroup g = None /\ arg_noroot g = 0 /\ arg_nogroups g = 0.

(** The variables a join fills in from the target still have the values they
    had when the join began with configuration [g]. *)
Definition root_join_inv (g : globals) (s : st) : Prop :=
  apply_caps s = 0 /\ apply_seccomp s = 0
  /\ cfg_cpus (glob s) = cfg_cpus g
  /\ cfg_cgroup (glob s) = cfg_cgroup g
  /\ arg_noroot (glob s) = arg_noroot g
  /\ arg_nogroups (glob s) = arg_nogroups g.

(** ** The staging area and the overlay *)

(** A tmpfs mounted on the working-mount area of the staging directory. *)
Definition is_staging_mount (e : event) : bool :=
  match e with
  | EvSys (SysMount _ target (Some fstype) _ _) =>
      String.eqb fstype "tmpfs" && String.eqb target RUN_MNT_DIR
  | _ => false
  end.

Definition no_staging_mount (e : event) : Prop := is_staging_mount e = false.

(** A mount by the modern overlay driver, and one by the legacy driver. *)
Definition modern_driver_mount (e : event) : bool :=
  match e with
  | EvSys (SysMount _ _ (Some fstype) _ _) => String.eqb fstype "overlay"
  | _ => false
  end.

Definition legacy_driver_mount (e : event) : bool :=
  match e with
  | EvSys (SysMount _ _ (Some fstype) _ _) => String.eqb fstype "overlayfs"
  | _ => false
  end.

(** A mount of an overlay, by either driver. *)
Definition is_overlay_mount (e : event) : bool :=
  modern_driver_mount e || legacy_driver_mount e.

Definition no_overlay_mount (e : event) : Prop := is_overlay_mount e = false.

(** The "staging tmpfs already mounted" flag is set. *)
Definition flag_set (s : st) : Prop := nz (tmpfs_mounted s) = true.

Definition any_event (e : event) : Prop := True.

(** A run that never returns to its caller from a state that satisfies [I]. *)
Definition noret {A} (I : st -> Prop) (m : Run A) : Prop :=
  forall s, I s -> forall a s', m s <> Ret a s'.

(** The keep/reuse mode of the overlay is requested. *)
Definition overlay_keep (s : st) : Prop := nz (arg_overlay_keep (glob s)) = true.

(** The events that follow the last chroot of a trace, if there is one. *)
Fixpoint events_after_chroot (tr : list event) : option (list event) :=
  match tr with
  | [] => None
  | e :: rest =>
      match events_after_chroot rest with
      | Some l => Some l
      | None =>
          match e with
          | EvSys (SysChroot _) => Some rest
          | _ => None
          end
      end
  end.

End Vocabulary.

(** * The model, continued

    The functions of fs.c around the ones above: the copy of cp, the
    read-only remount that does not give up, the basic filesystem, and the
    checks of the overlay and chroot directories. *)

Abbreviation o0700 := 448%Z.

(** A query and a constant of firejail.h that only these functions use. *)
Class WorldExt (K : Type) := {
  k_getgid : K -> Z;
  RUN_CP_COMMAND : string
}.

(** Globals of main.c that [fs_basic_fs] reads; fs.c never writes them. *)
Record basic_fs_args := mkBasicFsArgs {
  arg_writable_etc : Z;
  arg_writable_var : Z
}.

Section ModelRest.

Context {K : Type} {W : World K} {X : WorldExt K}.

Abbreviation st := (state K).
Abbreviation Run := (M (state K)).

Definition getgid : Run Z := get (fun s => k_getgid (kern s)).

(** ** fs.c: a copy of the cp command *)

Definition fs_build_cp_command : Run unit :=
  fs_build_mnt_dir ;;
  r <- stat RUN_CP_COMMAND ;;
  match r with
  | Some _ => ret tt
  | None =>
      rp <- get (fun s => k_realpath (kern s) "/bin/cp") ;;
      match rp with
      | inr _ =>
          eprintf "Error: /bin/cp not found\n" [] ;;
          exit 1
      | inl fname =>
          r <- stat fname ;;
          match r with
          | None =>
              eprintf "Error: /bin/cp not found\n" [] ;;
              exit 1
          | Some _ =>
              l <- get (fun s => is_link (kern s) fname) ;;
              if l then
                eprintf "Error: invalid /bin/cp file\n" [] ;;
                exit 1
              else
                rv <- call_ext (CCopyFile fname RUN_CP_COMMAND 0 0 o0755) ;;
                if nz rv then
                  eprintf "Error: cannot access /bin/cp\n" [] ;;
                  exit 1
                else ASSERT_PERMS RUN_CP_COMMAND 0 0 o0755
          end
      end
  end.

(** ** fs.c: mount primitives, continued *)

Definition rdonly_bind (dir : string) : syscall :=
  SysMount (Some dir) dir None (Z.lor MS_BIND MS_REC) None.

Definition rdonly_remount (dir : string) : syscall :=
  SysMount None dir None (Z.lor (Z.lor (Z.lor MS_BIND MS_REMOUNT) MS_RDONLY) MS_REC) None.

(** [merr] is set when either mount fails; the second mount is attempted
    whatever the first one returned. *)
Definition fs_rdonly_noexit (dir : string) : Run unit :=
  r <- stat dir ;;
  match r with
  | Some _ =>
      ok1 <- sys (rdonly_bind dir) ;;
      ok2 <- sys (rdonly_remount dir) ;;
      if negb ok1 || negb ok2 then
        eprintf "Warning: cannot mount %s read-only\n" [FS dir]
      else fs_logger2 "read-only" dir
  | None => ret tt
  end.

Definition fs_private_tmp : Run unit :=
  debugf "Mounting tmpfs on /tmp directory\n" [] ;;
  sys_or_die (SysMount (Some "tmpfs") "/tmp" (Some "tmpfs")
                       (Z.lor (Z.lor MS_NOSUID MS_STRICTATIME) MS_REC)
                       (Some "mode=1777,gid=0"))
             "mounting tmpfs on /tmp directory" ;;
  fs_logger2 "tmpfs" "/tmp".

(** ** fs.c: the basic read-only filesystem *)

(** [uid] is read once, on entry. *)
Definition fs_basic_fs (a : basic_fs_args) : Run unit :=
  uid <- getuid ;;
  debugf "Mounting read-only /bin, /sbin, /lib, /lib32, /lib64, /usr" [] ;;
  when (negb (nz (arg_writable_etc a)))
       (fs_rdonly "/etc" ;;
        when (nz uid) (fs_noexec "/etc") ;;
        debugf ", /etc" []) ;;
  when (negb (nz (arg_writable_var a)))
       (fs_rdonly "/var" ;;
        when (nz uid) (fs_noexec "/var") ;;
        debugf ", /var" []) ;;
  debugf "\n" [] ;;
  fs_rdonly "/bin" ;;
  fs_rdonly "/sbin" ;;
  fs_rdonly "/lib" ;;
  fs_rdonly "/lib64" ;;
  fs_rdonly "/lib32" ;;
  fs_rdonly "/libx32" ;;
  fs_rdonly "/usr" ;;
  pd <- get (fun s => arg_private_dev (glob s)) ;;
  when (negb (nz pd)) (call_ext_ CFsDevShm) ;;
  call_ext_ CFsVarLock ;;
  call_ext_ CFsVarTmp ;;
  call_ext_ CFsVarLog ;;
  call_ext_ CFsVarLib ;;
  call_ext_ CFsVarCache ;;
  call_ext_ CFsVarUtmp ;;
  call_ext_ CRestrictUsers ;;
  when (nz uid) disable_config.

(** ** fs.c: the directory of a persistent overlay *)

Definition fs_check_overlay_dir (subdirname : string) (allow_reuse : Z) : Run string :=
  h <- get (fun s => cfg_homedir (glob s)) ;;
  let dirname := str_or_null h ++ "/.firejail" in
  r <- stat dirname ;;
  match r with
  | None =>
      sys_or_die (SysMkdir dirname o0700) "mkdir" ;;
      sys_or_die (SysChmod dirname o0700) "chmod" ;;
      uid <- getuid ;;
      gid <- getgid ;;
      ASSERT_PERMS dirname uid gid o0700
  | Some _ =>
      l <- get (fun s => is_link (kern s) dirname) ;;
      if l then
        eprintf "Error: invalid ~/.firejail directory\n" [] ;;
        exit 1
      else ret tt
  end ;;
  let dirname := str_or_null h ++ "/.firejail/" ++ subdirname in
  l <- get (fun s => is_link (kern s) dirname) ;;
  if l then
    eprintf "Error: overlay directory is a symbolic link\n" [] ;;
    exit 1
  else
    (if allow_reuse =? 0 then
       r <- stat dirname ;;
       match r with
       | Some _ =>
           eprintf "Error: overlay directory already exists: %s\n" [FS dirname] ;;
           exit 1
       | None => ret tt
       end
     else ret tt) ;;
    ret dirname.

(** ** fs.c: the check of a chroot directory *)

(** [if (stat(name, &s) == -1) { fprintf(stderr, msg); return 1; }] *)
Definition chroot_needs (name msg : string) (k : Run Z) : Run Z :=
  r <- stat name ;;
  match r with
  | None => eprintf msg [] ;; ret 1
  | Some _ => k
  end.

(** The result is 1 on error. *)
Definition fs_check_chroot_dir (rootdir : string) : Run Z :=
  EUID_ASSERT ;;
  r <- stat rootdir ;;
  match r with
  | None =>
      eprintf "Error: cannot find chroot directory\n" [] ;;
      ret 1
  | Some s =>
      if negb (st_uid s =? 0) then
        eprintf "Error: chroot directory should be owned by root\n" [] ;;
        ret 1
      else
        chroot_needs (rootdir ++ "/dev") "Error: cannot find /dev in chroot directory\n"
          (chroot_needs (rootdir ++ "/var/tmp")
                        "Error: cannot find /var/tmp in chroot directory\n"
             (chroot_needs (rootdir ++ "/proc")
                           "Error: cannot find /proc in chroot directory\n"
                (chroot_needs (rootdir ++ "/tmp")
                              "Error: cannot find /tmp in chroot directory\n"
                   (x <- getenv "FIREJAIL_X11" ;;
                    match x with
                    | Some _ =>
                        assign (with_mask_x11_abstract_socket 1) ;;
                        chroot_needs (rootdir ++ "/tmp/.X11-unix")
                          "Error: cannot find /tmp/.X11-unix in chroot directory\n"
                          (ret 0)
                    | None => ret 0
                    end))))
  end.

End ModelRest.

(** * The concrete system, with faults

    The system of [Toy] where chosen system calls fail, chosen paths cannot be
    resolved for lack of permission or are symbolic links whatever happens,
    and calls into the rest of the program return chosen values. *)

Module Lab.

Import Toy.

Record faults := mkFaults {
  failing : syscall -> bool;            (* system calls that return -1 *)
  unreadable : string -> bool;          (* paths on which realpath fails with EACCES *)
  linked : string -> bool;              (* paths that are symbolic links in every state *)
  returns : call -> Z;                  (* what the rest of the program returns *)
  desktop : bool                        (* chroot-desktop support *)
}.

Definition world_of (f : faults) : World kernel := {|
  sys_step := fun k c => if failing f c then None else step k c;
  k_stat := fun k p => option_map n_stat (lookup (files k) p);
  k_realpath := fun k p => if unreadable f p then inr EACCES else realpath k p;
  k_glob := fun k pattern => Some (glob_expand k pattern);
  k_fnmatch := fun pattern path =>
    if String.eqb pattern path then FNM_MATCH else FNM_NOMATCH;
  k_uname := fun k => Some (mkUts (rel k) "#1 SMP");
  k_getenv := fun _ _ => None;
  k_getuid := uid;
  k_fork := fun k => (fork_result k, k);
  k_child_status := fun k _ => child_status k;
  k_readdir := readdir;
  k_fgets := fun _ _ => None;
  k_indeterminate := fun _ => 0;
  ext_call := fun k c => Returned (returns f c) k;
  ASSERT_PERMS_ok := fun _ _ _ _ _ => true;
  EUID_ASSERT_ok := fun _ => true;
  is_link := fun k p =>
    linked f p || match lookup (links k) p with Some _ => true | None => false end;
  is_dir := fun k p =>
    match lookup (files k) p with
    | Some n => S_ISDIR (st_mode (n_stat n))
    | None => false
    end;
  checkcfg := fun _ _ => desktop f;
  expand_home := home_expand;
  build_paths := fun _ =>
    ["/usr/local/bin"; "/usr/local/sbin"; "/bin"; "/usr/bin"; "/sbin"; "/usr/sbin"];
  split_comma := comma_split;
  gnu_basename := fun p => basename_from p p;
  pid_proc_comm := fun _ _ => None;
  find_child := fun _ _ => None;
  pid_get_uid := fun k _ => sandbox_uid k;
  name2pid := fun _ _ => None;
  guess_shell := fun _ => Some "/bin/sh";
  loaded_cpus := fun _ => None;
  loaded_cgroup := fun _ => None;
  built_cmdline := fun argv index =>
    let c := nth (Z.to_nat index) argv "" in (Some c, Some c);
  RUN_FIREJAIL_BASEDIR := "/run";
  RUN_FIREJAIL_DIR := "/run/firejail";
  RUN_FIREJAIL_NETWORK_DIR := "/run/firejail/network";
  RUN_FIREJAIL_BANDWIDTH_DIR := "/run/firejail/bandwidth";
  RUN_FIREJAIL_NAME_DIR := "/run/firejail/name";
  RUN_FIREJAIL_X11_DIR := "/run/firejail/x11";
  RUN_FIREJAIL_APPIMAGE_DIR := "/run/firejail/appimage";
  RUN_RO_DIR := "/run/firejail/firejail.ro.dir";
  RUN_RO_FILE := "/run/firejail/firejail.ro.file";
  RUN_MNT_DIR := "/run/firejail/mnt";
  RUN_GROUPS_CFG := "/run/firejail/mnt/groups";
  RUN_CPU_CFG := "/run/firejail/mnt/cpu";
  RUN_CGROUP_CFG := "/run/firejail/mnt/cgroup";
  RUN_PROTOCOL_CFG := "/run/firejail/mnt/protocol";
  CFG_CHROOT_DESKTOP := 7
|}.

Definition no_faults : faults :=
  mkFaults (fun _ => false) (fun _ => false) (fun _ => false) (fun _ => 0) true.

(** /home/user/secret cannot be resolved, and no mount succeeds. *)
Definition sealed : faults :=
  mkFaults (fun c => match c with SysMount _ _ _ _ _ => true | _ => false end)
           (fun p => String.eqb p "/home/user/secret")
           (fun _ => false) (fun _ => 0) true.

(** The resolv.conf of the chroot directory is a symbolic link. *)
Definition linked_resolv_conf : faults :=
  mkFaults (fun _ => false) (fun _ => false)
           (fun p => String.eqb p "/jail/etc/resolv.conf") (fun _ => 0) true.

(** No chroot-desktop support. *)
Definition plain : faults :=
  mkFaults (fun _ => false) (fun _ => false) (fun _ => false) (fun _ => 0) false.

(** The root directory cannot be changed. *)
Definition rootless : faults :=
  mkFaults (fun c => match c with SysChroot _ => true | _ => false end)
           (fun _ => false) (fun _ => false) (fun _ => 0) true.

(** No namespace can be entered. *)
Definition closed : faults :=
  mkFaults (fun _ => false) (fun _ => false) (fun _ => false)
           (fun c => match c with CJoinNamespace _ _ => 1 | _ => 0 end) true.

(** The extension of the concrete system: every user is in the group of the
    same number. *)
#[export] Instance ext : WorldExt kernel := {|
  k_getgid := uid;
  RUN_CP_COMMAND := "/run/firejail/mnt/cp"
|}.

(** A system whose /run/firejail belongs to user 1000. *)
Definition planted : state kernel :=
  mkState (mkKernel (("/run/firejail", dir 1000 []) :: fs0) [] 1000 "4.4.0" 4242 0 1000)
          [] globals0 0 UNSUCCESSFUL 0 0 0.

(** A directory prepared for chroot, owned by root, beside a shell, cp, /etc
    and a directory of user 1000. *)
Definition jail_fs : list (string * node) :=
  [ ("/jail", dir 0 ["dev"; "var"; "proc"; "tmp"]);
    ("/jail/dev", dir 0 []);
    ("/jail/var/tmp", dir 0 []);
    ("/jail/proc", dir 0 []);
    ("/jail/tmp", dir 0 []);
    ("/bin/cp", file 0);
    ("/bin/sh", file 0);
    ("/etc", dir 0 ["passwd"]);
    ("/mnt/data", dir 1000 ["d"]) ].

Definition with_jail : state kernel :=
  mkState (mkKernel (jail_fs ++ fs0) [("/bin", "/usr/bin")] 1000 "4.4.0" 4242 0 1000)
          [] globals0 0 UNSUCCESSFUL 0 0 0.

(** [with_jail] with a profile. *)
Definition with_jail_profile (profile : list string) : state kernel :=
  set_glob (mkGlobals 0 0 0 0 0 0 0 0 0 0 0 0 (Some "/home/user") profile
                      "/home/user/.firejail/ov" None None None None None 0 None 0)
           with_jail.

(** Root on the same system. *)
Definition root_with_jail : state kernel :=
  mkState (mkKernel (jail_fs ++ fs0) [("/bin", "/usr/bin")] 0 "4.4.0" 4242 0 0)
          [] globals0 0 UNSUCCESSFUL 0 0 0.

(** [with_jail] on another kernel release. *)
Definition on_release (release_ : string) : state kernel :=
  mkState (mkKernel (jail_fs ++ fs0) [("/bin", "/usr/bin")] 1000 release_ 4242 0 1000)
          [] globals0 0 UNSUCCESSFUL 0 0 0.

End Lab.

(** * Vocabulary of the properties, continued *)

Section VocabularyRest.

Context {K : Type} {W : World K}.

Abbreviation st := (state K).
Abbreviation Run := (M (state K)).

(** The message with which the staging directory of another owner is
    refused. *)
Definition nonroot_refusal : event :=
  EvStderr "Error: non-root %s directory, exiting...\n" [FS RUN_FIREJAIL_DIR].

(** An expansion whose last component is [.] or [..]. *)
Definition dot_entry (path : string) : bool :=
  strcmp0 (gnu_basename path) "." || strcmp0 (gnu_basename path) "..".

(** A mount whose flags contain [flag]. *)
Definition mount_with (flag : Z) (e : event) : bool :=
  match e with
  | EvSys (SysMount _ _ _ flags _) => negb (Z.land flags flag =? 0)
  | _ => false
  end.

(** A mount of a donor: a bind of filesystem type "none". *)
Definition is_denial_mount (e : event) : bool :=
  match e with
  | EvSys (SysMount _ _ (Some fstype) _ _) => String.eqb fstype "none"
  | _ => false
  end.

(** A remount of the mount point [target]. *)
Definition remounts (target : string) (e : event) : bool :=
  match e with
  | EvSys (SysMount _ t _ flags _) =>
      String.eqb t target && negb (Z.land flags MS_REMOUNT =? 0)
  | _ => false
  end.

(** What [fs_chroot] does only with chroot-desktop support: bind mounts, the
    copy of resolv.conf and the bootstrap of /var. *)
Definition desktop_step (e : event) : bool :=
  match e with
  | EvSys (SysMount _ _ _ flags _) => negb (Z.land flags MS_BIND =? 0)
  | EvCall (CCopyFile _ _ _ _ _) => true
  | EvCall CFsDevShm | EvCall CFsVarLock | EvCall CFsVarTmp | EvCall CFsVarLog
  | EvCall CFsVarLib | EvCall CFsVarCache | EvCall CFsVarUtmp
  | EvCall CRestrictUsers => true
  | _ => false
  end.

Definition is_chroot (e : event) : bool :=
  match e with
  | EvSys (SysChroot _) => true
  | _ => false
  end.

Definition is_copy (e : event) : bool :=
  match e with
  | EvCall (CCopyFile _ _ _ _ _) => true
  | _ => false
  end.

Definition is_fork (e : event) : bool :=
  match e with
  | EvFork => true
  | _ => false
  end.

Definition is_drop_privs (e : event) : bool :=
  match e with
  | EvCall (CDropPrivs _) => true
  | _ => false
  end.


(** The operations that remount a path with other options. *)
Definition is_remount_op (op : OPERATION) : bool :=
  match op with
  | MOUNT_READONLY | MOUNT_RDWR | MOUNT_NOEXEC => true
  | _ => false
  end.

(** The first character of a word is a dash. *)
Definition option_like (arg : string) : bool := strncmp0 arg "-" 1.

(** The result of a system call in the state [s]. *)
Definition succeeds (c : syscall) (s : st) : bool :=
  match sys_step (kern s) c with Some _ => true | None => false end.

(** The namespaces a join enters, by mode. *)
Definition joined_namespaces (g : globals) : list string :=
  if nz (arg_join_network g) then ["net"]
  else if nz (arg_join_filesystem g) then ["mnt"]
  else ["ipc"; "net"; "pid"; "uts"; "mnt"].

(** Every attempt to enter a namespace of [pid] is refused. *)
Definition namespaces_closed (pid : Z) : Prop :=
  forall k ns,
    match ext_call k (CJoinNamespace pid ns) with
    | Returned rv _ => rv <> 0
    | Exited _ _ => True
    end.

(** Every attempt to enter a namespace of [pid] succeeds. *)
Definition namespaces_open (pid : Z) : Prop :=
  forall k ns, exists k', ext_call k (CJoinNamespace pid ns) = Returned 0 k'.

(** The kernel release [major.minor] followed by [rest]. *)
Definition release_string (major minor : Z) (rest : string) : string :=
  string_of_Z major ++ "." ++ string_of_Z minor ++ rest.

(** The text begins with a decimal digit. *)
Definition starts_with_digit (s : string) : bool :=
  match s with
  | String c _ => match digit_val c with Some _ => true | None => false end
  | EmptyString => false
  end.

End VocabularyRest.

(** * Reasoning about runs *)

Section Runs.

Context {K : Type} {W : World K}.

Abbreviation st := (state K).
Abbreviation Run := (M (state K)).

Lemma bind_Ret {A B} (m : Run A) (f : A -> Run B) s a s1 :
  m s = Ret a s1 -> bind m f s = f a s1.
Proof. intros H. unfold bind. now rewrite H. Qed.

Lemma bind_Exit {A B} (m : Run A) (f : A -> Run B) s c s1 :
  m s = Exit c s1 -> bind m f s = Exit c s1.
Proof. intros H. unfold bind. now rewrite H. Qed.

Lemma bind_Ret_inv {A B} (m : Run A) (f : A -> Run B) s b s2 :
  bind m f s = Ret b s2 -> exists a s1, m s = Ret a s1 /\ f a s1 = Ret b s2.
Proof.
  unfold bind. destruct (m s) as [a s1|c s1|s1]; intros H; try discriminate.
  now exists a, s1.
Qed.

Lemma bind_assoc {A B C} (m : Run A) (f : A -> Run B) (g : B -> Run C) s :
  bind (bind m f) g s = bind m (fun a => bind (f a) g) s.
Proof. unfold bind. now destruct (m s). Qed.

(** ** System calls *)

Lemma sys_ok c (s : st) k' :
  sys_step (kern s) c = Some k' ->
  sys c s = Ret true (set_kern k' (emit (EvSys c) s)).
Proof. intros H. unfold sys. now rewrite H. Qed.

Lemma sys_fail c (s : st) :
  sys_step (kern s) c = None -> sys c s = Ret false (emit (EvSys c) s).
Proof. intros H. unfold sys. now rewrite H. Qed.

Lemma sys_or_die_ok c msg (s : st) k' :
  sys_step (kern s) c = Some k' ->
  sys_or_die c msg s = Ret tt (set_kern k' (emit (EvSys c) s)).
Proof. intros H. unfold sys_or_die. now rewrite (bind_Ret _ _ _ _ _ (sys_ok _ _ _ H)). Qed.

Lemma sys_or_die_fail c msg (s : st) :
  sys_step (kern s) c = None ->
  sys_or_die c msg s = Exit 1 (emit (EvPerror msg) (emit (EvSys c) s)).
Proof. intros H. unfold sys_or_die. now rewrite (bind_Ret _ _ _ _ _ (sys_fail _ _ H)). Qed.

(** ** Invariants and the events a run adds *)

Lemma grows_refl P (s : st) : grows P s s.
Proof. exists []. split; [now rewrite app_nil_r | constructor]. Qed.

Lemma grows_trans P (s1 s2 s3 : st) : grows P s1 s2 -> grows P s2 s3 -> grows P s1 s3.
Proof.
  intros [t1 [E1 F1]] [t2 [E2 F2]]. exists (t1 ++ t2)%list. split.
  - now rewrite E2, E1, app_assoc.
  - apply Forall_app; auto.
Qed.

Lemma grows_emit P e (s : st) : P e -> grows P s (emit e s).
Proof. intros H. exists [e]. split; [reflexivity | now constructor]. Qed.

Lemma grows_weaken (P Q : event -> Prop) (s s' : st) :
  (forall e, P e -> Q e) -> grows P s s' -> grows Q s s'.
Proof.
  intros H [tr [E F]]. exists tr. split; auto.
  eapply Forall_impl; eauto.
Qed.

Lemma EUID_ASSERT_run (s : st) :
  EUID_ASSERT_ok (kern s) = true -> EUID_ASSERT s = Ret tt s.
Proof. intros H. unfold EUID_ASSERT, bind, get, assert. now rewrite H. Qed.

Lemma sys_or_die_Ret_inv c msg (s s' : st) u :
  sys_or_die c msg s = Ret u s' ->
  exists k', sys_step (kern s) c = Some k' /\ s' = set_kern k' (emit (EvSys c) s).
Proof.
  unfold sys_or_die, sys, bind, errExit, modify, exit, ret.
  destruct (sys_step (kern s) c) as [k'|]; intros H; [| discriminate].
  exists k'. split; [reflexivity | now inversion H].
Qed.

(** ** Debug output *)

Lemma debugf_run fmt args (s : st) :
  debugf fmt args s = Ret tt (debugged fmt args s).
Proof.
  unfold debugf, debugged, bind, get, when, printf, modify, ret.
  now destruct (nz (arg_debug (glob s))).
Qed.

Lemma bind_debugf {B} fmt args (f : unit -> Run B) (s : st) :
  bind (debugf fmt args) f s = f tt (debugged fmt args s).
Proof. apply bind_Ret, debugf_run. Qed.

Lemma kern_debugged fmt args (s : st) : kern (debugged fmt args s) = kern s.
Proof. unfold debugged. now destruct (nz (arg_debug (glob s))). Qed.

Lemma glob_debugged fmt args (s : st) : glob (debugged fmt args s) = glob s.
Proof. unfold debugged. now destruct (nz (arg_debug (glob s))). Qed.

Lemma grows_debugged fmt args (s : st) : grows is_stdout s (debugged fmt args s).
Proof.
  unfold debugged. destruct (nz (arg_debug (glob s))).
  - apply grows_emit. exact Logic.I.
  - exists []. split; [now rewrite app_nil_r | constructor].
Qed.

Section Rules.

Variable I : st -> Prop.
Variable P : event -> Prop.
Hypothesis Istable : stable I.

Lemma triple_ret {A} (a : A) : triple I P (ret a).
Proof. intros s H. split; [exact H | apply grows_refl]. Qed.

Lemma triple_bind {A B} (m : Run A) (f : A -> Run B) :
  triple I P m -> (forall a, triple I P (f a)) -> triple I P (bind m f).
Proof.
  intros Hm Hf s Hs. unfold bind. destruct (Hm s Hs) as [H1 H2].
  destruct (m s) as [a s1|c s1|s1]; simpl in *; auto.
  destruct (Hf a s1 H1) as [H3 H4]. split; auto.
  eapply grows_trans; eauto.
Qed.

(** A read whose value the invariant determines. *)
Lemma triple_bind_get_known {A B} (g : st -> A) (f : A -> Run B) (Q : A -> Prop) :
  (forall s, I s -> Q (g s)) ->
  (forall a, Q a -> triple I P (f a)) ->
  triple I P (bind (get g) f).
Proof.
  intros HQ Hf s Hs. unfold bind, get. apply (Hf (g s) (HQ s Hs) s Hs).
Qed.

(** A run that returns at once. *)
Lemma triple_skip {A} (m : Run A) (a : A) :
  (forall s, m s = Ret a s) -> triple I P m.
Proof. intros H s Hs. rewrite H. split; [exact Hs | apply grows_refl]. Qed.

Lemma triple_get {A} (g : st -> A) : triple I P (get g).
Proof. intros s H. split; [exact H | apply grows_refl]. Qed.

Lemma triple_exit {A} c : triple I P (@exit K A c).
Proof. intros s H. split; [exact H | apply grows_refl]. Qed.

Lemma triple_abort {A} : triple I P (@abort K A).
Proof. intros s H. split; [exact H | apply grows_refl]. Qed.

Lemma triple_assert b : triple I P (assert b).
Proof. unfold assert. destruct b; [apply triple_ret | apply triple_abort]. Qed.

Lemma triple_when b m : triple I P m -> triple I P (when b m).
Proof. intros H. unfold when. destruct b; [exact H | apply triple_ret]. Qed.

Lemma triple_modify (f : st -> st) :
  (forall s, I s -> I (f s)) -> (forall s, trace (f s) = trace s) ->
  triple I P (modify f).
Proof.
  intros H1 H2 s H. split; simpl; auto.
  exists []. split; [now rewrite H2, app_nil_r | constructor].
Qed.

Lemma triple_emit e : P e -> triple I P (modify (emit e)).
Proof.
  intros He s H. split; simpl.
  - now apply Istable.
  - now apply grows_emit.
Qed.

Lemma triple_sys c : P (EvSys c) -> triple I P (sys c).
Proof.
  intros He s H. unfold sys. destruct (sys_step (kern s) c); simpl.
  - split; [now apply Istable, Istable | now apply (grows_emit P (EvSys c) s)].
  - split; [now apply Istable | now apply grows_emit].
Qed.

Lemma triple_call_ext c : P (EvCall c) -> triple I P (call_ext c).
Proof.
  intros He s H. unfold call_ext. destruct (ext_call (kern s) c); simpl.
  - split; [now apply Istable, Istable | now apply (grows_emit P (EvCall c) s)].
  - split; [now apply Istable, Istable | now apply (grows_emit P (EvCall c) s)].
Qed.

Lemma triple_call_ext_ c : P (EvCall c) -> triple I P (call_ext_ c).
Proof.
  intros He. apply triple_bind; [now apply triple_call_ext | intros; apply triple_ret].
Qed.

Lemma triple_printf fmt args : P (EvStdout fmt args) -> triple I P (printf fmt args).
Proof. apply triple_emit. Qed.

Lemma triple_eprintf fmt args : P (EvStderr fmt args) -> triple I P (eprintf fmt args).
Proof. apply triple_emit. Qed.

Lemma triple_fs_logger msg : P (EvLogger msg) -> triple I P (fs_logger msg).
Proof. apply triple_emit. Qed.

Lemma triple_fs_logger2 m1 m2 : P (EvLogger2 m1 m2) -> triple I P (fs_logger2 m1 m2).
Proof. apply triple_emit. Qed.

Lemma triple_errExit {A} msg : P (EvPerror msg) -> triple I P (@errExit K A msg).
Proof.
  intros H. apply triple_bind; [now apply triple_emit | intros; apply triple_exit].
Qed.

Lemma triple_debugf fmt args : P (EvStdout fmt args) -> triple I P (debugf fmt args).
Proof.
  intros H. apply triple_bind; [apply triple_get | intros].
  apply triple_when. now apply triple_printf.
Qed.

Lemma triple_sys_or_die c msg :
  P (EvSys c) -> P (EvPerror msg) -> triple I P (sys_or_die c msg).
Proof.
  intros H1 H2. apply triple_bind; [now apply triple_sys | intros [|]].
  - apply triple_ret.
  - now apply triple_errExit.
Qed.

Lemma triple_ASSERT_PERMS f u g m : triple I P (ASSERT_PERMS f u g m).
Proof. apply triple_bind; [apply triple_get | intros; apply triple_assert]. Qed.

Lemma triple_EUID_ASSERT : triple I P EUID_ASSERT.
Proof. apply triple_bind; [apply triple_get | intros; apply triple_assert]. Qed.

Lemma triple_for_each {A} (f : A -> Run unit) l :
  (forall a, triple I P (f a)) -> triple I P (for_each f l).
Proof.
  intros H. induction l; simpl; [apply triple_ret | apply triple_bind; auto].
Qed.

End Rules.

Lemma triple_Ret {A} (I : st -> Prop) (P : event -> Prop) (m : Run A) s a s' :
  triple I P m -> I s -> m s = Ret a s' -> I s' /\ grows P s s'.
Proof. intros T Hs E. specialize (T s Hs). now rewrite E in T. Qed.

Lemma noret_bind_l {A B} (I : st -> Prop) (m : Run A) (f : A -> Run B) :
  noret I m -> noret I (bind m f).
Proof.
  intros Hm s Hs b s' H. apply bind_Ret_inv in H. destruct H as [a [s1 [H _]]].
  exact (Hm s Hs a s1 H).
Qed.

Lemma noret_bind_r {A B} (I : st -> Prop) (P : event -> Prop) (m : Run A)
      (f : A -> Run B) :
  triple I P m -> (forall a, noret I (f a)) -> noret I (bind m f).
Proof.
  intros Hm Hf s Hs b s' H. apply bind_Ret_inv in H. destruct H as [a [s1 [H1 H2]]].
  destruct (triple_Ret _ _ _ _ _ _ Hm Hs H1) as [H3 _].
  exact (Hf a s1 H3 b s' H2).
Qed.

Lemma triple_weaken {A} (I : st -> Prop) (P Q : event -> Prop) (m : Run A) :
  (forall e, P e -> Q e) -> triple I P m -> triple I Q m.
Proof.
  intros H Hm s Hs. destruct (Hm s Hs). split; auto.
  eapply grows_weaken; eauto.
Qed.

Lemma stable_True : stable (fun _ : st => True).
Proof. split; auto. Qed.

End Runs.

(** ** Proof automation *)

(** Symbolic execution of the primitive actions. *)
Ltac run1 :=
  cbn [bind ret get modify assign exit abort assert when printf eprintf errExit
       fs_logger fs_logger2 stat getuid getenv final
       kern trace glob tmpfs_mounted last_disable apply_caps caps apply_seccomp
       emit set_kern set_glob set_tmpfs_mounted set_last_disable set_apply_caps
       set_caps set_apply_seccomp negb].

Ltac run := run1; repeat (rewrite bind_assoc; run1).

Ltac run1_in H :=
  cbn [bind ret get modify assign exit abort assert when printf eprintf errExit
       fs_logger fs_logger2 stat getuid getenv final
       kern trace glob tmpfs_mounted last_disable apply_caps caps apply_seccomp
       emit set_kern set_glob set_tmpfs_mounted set_last_disable set_apply_caps
       set_caps set_apply_seccomp negb] in H.

Ltac run_in H := run1_in H; repeat (rewrite bind_assoc in H; run1_in H).

(** Inversion of a run that returned: the first action returned too. *)
Ltac ret_inv H a s H1 :=
  apply bind_Ret_inv in H; destruct H as [a [s [H1 H]]].

(** Execution of the system call at the head of the run, whose result in
    the current kernel state is given by [H]. *)
Ltac sys_with H :=
  first
    [ erewrite bind_Ret
        by (first [ apply sys_or_die_ok; exact H
                  | apply sys_ok; exact H
                  | apply sys_fail; exact H ])
    | erewrite bind_Exit by (apply sys_or_die_fail; exact H) ];
  run.

(** Execution of a debug message: both settings of [arg_debug]. *)
Ltac dbg :=
  rewrite ?bind_debugf, ?debugf_run; unfold debugged;
  repeat match goal with
         | |- context [nz (arg_debug (glob ?s))] => destruct (nz (arg_debug (glob s)))
         end;
  run.

Ltac head_of t :=
  lazymatch t with
  | ?f _ => head_of f
  | _ => t
  end.

(** Syntax-directed proof of a [triple]: [Hst] proves that the invariant is
    stable, [ev] solves the side conditions on events and [inv] those on
    assignments. *)
Ltac triple_go Hst ev inv :=
  first
    [ assumption
    | lazymatch goal with
      | |- triple _ _ (bind _ _) =>
          apply triple_bind; [ triple_go Hst ev inv | intro; triple_go Hst ev inv ]
      | |- triple _ _ (ret _) => apply triple_ret
      | |- triple _ _ (exit _) => apply triple_exit
      | |- triple _ _ abort => apply triple_abort
      | |- triple _ _ (assert _) => apply triple_assert
      | |- triple _ _ (get _) => apply triple_get
      | |- triple _ _ (when _ _) => apply triple_when; triple_go Hst ev inv
      | |- triple _ _ (sys _) => apply (triple_sys _ _ Hst); ev
      | |- triple _ _ (call_ext _) => apply (triple_call_ext _ _ Hst); ev
      | |- triple _ _ (call_ext_ _) => apply (triple_call_ext_ _ _ Hst); ev
      | |- triple _ _ (printf _ _) => apply (triple_printf _ _ Hst); ev
      | |- triple _ _ (eprintf _ _) => apply (triple_eprintf _ _ Hst); ev
      | |- triple _ _ (fs_logger _) => apply (triple_fs_logger _ _ Hst); ev
      | |- triple _ _ (fs_logger2 _ _) => apply (triple_fs_logger2 _ _ Hst); ev
      | |- triple _ _ (errExit _) => apply (triple_errExit _ _ Hst); ev
      | |- triple _ _ (debugf _ _) => apply (triple_debugf _ _ Hst); ev
      | |- triple _ _ (sys_or_die _ _) => apply (triple_sys_or_die _ _ Hst); ev
      | |- triple _ _ (ASSERT_PERMS _ _ _ _) => apply triple_ASSERT_PERMS
      | |- triple _ _ EUID_ASSERT => apply triple_EUID_ASSERT
      | |- triple _ _ (modify (emit _)) => apply (triple_emit _ _ Hst); ev
      | |- triple _ _ (modify _) =>
          apply triple_modify; [ inv | intro; reflexivity ]
      | |- triple _ _ (assign _) =>
          apply triple_modify; [ inv | intro; reflexivity ]
      | |- triple _ _ (for_each _ _) =>
          apply triple_for_each; intro; triple_go Hst ev inv
      | |- triple _ _ (match ?x with _ => _ end) =>
          first [ progress cbn beta iota | destruct x ]; triple_go Hst ev inv
      | |- triple _ _ ?m => let h := head_of m in unfold h; triple_go Hst ev inv
      end ].

(** * The filesystem policy engine *)

Section FsProofs.

Context {K : Type} {W : World K}.

Abbreviation st := (state K).
Abbreviation Run := (M (state K)).

(** Rebuilding the staging directory mounts nothing and logs nothing. *)
Lemma fs_build_firejail_dir_quiet :
  triple (fun _ : st => True) quiet fs_build_firejail_dir.
Proof.
  triple_go (@stable_True K) ltac:(repeat split) ltac:(auto).
Qed.

Lemma staged_grows (s s1 : st) v :
  fs_build_firejail_dir (set_last_disable v s) = Ret tt s1 -> grows quiet s s1.
Proof.
  intros H.
  destruct (fs_build_firejail_dir_quiet (set_last_disable v s) Logic.I) as [_ G].
  now rewrite H in G.
Qed.

(** ** C9: a target that is not there *)

(** C9.  A blacklist or blacklist-nolog denial of a target that does not
    exist returns to its caller, having issued no mount and written no log
    entry; the system is as the rebuild of the staging directory, with which
    every denial starts, left it. *)
Theorem blacklist_absent_noop :
  forall op filename (s s1 : st),
    is_blacklist_op op = true ->
    fs_build_firejail_dir (set_last_disable UNSUCCESSFUL s) = Ret tt s1 ->
    target_absent (kern s1) filename ->
    exists s2,
      disable_file op filename s = Ret tt s2
      /\ kern s2 = kern s1
      /\ grows quiet s s2.
Proof.
  intros op filename s s1 Hop Hb Ha.
  pose proof (staged_grows _ _ _ Hb) as G.
  assert (E : disable_file op filename s =
              match k_realpath (kern s1) filename with
              | inr _ => Ret tt s1
              | inl fname =>
                  debugf "Warning: %s does not exist, skipping...\n" [FS fname] s1
              end).
  { unfold disable_file, target_absent in *.
    destruct op; try discriminate Hop; run;
      rewrite (bind_Ret _ _ _ _ _ Hb); run;
      (destruct (k_realpath (kern s1) filename) as [fname|errno];
       [ run; now rewrite Ha
       | destruct (Z.eqb_spec errno EACCES); [contradiction | reflexivity] ]). }
  rewrite E. unfold target_absent in Ha.
  destruct (k_realpath (kern s1) filename) as [fname|errno].
  - dbg.
    + eexists. split; [reflexivity | split; [reflexivity |]].
      eapply grows_trans; [exact G | apply grows_emit; repeat split].
    + eexists. split; [reflexivity | split; [reflexivity | exact G]].
  - eexists. split; [reflexivity | split; [reflexivity | exact G]].
Qed.

(** ** C6: the donor of a denial *)

(** C6 (amended).  A blacklist or blacklist-nolog denial of a target that
    resolves and exists bind-mounts a donor over the resolved path: the
    directory donor when the stat snapshot is a directory, the file donor
    otherwise.  The one exception is the symlinked /bin or /usr/bin directory,
    which is reported and not mounted over. *)
Theorem denial_donor_by_type :
  forall op filename (s s1 : st) fname stt,
    is_blacklist_op op = true ->
    fs_build_firejail_dir (set_last_disable UNSUCCESSFUL s) = Ret tt s1 ->
    k_realpath (kern s1) filename = inl fname ->
    k_stat (kern s1) fname = Some stt ->
    (bin_link_exempt (kern s1) filename fname stt = true ->
     disable_file op filename s =
     Ret tt (emit (EvStderr "Warning: %s directory link was not blacklisted\n"
                            [FS filename]) s1))
    /\
    (bin_link_exempt (kern s1) filename fname stt = false ->
     exists s2,
       grows is_stdout s1 s2 /\ kern s2 = kern s1 /\
       disable_file op filename s =
       match sys_step (kern s1) (donor_mount (donor_for stt) fname) with
       | Some k' =>
           Ret tt (emit (EvLogger2 (blacklist_tag op) fname)
                     (set_last_disable SUCCESSFUL
                        (set_kern k' (emit (EvSys (donor_mount (donor_for stt) fname)) s2))))
       | None =>
           Exit 1 (emit (EvPerror "disable file")
                     (emit (EvSys (donor_mount (donor_for stt) fname)) s2))
       end).
Proof.
  intros op filename s s1 fname stt Hop Hb Hr Hs.
  assert (E : disable_file op filename s = disable_file_blacklist op filename fname stt s1).
  { unfold disable_file.
    destruct op; try discriminate Hop; run;
      rewrite (bind_Ret _ _ _ _ _ Hb); run; rewrite Hr; run; now rewrite Hs. }
  rewrite E. unfold disable_file_blacklist. split; intros Hx; run; rewrite Hx; run.
  - reflexivity.
  - unfold donor_for, blacklist_tag, log_blacklist.
    destruct (nz (arg_debug (glob s1))); [| destruct (nz (arg_debug_blacklists (glob s1)))].
    + exists (emit (EvStdout "Disable %s\n" [FS fname]) s1).
      split; [apply grows_emit; exact Logic.I | split; [reflexivity |]].
      destruct (S_ISDIR (st_mode stt)); run;
        match goal with |- context [sys_step ?k ?c] => destruct (sys_step k c) eqn:Hm end;
        sys_with Hm; destruct op; try discriminate Hop; reflexivity.
    + exists (emit (EvStdout (match op with BLACKLIST_FILE => "\n" | _ => " - no logging\n" end) [])
                   (emit (EvStdout "Disable %s" [FS fname]) s1)).
      split; [| split; [reflexivity |]].
      * eapply grows_trans; apply grows_emit; exact Logic.I.
      * destruct (S_ISDIR (st_mode stt)); run;
          destruct op; try discriminate Hop; run;
          match goal with |- context [sys_step ?k ?c] => destruct (sys_step k c) eqn:Hm end;
          sys_with Hm; reflexivity.
    + exists s1.
      split; [apply grows_refl | split; [reflexivity |]].
      destruct (S_ISDIR (st_mode stt)); run;
        match goal with |- context [sys_step ?k ?c] => destruct (sys_step k c) eqn:Hm end;
        sys_with Hm; destruct op; try discriminate Hop; reflexivity.
Qed.

(** ** C7: tmpfs over a directory *)

(** C7.  A tmpfs directive on a directory mounts a tmpfs over it and gives
    the mount point the owner and group of the stat snapshot taken before;
    with a kernel where chown sets the owner and a fresh tmpfs is empty, the
    directory then has its former owner and no content.  On a target that is
    not a directory the directive prints a warning, mounts nothing and
    returns. *)
Theorem tmpfs_directive :
  forall filename (s s1 : st) fname stt,
    chown_sets_owner -> chown_keeps_entries -> tmpfs_is_empty ->
    fs_build_firejail_dir (set_last_disable UNSUCCESSFUL s) = Ret tt s1 ->
    k_realpath (kern s1) filename = inl fname ->
    k_stat (kern s1) fname = Some stt ->
    (S_ISDIR (st_mode stt) = true ->
     forall k1 k2,
       sys_step (kern s1) (tmpfs_mount fname) = Some k1 ->
       sys_step k1 (SysChown fname (st_uid stt) (st_gid stt)) = Some k2 ->
       exists s2 stt',
         disable_file MOUNT_TMPFS filename s = Ret tt s2
         /\ kern s2 = k2
         /\ k_stat k2 fname = Some stt'
         /\ st_uid stt' = st_uid stt /\ st_gid stt' = st_gid stt
         /\ k_readdir k2 fname = Some []
         /\ exists prints,
              Forall is_stdout prints
              /\ trace s2 = (trace s1 ++ prints ++
                             [EvSys (tmpfs_mount fname);
                              EvSys (SysChown fname (st_uid stt) (st_gid stt));
                              EvLogger2 "tmpfs" fname])%list)
    /\
    (S_ISDIR (st_mode stt) = false ->
     disable_file MOUNT_TMPFS filename s =
     Ret tt (emit (EvStdout "Warning: %s is not a directory; cannot mount a tmpfs on top of it.\n"
                            [FS fname]) s1)
     /\ grows quiet s s1).
Proof.
  intros filename s s1 fname stt Lown Lkeep Lempty Hb Hr Hs.
  pose proof (staged_grows _ _ _ Hb) as G.
  assert (E : disable_file MOUNT_TMPFS filename s = disable_file_tmpfs fname stt s1).
  { unfold disable_file. run.
    rewrite (bind_Ret _ _ _ _ _ Hb); run; rewrite Hr; run; now rewrite Hs. }
  rewrite E. unfold disable_file_tmpfs. split; intros Hd; rewrite Hd; [| now split].
  intros k1 k2 Hm Hc.
  destruct (Lown _ _ _ _ _ Hc) as [stt' [Hs' [Hu Hg]]].
  assert (Hempty : k_readdir k2 fname = Some []).
  { rewrite (Lkeep _ _ _ _ _ Hc). exact (Lempty _ _ _ Hm). }
  set (s1' := if nz (arg_debug (glob s1))
              then emit (EvStdout "Mounting tmpfs on %s\n" [FS fname]) s1 else s1).
  exists (emit (EvLogger2 "tmpfs" fname)
            (set_last_disable SUCCESSFUL
               (set_kern k2 (emit (EvSys (SysChown fname (st_uid stt) (st_gid stt)))
                  (set_kern k1 (emit (EvSys (tmpfs_mount fname)) s1')))))).
  exists stt'. split.
  - subst s1'. dbg; sys_with Hm; sys_with Hc; reflexivity.
  - repeat (split; [assumption || reflexivity |]).
    subst s1'. destruct (nz (arg_debug (glob s1))).
    + exists [EvStdout "Mounting tmpfs on %s\n" [FS fname]]. split.
      * repeat constructor.
      * simpl. now rewrite <- !app_assoc.
    + exists []. split; [constructor |]. simpl. now rewrite <- !app_assoc.
Qed.

(** ** C1: exceptions and denials, in order *)


(** A directive never removes a pattern from the exception list. *)
Lemma fs_blacklist_entry_extends homedir data nb (s : st) nb' s' :
  fs_blacklist_entry homedir data nb s = Ret nb' s' ->
  exists extra, nb' = (nb ++ extra)%list.
Proof.
  unfold fs_blacklist_entry.
  destruct (ignored_directive data).
  { intros H. inversion H. exists []. now rewrite app_nil_r. }
  destruct (strncmp0 data "bind " 5).
  { intros H. apply bind_Ret_inv in H. destruct H as [a [s1 [_ H]]].
    inversion H. exists []. now rewrite app_nil_r. }
  destruct (strncmp0 data "noblacklist " 12).
  { run. intros H. inversion H. eauto. }
  destruct (directive_op data) as [[op ptr]|].
  - intros H. apply bind_Ret_inv in H. destruct H as [a [s1 [_ H]]].
    inversion H. exists []. now rewrite app_nil_r.
  - run. intros H. inversion H. exists []. now rewrite app_nil_r.
Qed.

Lemma fs_blacklist_entries_extends homedir l nb (s : st) nb' s' :
  fs_blacklist_entries homedir l nb s = Ret nb' s' ->
  exists extra, nb' = (nb ++ extra)%list.
Proof.
  revert nb s. induction l as [|d l IH]; intros nb s; simpl.
  - intros H. inversion H. exists []. now rewrite app_nil_r.
  - intros H. apply bind_Ret_inv in H. destruct H as [nb1 [s1 [H1 H2]]].
    apply fs_blacklist_entry_extends in H1. destruct H1 as [e1 ->].
    apply IH in H2. destruct H2 as [e2 ->].
    exists (e1 ++ e2)%list. now rewrite app_assoc.
Qed.











(** ** C2: a line that is no directive *)

(** C2 (amended).  A line that is none of the recognized forms is reported
    on stderr and skipped: the interpreter goes on with the next directive,
    with the exception list and the system unchanged. *)
Theorem unrecognized_directive_skipped :
  forall homedir data rest nb (s : st),
    unrecognized data = true ->
    fs_blacklist_entry homedir data nb s
    = Ret nb (emit (EvStderr "Error: invalid profile line %s\n" [FS data]) s)
    /\ fs_blacklist_entries homedir (data :: rest) nb s
       = fs_blacklist_entries homedir rest nb
           (emit (EvStderr "Error: invalid profile line %s\n" [FS data]) s).
Proof.
  intros homedir data rest nb s H. unfold unrecognized in H.
  apply andb_prop in H. destruct H as [H H4].
  apply andb_prop in H. destruct H as [H H3].
  apply andb_prop in H. destruct H as [H1 H2].
  apply negb_true_iff in H1, H2, H3.
  assert (E : fs_blacklist_entry homedir data nb s
              = Ret nb (emit (EvStderr "Error: invalid profile line %s\n" [FS data]) s)).
  { unfold fs_blacklist_entry. rewrite H1, H2, H3.
    destruct (directive_op data); [discriminate | reflexivity]. }
  split; [exact E |].
  simpl. now rewrite (bind_Ret _ _ _ _ _ E).
Qed.

(** ** C5: the staging flag across a chroot *)

Lemma flag_stable v : @stable K (fun s => tmpfs_mounted s = v).
Proof. split; intros ? s H; exact H. Qed.

Ltac any_ev := exact Logic.I.
Ltac quiet_ev := reflexivity.
Ltac flag_inv := idtac; intros ? ?; cbn; assumption.

Lemma fs_build_firejail_dir_flag v :
  triple (fun s : st => tmpfs_mounted s = v) no_staging_mount fs_build_firejail_dir.
Proof. triple_go (flag_stable v) ltac:(quiet_ev) ltac:(flag_inv). Qed.

Lemma ensure_dir_flag v dir :
  triple (fun s : st => tmpfs_mounted s = v) no_staging_mount (ensure_dir dir).
Proof. triple_go (flag_stable v) ltac:(quiet_ev) ltac:(flag_inv). Qed.

Lemma post_chroot_bootstrap_flag v :
  triple (fun s : st => tmpfs_mounted s = v) no_staging_mount post_chroot_bootstrap.
Proof.
  pose proof (fs_build_firejail_dir_flag v) as Hb.
  triple_go (flag_stable v) ltac:(quiet_ev) ltac:(flag_inv).
Qed.

Lemma overlay_layers_flag v old oroot :
  triple (fun s : st => tmpfs_mounted s = v) any_event (overlay_layers old oroot).
Proof. triple_go (flag_stable v) ltac:(any_ev) ltac:(flag_inv). Qed.

Lemma fs_chroot_prepare_flag v rootdir :
  triple (fun s : st => tmpfs_mounted s = v) any_event (fs_chroot_prepare rootdir).
Proof. triple_go (flag_stable v) ltac:(any_ev) ltac:(flag_inv). Qed.

Lemma is_staging_mount_staging : is_staging_mount (EvSys staging_mount) = true.
Proof. cbn. apply String.eqb_refl. Qed.

(** With the flag clear, a staging bootstrap that returns has mounted the
    tmpfs and set the flag. *)
Lemma fs_build_mnt_dir_fresh (s s' : st) :
  nz (tmpfs_mounted s) = false ->
  fs_build_mnt_dir s = Ret tt s' ->
  tmpfs_mounted s' = 1
  /\ exists tr,
      trace s' = (trace s ++ tr ++ [EvSys staging_mount; EvLogger2 "tmpfs" RUN_MNT_DIR])%list.
Proof.
  intros Hf H. unfold fs_build_mnt_dir in H.
  ret_inv H u1 s1 H1. ret_inv H u2 s2 H2.
  destruct (triple_Ret _ _ _ _ _ _ (fs_build_firejail_dir_flag _) eq_refl H1) as [F1 [t1 [G1 _]]].
  destruct (triple_Ret _ _ _ _ _ _ (ensure_dir_flag _ _) eq_refl H2) as [F2 [t2 [G2 _]]].
  run_in H. rewrite F2, F1, Hf in H.
  rewrite bind_debugf in H. ret_inv H u3 s3 H3.
  apply sys_or_die_Ret_inv in H3. destruct H3 as [k' [_ ->]].
  run_in H. inversion H; subst s'; clear H. cbn. split; [reflexivity |].
  unfold debugged. destruct (nz (arg_debug (glob s2))); cbn; rewrite G2, G1.
  - exists (t1 ++ t2 ++ [EvStdout "Mounting tmpfs on %s directory\n" [FS RUN_MNT_DIR]])%list.
    now rewrite <- !app_assoc.
  - exists (t1 ++ t2)%list. now rewrite <- !app_assoc.
Qed.

(** With the flag set, a staging bootstrap mounts nothing on the staging
    area and leaves the flag set. *)
Lemma flag_set_of_flag {A} (P : event -> Prop) (m : Run A) :
  (forall v, triple (fun s : st => tmpfs_mounted s = v) P m) ->
  triple (flag_set : st -> Prop) P m.
Proof.
  intros H s Hs. destruct (H (tmpfs_mounted s) s eq_refl) as [F G].
  split; [| exact G]. unfold flag_set in *. now rewrite F.
Qed.

Lemma fs_build_mnt_dir_set :
  triple (flag_set : st -> Prop) no_staging_mount fs_build_mnt_dir.
Proof.
  unfold fs_build_mnt_dir.
  apply triple_bind; [apply flag_set_of_flag, fs_build_firejail_dir_flag | intros _].
  apply triple_bind; [apply flag_set_of_flag; intros; apply ensure_dir_flag | intros _].
  apply triple_bind_get_known with (Q := fun a => nz a = true).
  { intros s H. exact H. }
  intros m Hm. rewrite Hm. apply triple_ret.
Qed.

Lemma fs_build_mnt_dir_flag_set (s s' : st) :
  fs_build_mnt_dir s = Ret tt s' -> flag_set s'.
Proof.
  intros H. destruct (nz (tmpfs_mounted s)) eqn:E.
  - now destruct (triple_Ret _ _ _ _ _ _ fs_build_mnt_dir_set E H).
  - destruct (fs_build_mnt_dir_fresh _ _ E H) as [F _]. unfold flag_set. now rewrite F.
Qed.

(** Two events of a run, in their order. *)
Lemma grows_through (s a b c d s' : st) e1 e2 :
  grows any_event s a -> trace b = (trace a ++ [e1])%list ->
  grows any_event b c -> trace d = (trace c ++ [e2])%list ->
  grows any_event d s' ->
  exists p q r, trace s' = (trace s ++ p ++ e1 :: q ++ e2 :: r)%list.
Proof.
  intros [p [Ea _]] Eb [q [Ec _]] Ed [r [Es _]].
  exists p, q, r. rewrite Es, Ed, Ec, Eb, Ea.
  repeat rewrite <- app_assoc. reflexivity.
Qed.

Lemma grows_any_debugged fmt args (s : st) :
  grows any_event s (debugged fmt args s).
Proof. eapply grows_weaken; [| apply grows_debugged]. now intros. Qed.

(** The trace of a step that returned extends the trace it started from. *)
Ltac ext_step Hi G :=
  match type of Hi with
  | ?m ?x = Ret _ ?y =>
      assert (G : grows any_event x y)
        by (refine (proj2 (triple_Ret (fun _ : st => True) any_event m x _ y _
                             Logic.I Hi));
            triple_go (@stable_True K) ltac:(any_ev) ltac:(auto))
  end.

Lemma overlay_mount_modern basedir oroot odiff owork (s : st) :
  overlay_mount false basedir oroot odiff owork s
  = bind (sys_or_die (modern_overlay_mount oroot odiff owork) "mounting overlayfs")
         (fun _ => overlay_home basedir oroot odiff owork)
         (debugged "Mounting OverlayFS\n" [] s).
Proof. unfold overlay_mount. now rewrite bind_debugf. Qed.

Lemma overlay_mount_legacy basedir oroot odiff owork (s : st) :
  overlay_mount true basedir oroot odiff owork s
  = if nz (arg_overlay_keep (glob s))
    then Exit 1 (emit (EvStderr "Error: option --overlay= not available for kernels older than 3.18\n" [])
                      (debugged "Mounting OverlayFS\n" [] s))
    else sys_or_die (legacy_overlay_mount oroot odiff) "mounting overlayfs"
                    (debugged "Mounting OverlayFS\n" [] s).
Proof.
  unfold overlay_mount. rewrite bind_debugf. run. rewrite glob_debugged.
  destruct (nz (arg_overlay_keep (glob s))); run; [reflexivity |].
  unfold bind. now destruct (sys_or_die _ _ _) as [[] ?| |].
Qed.

(** The layers of the overlay, when they are all in place: the overlay has
    been mounted on the overlay root by the driver chosen, and /run has been
    bound into the overlay root after it. *)
Lemma overlay_layers_mounts old oroot (s s' : st) :
  overlay_layers old oroot s = Ret tt s' ->
  exists basedir p q r,
    trace s'
    = (trace s ++ p
         ++ EvSys (if old
                   then legacy_overlay_mount oroot (basedir ++ "/odiff")
                   else modern_overlay_mount oroot (basedir ++ "/odiff")
                                             (basedir ++ "/owork"))
         :: q ++ EvSys (SysMount (Some "/run") (oroot ++ "/run") None
                                 (Z.lor MS_BIND MS_REC) None)
         :: r)%list.
Proof.
  intros H. unfold overlay_layers in H.
  ret_inv H u1 s1 H1. ext_step H1 G1.
  ret_inv H u2 s2 H2. ext_step H2 G2.
  ret_inv H u3 s3 H3. ext_step H3 G3.
  ret_inv H basedir s4 H4. ext_step H4 G4.
  ret_inv H u5 s5 H5. ext_step H5 G5.
  ret_inv H u6 s6 H6. ext_step H6 G6.
  ret_inv H u7 s7 H7. run_in H.
  assert (Gpre : grows any_event s (debugged "Mounting OverlayFS\n" [] s6)).
  { repeat (eapply grows_trans; [eassumption |]). apply grows_any_debugged. }
  assert (Hm : exists sm,
             trace sm
             = (trace (debugged "Mounting OverlayFS\n" [] s6)
                  ++ [EvSys (if old
                             then legacy_overlay_mount oroot (basedir ++ "/odiff")
                             else modern_overlay_mount oroot (basedir ++ "/odiff")
                                                       (basedir ++ "/owork"))])%list
             /\ grows any_event sm s7).
  { destruct old.
    - rewrite overlay_mount_legacy in H7.
      destruct (nz (arg_overlay_keep (glob s6))); [discriminate |].
      apply sys_or_die_Ret_inv in H7. destruct H7 as [k' [_ ->]].
      exists (set_kern k' (emit (EvSys (legacy_overlay_mount oroot (basedir ++ "/odiff")))
                                (debugged "Mounting OverlayFS\n" [] s6))).
      split; [reflexivity | apply grows_refl].
    - rewrite overlay_mount_modern in H7. ret_inv H7 u8 s8 H8.
      apply sys_or_die_Ret_inv in H8. destruct H8 as [k' [_ ->]].
      ext_step H7 G7.
      exists (set_kern k' (emit (EvSys (modern_overlay_mount oroot (basedir ++ "/odiff")
                                                              (basedir ++ "/owork")))
                                (debugged "Mounting OverlayFS\n" [] s6))).
      split; [reflexivity | exact G7]. }
  destruct Hm as [sm [Em Gm]].
  unfold overlay_binds in H. rewrite bind_debugf in H.
  ret_inv H u9 s9 H9. ext_step H9 G9. run_in H. rewrite bind_debugf in H.
  ret_inv H u10 s10 H10.
  apply sys_or_die_Ret_inv in H10. destruct H10 as [k' [_ ->]].
  ext_step H G11.
  exists basedir.
  match type of G11 with
  | grows _ (set_kern ?k (emit ?e ?c)) _ =>
      apply (grows_through s _ sm c (set_kern k (emit e c)) s' _ e Gpre Em);
        [| reflexivity | exact G11]
  end.
  eapply grows_trans; [exact Gm |].
  eapply grows_trans; [apply grows_emit; exact Logic.I |].
  eapply grows_trans; [apply grows_any_debugged |].
  eapply grows_trans; [exact G9 |].
  eapply grows_trans; [apply grows_emit; exact Logic.I |].
  apply grows_any_debugged.
Qed.

Lemma overlay_kernel_check_grows (s s1 : st) old :
  overlay_kernel_check s = Ret old s1 -> grows any_event s s1.
Proof. intros H. ext_step H G. exact G. Qed.

(** An overlay that has been built: the overlay mount, the bind of /run into
    the overlay root and the chroot, in this order, and no mount on the
    staging area after the chroot. *)
Lemma fs_overlayfs_build_mounts old (s s' : st) :
  fs_overlayfs_build old s = Ret tt s' ->
  exists basedir p q r t,
    trace s'
    = (trace s ++ p
         ++ EvSys (if old
                   then legacy_overlay_mount (RUN_MNT_DIR ++ "/oroot") (basedir ++ "/odiff")
                   else modern_overlay_mount (RUN_MNT_DIR ++ "/oroot") (basedir ++ "/odiff")
                                             (basedir ++ "/owork"))
         :: q ++ EvSys (SysMount (Some "/run") ((RUN_MNT_DIR ++ "/oroot") ++ "/run") None
                                 (Z.lor MS_BIND MS_REC) None)
         :: r ++ EvSys (SysChroot (RUN_MNT_DIR ++ "/oroot")) :: t)%list
    /\ Forall no_staging_mount t.
Proof.
  intros H. unfold fs_overlayfs_build in H.
  ret_inv H u2 s2 H2. ext_step H2 G2. destruct G2 as [p2 [E2 _]].
  ret_inv H u3 s3 H3. destruct u3.
  destruct (overlay_layers_mounts _ _ _ _ H3) as [basedir [p [q [r E3]]]].
  ret_inv H u4 s4 H4.
  apply sys_or_die_Ret_inv in H4. destruct H4 as [k' [_ ->]].
  destruct (triple_Ret _ _ _ _ _ _ (post_chroot_bootstrap_flag _) eq_refl H)
    as [_ [t [Et Ft]]].
  exists basedir, (p2 ++ p)%list, q, r, t. split; [| exact Ft].
  rewrite Et. cbn [trace set_kern emit]. rewrite E3, E2.
  repeat (rewrite <- app_assoc || rewrite <- app_comm_cons). reflexivity.
Qed.

(** C5 (amended).  The chroot-entry path clears the flag after its chroot
    and runs the staging bootstrap, which mounts a fresh tmpfs on the staging
    area and sets the flag again.  The overlay-composer path does not touch
    the flag: it binds /run, with the staging area, into the overlay root
    before its chroot; after the chroot the flag is still set, nothing is
    mounted on the staging area, and a later staging bootstrap does not mount
    either. *)
Theorem staging_flag_after_chroot :
  (forall rootdir (s s' : st),
      fs_chroot rootdir s = Ret tt s' ->
      flag_set s'
      /\ exists pre mid post,
          trace s' = (trace s ++ pre ++ EvSys (SysChroot rootdir)
                        :: mid ++ EvSys staging_mount :: post)%list)
  /\
  (forall (s s' : st),
      fs_overlayfs s = Ret tt s' ->
      flag_set s'
      /\ (exists pre mid post,
             trace s'
             = (trace s ++ pre
                  ++ EvSys (SysMount (Some "/run") ((RUN_MNT_DIR ++ "/oroot") ++ "/run") None
                                     (Z.lor MS_BIND MS_REC) None)
                  :: mid ++ EvSys (SysChroot (RUN_MNT_DIR ++ "/oroot")) :: post)%list
             /\ Forall no_staging_mount post)
      /\ grows no_staging_mount s' (final (fs_build_mnt_dir s'))).
Proof.
  split.
  - intros rootdir s s' H. unfold fs_chroot in H. run_in H.
    ret_inv H u1 s1 H1.
    assert (G1 : grows any_event s s1).
    { destruct (checkcfg (kern s) CFG_CHROOT_DESKTOP); cbn in H1.
      - now destruct (triple_Ret _ _ _ _ _ _ (fs_chroot_prepare_flag _ rootdir) eq_refl H1).
      - inversion H1. apply grows_refl. }
    destruct G1 as [t1 [G1 _]].
    rewrite bind_debugf in H. ret_inv H u2 s2 H2.
    apply sys_or_die_Ret_inv in H2. destruct H2 as [k' [_ ->]].
    unfold fs_build_remount_mnt_dir in H. run_in H.
    ret_inv H u3 s3 H3. destruct u3.
    apply fs_build_mnt_dir_fresh in H3; [| reflexivity].
    destruct H3 as [F3 [t3 G3]]. cbn in G3.
    run_in H.
    assert (G4 : tmpfs_mounted s' = 1 /\ grows no_staging_mount s3 s').
    { destruct (checkcfg (kern s3) CFG_CHROOT_DESKTOP); cbn in H.
      - exact (triple_Ret _ _ _ _ _ _ (post_chroot_bootstrap_flag 1) F3 H).
      - inversion H; subst s'. split; [exact F3 | apply grows_refl]. }
    destruct G4 as [F4 [t4 [G4 _]]].
    split; [unfold flag_set; now rewrite F4 |].
    assert (E : exists p, trace (debugged "Chrooting into %s\n" [FS rootdir] s1)
                          = (trace s ++ p)%list).
    { unfold debugged. destruct (nz (arg_debug (glob s1))); cbn; rewrite G1.
      - eexists. now rewrite <- app_assoc.
      - now exists t1. }
    destruct E as [p E].
    exists p, t3, (EvLogger2 "tmpfs" RUN_MNT_DIR :: t4).
    rewrite G4, G3, E. repeat rewrite <- app_assoc. reflexivity.
  - intros s s' H. unfold fs_overlayfs in H.
    ret_inv H old s1 H1.
    destruct (overlay_kernel_check_grows _ _ _ H1) as [p0 [E0 _]].
    destruct (fs_overlayfs_build_mounts _ _ _ H) as [basedir [p [q [r [t [Et Ft]]]]]].
    unfold fs_overlayfs_build in H.
    ret_inv H u2 s2 H2. ret_inv H u3 s3 H3. ret_inv H u4 s4 H4.
    destruct u2, u3, u4.
    pose proof (fs_build_mnt_dir_flag_set _ _ H2) as F2. unfold flag_set in F2.
    assert (F3 : tmpfs_mounted s3 = tmpfs_mounted s2)
      by now destruct (triple_Ret _ _ _ _ _ _ (overlay_layers_flag _ _ _) eq_refl H3).
    apply sys_or_die_Ret_inv in H4. destruct H4 as [k' [_ ->]].
    set (sc := set_kern k' (emit (EvSys (SysChroot (RUN_MNT_DIR ++ "/oroot"))) s3)) in H.
    assert (Fc : tmpfs_mounted sc = tmpfs_mounted s2) by exact F3.
    destruct (triple_Ret _ _ _ _ _ _ (post_chroot_bootstrap_flag (tmpfs_mounted s2)) Fc H)
      as [F5 _]. subst sc.
    assert (Fs' : flag_set s') by (unfold flag_set; now rewrite F5).
    split; [exact Fs' | split].
    + exists (p0 ++ p
                ++ EvSys (if old
                          then legacy_overlay_mount (RUN_MNT_DIR ++ "/oroot")
                                                    (basedir ++ "/odiff")
                          else modern_overlay_mount (RUN_MNT_DIR ++ "/oroot")
                                                    (basedir ++ "/odiff")
                                                    (basedir ++ "/owork"))
                :: q)%list, r, t.
      split; [| exact Ft].
      rewrite Et, E0.
      repeat (rewrite <- app_assoc || rewrite <- app_comm_cons). reflexivity.
    + now apply fs_build_mnt_dir_set.
Qed.

(** ** C8: the overlay driver *)

Lemma overlay_keep_stable : @stable K overlay_keep.
Proof. split; intros ? s H; exact H. Qed.

Ltac overlay_ev := reflexivity.
Ltac keep_inv := idtac; intros ? ?; unfold overlay_keep in *; cbn; assumption.

Lemma overlay_kernel_check_run (s : st) u major minor :
  k_uname (kern s) = Some u ->
  sscanf_d_dot_d (release u) = Some (major, minor) ->
  overlay_kernel_check s
  = if major <? 3
    then Exit 1 (emit (EvStderr "Error: minimum kernel version required 3.x\n" [])
                      (debugged "Linux kernel version %d.%d\n" [FD major; FD minor] s))
    else Ret ((major =? 3) && (minor <? 18))
             (debugged "Linux kernel version %d.%d\n" [FD major; FD minor] s).
Proof.
  intros Hu Hv. unfold overlay_kernel_check. run. rewrite Hu, Hv.
  rewrite bind_debugf. now destruct (major <? 3).
Qed.

Lemma overlay_mount_keep_triple basedir oroot odiff owork :
  triple overlay_keep no_overlay_mount (overlay_mount true basedir oroot odiff owork).
Proof.
  intros s Hs. rewrite overlay_mount_legacy. unfold overlay_keep in Hs. rewrite Hs. cbn.
  split.
  - unfold overlay_keep. cbn. now rewrite glob_debugged.
  - eapply grows_trans.
    + eapply grows_weaken; [| apply grows_debugged]. now intros [].
    + apply grows_emit. reflexivity.
Qed.

Lemma overlay_mount_keep_noret basedir oroot odiff owork :
  noret overlay_keep (overlay_mount true basedir oroot odiff owork).
Proof.
  intros s Hs a s'. rewrite overlay_mount_legacy. unfold overlay_keep in Hs.
  rewrite Hs. discriminate.
Qed.

Lemma overlay_layers_keep oroot :
  triple overlay_keep no_overlay_mount (overlay_layers true oroot)
  /\ noret overlay_keep (overlay_layers true oroot).
Proof.
  pose proof overlay_keep_stable as Hst.
  assert (Tb : triple overlay_keep no_overlay_mount overlay_basedir)
    by triple_go Hst ltac:(overlay_ev) ltac:(keep_inv).
  assert (Td : forall d m, triple overlay_keep no_overlay_mount (overlay_dir d m))
    by (intros; triple_go Hst ltac:(overlay_ev) ltac:(keep_inv)).
  unfold overlay_layers. split.
  - apply triple_bind; [triple_go Hst ltac:(overlay_ev) ltac:(keep_inv) | intros _].
    apply triple_bind; [triple_go Hst ltac:(overlay_ev) ltac:(keep_inv) | intros _].
    apply triple_bind; [apply triple_ASSERT_PERMS | intros _].
    apply triple_bind; [exact Tb | intros basedir].
    apply triple_bind; [apply Td | intros _].
    apply triple_bind; [apply Td | intros _].
    apply triple_bind; [apply overlay_mount_keep_triple | intros _].
    triple_go Hst ltac:(overlay_ev) ltac:(keep_inv).
  - apply noret_bind_r with (P := no_overlay_mount);
      [triple_go Hst ltac:(overlay_ev) ltac:(keep_inv) | intros _].
    apply noret_bind_r with (P := no_overlay_mount);
      [triple_go Hst ltac:(overlay_ev) ltac:(keep_inv) | intros _].
    apply noret_bind_r with (P := no_overlay_mount);
      [apply triple_ASSERT_PERMS | intros _].
    apply noret_bind_r with (P := no_overlay_mount); [exact Tb | intros basedir].
    apply noret_bind_r with (P := no_overlay_mount); [apply Td | intros _].
    apply noret_bind_r with (P := no_overlay_mount); [apply Td | intros _].
    apply noret_bind_l, overlay_mount_keep_noret.
Qed.

Lemma fs_overlayfs_keep_legacy (s : st) :
  overlay_keep s ->
  (forall a s', fs_overlayfs_build true s <> Ret a s')
  /\ grows no_overlay_mount s (final (fs_overlayfs_build true s)).
Proof.
  intros Hs. pose proof overlay_keep_stable as Hst.
  destruct (overlay_layers_keep (RUN_MNT_DIR ++ "/oroot")) as [TL NL].
  assert (TM : triple overlay_keep no_overlay_mount fs_build_mnt_dir)
    by triple_go Hst ltac:(overlay_ev) ltac:(keep_inv).
  unfold fs_overlayfs_build. split.
  - apply (noret_bind_r _ _ _ _ TM); [| exact Hs]. intros _. now apply noret_bind_l.
  - assert (T : triple overlay_keep no_overlay_mount
                  (fs_build_mnt_dir ;;
                   overlay_layers true (RUN_MNT_DIR ++ "/oroot") ;;
                   sys_or_die (SysChroot (RUN_MNT_DIR ++ "/oroot")) "chroot" ;;
                   post_chroot_bootstrap)).
    { apply triple_bind; [exact TM | intros _].
      apply triple_bind; [exact TL | intros _].
      triple_go Hst ltac:(overlay_ev) ltac:(keep_inv). }
    now apply T.
Qed.

(** The modern driver is used on a kernel that is not old, the legacy driver
    on an old one, and never the other. *)
Lemma fs_overlayfs_build_driver (oldkernel : bool) :
  triple (fun _ : st => True)
         (fun e => (if oldkernel then modern_driver_mount e else legacy_driver_mount e) = false)
         (fs_overlayfs_build oldkernel).
Proof.
  destruct oldkernel;
    triple_go (@stable_True K) ltac:(reflexivity) ltac:(auto).
Qed.

(** C8.  The overlay composer reads major and minor from the kernel release.
    Release 3.18.0 selects the modern driver: an overlay that is built has
    been mounted on the overlay root with the options lowerdir, upperdir and
    workdir, and the legacy driver is never used.  Release 3.10.0 selects the
    legacy driver: an overlay that is built has been mounted with lowerdir and
    upperdir only, and the modern driver is never used; with the keep mode
    requested the run ends in a fatal error and never mounts an overlay.  A
    major version below 3 is fatal at once. *)
Theorem overlay_driver_by_kernel :
  forall (s : st) u,
    k_uname (kern s) = Some u ->
    (release u = "3.18.0" ->
     overlay_kernel_check s
     = Ret false (debugged "Linux kernel version %d.%d\n" [FD 3; FD 18] s)
     /\ (forall s',
            fs_overlayfs s = Ret tt s' ->
            exists basedir pre post,
              trace s'
              = (trace s ++ pre
                   ++ EvSys (SysMount (Some "overlay") (RUN_MNT_DIR ++ "/oroot")
                                      (Some "overlay") MS_MGC_VAL
                                      (Some ("lowerdir=/,upperdir=" ++ (basedir ++ "/odiff")
                                             ++ ",workdir=" ++ (basedir ++ "/owork"))%string))
                   :: post)%list)
     /\ grows (fun e => legacy_driver_mount e = false) s (final (fs_overlayfs s)))
    /\
    (release u = "3.10.0" ->
     overlay_kernel_check s
     = Ret true (debugged "Linux kernel version %d.%d\n" [FD 3; FD 10] s)
     /\ (forall s',
            fs_overlayfs s = Ret tt s' ->
            exists basedir pre post,
              trace s'
              = (trace s ++ pre
                   ++ EvSys (SysMount (Some "overlayfs") (RUN_MNT_DIR ++ "/oroot")
                                      (Some "overlayfs") MS_MGC_VAL
                                      (Some ("lowerdir=/,upperdir=" ++ (basedir ++ "/odiff"))%string))
                   :: post)%list)
     /\ grows (fun e => modern_driver_mount e = false) s (final (fs_overlayfs s))
     /\ (overlay_keep s ->
         (forall a s', fs_overlayfs s <> Ret a s')
         /\ grows no_overlay_mount s (final (fs_overlayfs s))))
    /\
    (forall major minor,
        sscanf_d_dot_d (release u) = Some (major, minor) ->
        major < 3 ->
        fs_overlayfs s
        = Exit 1 (emit (EvStderr "Error: minimum kernel version required 3.x\n" [])
                       (debugged "Linux kernel version %d.%d\n" [FD major; FD minor] s))).
Proof.
  intros s u Hu.
  assert (Built : forall old s1 s',
             overlay_kernel_check s = Ret old s1 ->
             fs_overlayfs s = Ret tt s' ->
             exists basedir pre post,
               trace s'
               = (trace s ++ pre
                    ++ EvSys (if old
                              then legacy_overlay_mount (RUN_MNT_DIR ++ "/oroot")
                                                        (basedir ++ "/odiff")
                              else modern_overlay_mount (RUN_MNT_DIR ++ "/oroot")
                                                        (basedir ++ "/odiff")
                                                        (basedir ++ "/owork"))
                    :: post)%list).
  { intros old s1 s' E H. unfold fs_overlayfs in H. rewrite (bind_Ret _ _ _ _ _ E) in H.
    destruct (overlay_kernel_check_grows _ _ _ E) as [p0 [E0 _]].
    destruct (fs_overlayfs_build_mounts _ _ _ H) as [basedir [p [q [r [t [Et _]]]]]].
    exists basedir, (p0 ++ p)%list. eexists.
    rewrite Et, E0. repeat rewrite <- app_assoc. destruct old; reflexivity. }
  split; [| split].
  - intros Hr.
    assert (E : overlay_kernel_check s
                = Ret false (debugged "Linux kernel version %d.%d\n" [FD 3; FD 18] s)).
    { rewrite (overlay_kernel_check_run s u 3 18 Hu); [reflexivity | now rewrite Hr]. }
    split; [exact E | split; [intros s' H; exact (Built false _ s' E H) |]].
    unfold fs_overlayfs. rewrite (bind_Ret _ _ _ _ _ E).
    eapply grows_trans; [| apply (fs_overlayfs_build_driver false); exact Logic.I].
    eapply grows_weaken; [| apply grows_debugged]. now intros [].
  - intros Hr.
    assert (E : overlay_kernel_check s
                = Ret true (debugged "Linux kernel version %d.%d\n" [FD 3; FD 10] s)).
    { rewrite (overlay_kernel_check_run s u 3 10 Hu); [reflexivity | now rewrite Hr]. }
    split; [exact E | split; [intros s' H; exact (Built true _ s' E H) | split]].
    { unfold fs_overlayfs. rewrite (bind_Ret _ _ _ _ _ E).
      eapply grows_trans; [| apply (fs_overlayfs_build_driver true); exact Logic.I].
      eapply grows_weaken; [| apply grows_debugged]. now intros []. }
    intros Hk.
    assert (Hk' : overlay_keep (debugged "Linux kernel version %d.%d\n" [FD 3; FD 10] s)).
    { unfold overlay_keep in *. now rewrite glob_debugged. }
    destruct (fs_overlayfs_keep_legacy _ Hk') as [N G].
    unfold fs_overlayfs. split.
    + intros a s'. rewrite (bind_Ret _ _ _ _ _ E). apply N.
    + rewrite (bind_Ret _ _ _ _ _ E).
      eapply grows_trans; [| exact G].
      eapply grows_weaken; [| apply grows_debugged]. now intros [].
  - intros major minor Hv Hlt.
    unfold fs_overlayfs. erewrite bind_Exit; [reflexivity |].
    rewrite (overlay_kernel_check_run s u major minor Hu Hv).
    destruct (Z.ltb_spec major 3); [reflexivity | lia].
Qed.

End FsProofs.

(** * The join protocol *)

Section JoinProofs.

Context {K : Type} {W : World K}.

Abbreviation st := (state K).
Abbreviation Run := (M (state K)).

(** ** C3: permission errors *)


(** ** C4: the parent of a join *)

Lemma signal_handler_run sig (s : st) : signal_handler sig s = flush_and_exit sig s.
Proof.
  unfold signal_handler, flush_and_exit, call_ext_, call_ext, bind, ret, exit.
  now destruct (ext_call (kern s) CCtflush).
Qed.

Lemma join_parent_run child (s : st) :
  join_parent child s
  = flush_and_exit 0 (after_sys (SysWaitpid child) (after_sys (SysSignal SIGTERM) s)).
Proof.
  unfold join_parent, after_sys.
  destruct (sys_step (kern s) (SysSignal SIGTERM)) eqn:H1; sys_with H1;
    match goal with |- context [sys_step ?k ?c] => destruct (sys_step k c) eqn:H2 end;
    sys_with H2; apply (signal_handler_run 0).
Qed.

(** C4 (amended).  After the fork the parent installs its SIGTERM handler,
    waits for the child without collecting its status, flushes the log and
    exits with status 0, whatever the status of the child; the handler
    flushes the log and exits with the number of the signal. *)
Theorem join_parent_exit :
  forall pid homedir child (s : st),
    0 < child ->
    join_forked pid homedir child s
    = flush_and_exit 0 (after_sys (SysWaitpid child) (after_sys (SysSignal SIGTERM) s))
    /\ forall sig s', signal_handler sig s' = flush_and_exit sig s'.
Proof.
  intros pid homedir child s H. split.
  - unfold join_forked.
    destruct (Z.ltb_spec child 0); [lia |].
    destruct (Z.eqb_spec child 0); [lia |].
    run. apply join_parent_run.
  - intros. apply signal_handler_run.
Qed.

(** ** C10: a join by root *)

Lemma root_join_inv_stable g : @stable K (root_join_inv g).
Proof. split; intros ? s H; exact H. Qed.

Lemma join_extract_root pid (s : st) :
  (forall k, k_getuid k = 0) -> join_extract pid s = Ret tt s.
Proof. intros Hroot. unfold join_extract. run. now rewrite Hroot. Qed.

Ltac root_ev :=
  cbn; try exact Logic.I; try (intro; discriminate); auto.

Ltac root_inv := idtac; intros ? ?; unfold root_join_inv in *; cbn; tauto.

Lemma join_apply_context_root g :
  (forall k, k_getuid k = 0) ->
  triple (root_join_inv g) (root_join_event g) join_apply_context.
Proof.
  intros Hroot. pose proof (root_join_inv_stable g) as Hst.
  unfold join_apply_context.
  apply triple_bind_get_known with (Q := fun a => a = cfg_cpus g).
  { intros s H; apply H. }
  intros cpus ->. apply triple_bind.
  { unfold when. destruct (nz (cfg_cpus g)) eqn:E; [| apply triple_ret].
    apply (triple_call_ext_ _ _ Hst). cbn. unfold nz in E.
    destruct (Z.eqb_spec (cfg_cpus g) 0); [discriminate | assumption]. }
  intros _.
  apply triple_bind_get_known with (Q := fun a => a = 0).
  { intros s H; apply H. }
  intros ac ->. apply triple_bind; [apply triple_get | intros c].
  apply triple_bind; [apply triple_ret | intros _].
  apply triple_bind_get_known with (Q := fun a => a = 0).
  { intros s _. apply Hroot. }
  intros u ->. apply triple_bind; [apply triple_ret | intros _].
  apply triple_bind; [apply triple_get | intros p].
  apply triple_bind; [apply triple_when, (triple_call_ext_ _ _ Hst); exact Logic.I | intros _].
  apply triple_bind_get_known with (Q := fun a => a = 0).
  { intros s H; apply H. }
  intros sc ->. apply triple_bind; [apply triple_ret | intros _].
  apply triple_bind; [apply (triple_sys_or_die _ _ Hst); exact Logic.I | intros _].
  apply triple_bind; [apply (triple_sys_or_die _ _ Hst); exact Logic.I | intros _].
  apply triple_bind_get_known with (Q := fun a => a = arg_noroot g).
  { intros s H; apply H. }
  intros nr ->. destruct (nz (arg_noroot g)) eqn:E.
  - apply triple_bind; [apply (triple_debugf _ _ Hst); exact Logic.I | intros _].
    apply triple_bind.
    { unfold join_namespace_or_exit.
      apply triple_bind.
      - apply (triple_call_ext _ _ Hst). cbn. intros _. unfold nz in E.
        destruct (Z.eqb_spec (arg_noroot g) 0); [discriminate | assumption].
      - intros rv. destruct (rv =? 0); [apply triple_ret | apply triple_exit]. }
    intros _.
    apply triple_bind_get_known with (Q := fun a => a = 0).
    { intros s H; apply H. }
    intros ac ->. apply triple_bind; [apply triple_get | intros c'].
    apply triple_ret.
  - apply triple_bind_get_known with (Q := fun a => a = arg_nogroups g).
    { intros s H; apply H. }
    intros ng ->. apply (triple_call_ext_ _ _ Hst). reflexivity.
Qed.

Lemma join_child_root g pid homedir :
  (forall k, k_getuid k = 0) ->
  triple (root_join_inv g) (root_join_event g) (join_child pid homedir).
Proof.
  intros Hroot. pose proof (join_apply_context_root g Hroot) as Hctx.
  triple_go (root_join_inv_stable g) ltac:(root_ev) ltac:(root_inv).
Qed.

Lemma join_enter_root g pid homedir :
  (forall k, k_getuid k = 0) ->
  triple (root_join_inv g) (root_join_event g) (join_enter pid homedir).
Proof.
  intros Hroot. pose proof (root_join_inv_stable g) as Hst.
  pose proof (join_child_root g pid homedir Hroot) as Hchild.
  unfold join_enter.
  apply triple_bind; [apply (triple_call_ext_ _ _ Hst); exact Logic.I | intros _].
  apply triple_bind.
  { apply triple_skip with (a := tt). intros s. now apply join_extract_root. }
  intros _.
  apply triple_bind_get_known with (Q := fun a => a = cfg_cgroup g).
  { intros s H; apply H. }
  intros cg ->. apply triple_bind.
  { destruct (cfg_cgroup g) as [c|] eqn:E; [| apply triple_ret].
    apply (triple_call_ext_ _ _ Hst). cbn. exact E. }
  intros _. apply triple_bind.
  { triple_go Hst ltac:(root_ev) ltac:(root_inv). }
  intros _. apply triple_bind.
  { intros s H. unfold fork. destruct (k_fork (kern s)) as [child k']. cbn. split.
    - exact H.
    - apply (grows_emit _ EvFork s). exact Logic.I. }
  intros child. triple_go Hst ltac:(root_ev) ltac:(root_inv).
Qed.

Lemma root_join_event_none g e :
  caller_requests_none g -> root_join_event g e -> applies_context e = false.
Proof.
  intros [H1 [H2 [H3 H4]]] H. destruct e as [c|c| | | | | |]; try reflexivity.
  destruct c; cbn in *; try reflexivity; try contradiction; try congruence.
  - destruct (String.eqb_spec ns "user"); [| reflexivity].
    exfalso. now apply H.
  - subst nogroups. now rewrite H4.
Qed.

(** C10.  When the user who joins is root, nothing is taken from the target:
    the extraction step returns at once, the variables it would fill in are
    at the end what they were at the start, and neither the parent nor the
    child loads the target's cpu or cgroup file, sets a capability mask,
    loads the protocol filter or installs the seccomp filter; cpu affinity,
    control group, user namespace and supplementary groups are applied only
    as the caller's own configuration has them.  When that configuration
    asks for none, no security context is loaded or applied at all. *)
Theorem join_as_root_takes_nothing :
  forall pid argv index (s : st),
    (forall k, k_getuid k = 0) ->
    apply_caps s = 0 -> apply_seccomp s = 0 ->
    (forall pid' s', join_extract pid' s' = Ret tt s')
    /\ root_join_inv (glob s) (final (join pid argv index s))
    /\ grows (root_join_event (glob s)) s (final (join pid argv index s))
    /\ (caller_requests_none (glob s) ->
        grows (fun e => applies_context e = false) s (final (join pid argv index s))).
Proof.
  intros pid argv index s Hroot Hc Hs.
  split; [intros; now apply join_extract_root |].
  cut (root_join_inv (glob s) (final (join pid argv index s))
       /\ grows (root_join_event (glob s)) s (final (join pid argv index s))).
  { intros [H1 H2]. split; [exact H1 | split; [exact H2 |]].
    intros Hn. eapply grows_weaken; [| exact H2].
    intros e. now apply root_join_event_none. }
  assert (T : triple (root_join_inv (glob s)) (root_join_event (glob s))
                     (join pid argv index)).
  { pose proof (root_join_inv_stable (glob s)) as Hst.
    unfold join.
    apply triple_bind; [apply triple_EUID_ASSERT | intros _].
    apply triple_bind; [apply triple_get | intros homedir].
    apply triple_bind.
    { triple_go Hst ltac:(root_ev) ltac:(root_inv). }
    intros pid'. apply triple_bind.
    { triple_go Hst ltac:(root_ev) ltac:(root_inv). }
    intros _. now apply join_enter_root. }
  apply T. unfold root_join_inv. tauto.
Qed.

End JoinProofs.

(** * Runs on the concrete system *)

Section Concrete.

Import Toy.

(** ** The concrete kernel behaves as the code expects *)

Lemma lookup_update_same {A} (l : list (string * A)) p f a :
  lookup l p = Some a -> lookup (update l p f) p = Some (f a).
Proof.
  induction l as [|[q b] l IH]; simpl; [discriminate |].
  destruct (String.eqb q p) eqn:E; simpl; rewrite E.
  - intros H. now inversion H.
  - exact IH.
Qed.

Lemma on_existing_lookup k p f k' :
  on_existing k p f = Some k' ->
  exists n, lookup (files k) p = Some n /\ lookup (files k') p = Some (f n).
Proof.
  unfold on_existing, exists_. destruct (lookup (files k) p) as [n|] eqn:E; [| discriminate].
  intros H. inversion H. exists n. split; [reflexivity |].
  now apply lookup_update_same.
Qed.

Lemma toy_chown_sets_owner : chown_sets_owner (W := world).
Proof.
  intros k p u g k' H. apply on_existing_lookup in H. destruct H as [n [_ H]].
  cbn. rewrite H. cbn. eauto.
Qed.

Lemma toy_chown_keeps_entries : chown_keeps_entries (W := world).
Proof.
  intros k p u g k' H. apply on_existing_lookup in H. destruct H as [n [H1 H2]].
  cbn. unfold readdir. now rewrite H1, H2.
Qed.

Lemma toy_tmpfs_is_empty : tmpfs_is_empty (W := world).
Proof.
  intros k p k' H. apply on_existing_lookup in H. destruct H as [n [_ H]].
  cbn. unfold readdir. now rewrite H.
Qed.


(** ** C9 *)

(** Blacklisting /nonexistent on the concrete system. *)
Lemma blacklist_absent_noop_witness :
  exists s2,
    disable_file BLACKLIST_FILE "/nonexistent" start = Ret tt s2
    /\ kern s2 = kern staged
    /\ grows quiet start s2.
Proof.
  apply (blacklist_absent_noop BLACKLIST_FILE "/nonexistent" start staged).
  - reflexivity.
  - vm_compute. reflexivity.
  - vm_compute. intro H. discriminate H.
Defined.

(** ** C6 *)

(** The claim fails on /bin, a symbolic link to the directory /usr/bin: the
    target resolves, exists and is a directory, and nothing is mounted. *)
Lemma symlinked_bin_not_denied :
  is_blacklist_op BLACKLIST_FILE = true
  /\ fs_build_firejail_dir (set_last_disable UNSUCCESSFUL start) = Ret tt staged
  /\ k_realpath (kern staged) "/bin" = inl "/usr/bin"
  /\ option_map (fun s => S_ISDIR (st_mode s)) (k_stat (kern staged) "/usr/bin") = Some true
  /\ filter is_mount (trace (final (disable_file BLACKLIST_FILE "/bin" start))) = []
  /\ disable_file BLACKLIST_FILE "/bin" start
     = Ret tt (emit (EvStderr "Warning: %s directory link was not blacklisted\n"
                              [FS "/bin"]) staged).
Proof.
  split; [| split; [| split; [| split; [| split]]]]; vm_compute; reflexivity.
Qed.

(** Blacklisting the regular file /home/user/.bashrc. *)
Lemma denial_donor_by_type_witness :
  exists s2,
    grows is_stdout staged s2 /\ kern s2 = kern staged /\
    disable_file BLACKLIST_FILE "/home/user/.bashrc" start =
    match sys_step (kern staged)
                   (donor_mount (donor_for (mkStat 33188 1000 1000)) "/home/user/.bashrc") with
    | Some k' =>
        Ret tt (emit (EvLogger2 (blacklist_tag BLACKLIST_FILE) "/home/user/.bashrc")
                  (set_last_disable SUCCESSFUL
                     (set_kern k'
                        (emit (EvSys (donor_mount (donor_for (mkStat 33188 1000 1000))
                                                  "/home/user/.bashrc")) s2))))
    | None =>
        Exit 1 (emit (EvPerror "disable file")
                  (emit (EvSys (donor_mount (donor_for (mkStat 33188 1000 1000))
                                            "/home/user/.bashrc")) s2))
    end.
Proof.
  refine (proj2 (denial_donor_by_type BLACKLIST_FILE "/home/user/.bashrc" start staged
                   "/home/user/.bashrc" (mkStat 33188 1000 1000) _ _ _ _) _);
    vm_compute; reflexivity.
Defined.

(** ** C7 *)

(** A tmpfs over /home/user/notes, a directory of user 1000 with two entries. *)
Lemma tmpfs_directive_witness :
  exists k2 s2 stt',
    disable_file MOUNT_TMPFS "/home/user/notes" start = Ret tt s2
    /\ kern s2 = k2
    /\ k_stat k2 "/home/user/notes" = Some stt'
    /\ st_uid stt' = 1000 /\ st_gid stt' = 1000
    /\ k_readdir k2 "/home/user/notes" = Some []
    /\ exists prints,
         Forall is_stdout prints
         /\ trace s2 = (trace staged ++ prints ++
                        [EvSys (tmpfs_mount "/home/user/notes");
                         EvSys (SysChown "/home/user/notes" 1000 1000);
                         EvLogger2 "tmpfs" "/home/user/notes"])%list.
Proof.
  eexists.
  refine (proj1 (tmpfs_directive "/home/user/notes" start staged "/home/user/notes"
                   (mkStat (Z.lor S_IFDIR o0755) 1000 1000)
                   toy_chown_sets_owner toy_chown_keeps_entries toy_tmpfs_is_empty
                   _ _ _) _ _ _ _ _);
    vm_compute; reflexivity.
Defined.

(** ** C1 *)


(** The scenario of the specification: [noblacklist /home/user/.ssh], then
    [blacklist /home/user/.*].  The pattern expands to ., .., .ssh and
    .bashrc; only .bashrc is denied. *)
Example noblacklist_scenario :
  k_glob (kern start) "/home/user/.*"
  = Some ["/home/user/."; "/home/user/.."; "/home/user/.ssh"; "/home/user/.bashrc"]
  /\ filter is_mount
            (trace (final (fs_blacklist
                             (with_profile ["noblacklist /home/user/.ssh";
                                            "blacklist /home/user/.*"]))))
     = [EvSys (donor_mount RUN_RO_FILE "/home/user/.bashrc")].
Proof. split; vm_compute; reflexivity. Qed.

(** Without the exception both dotfiles are denied. *)
Example blacklist_dotfiles :
  filter is_mount
         (trace (final (fs_blacklist (with_profile ["blacklist /home/user/.*"]))))
  = [EvSys (donor_mount RUN_RO_DIR "/home/user/.ssh");
     EvSys (donor_mount RUN_RO_FILE "/home/user/.bashrc")].
Proof. vm_compute. reflexivity. Qed.

(** A denial applied before the exception is listed stays. *)
Example noblacklist_not_retroactive :
  filter is_mount
         (trace (final (fs_blacklist
                          (with_profile ["blacklist /home/user/.ssh";
                                         "noblacklist /home/user/.ssh";
                                         "blacklist /home/user/.ssh"]))))
  = [EvSys (donor_mount RUN_RO_DIR "/home/user/.ssh")].
Proof. vm_compute. reflexivity. Qed.

(** ** C2 *)

(** The claim fails on a profile whose first line is no directive: the run
    is not ended, it returns after applying the next directive. *)
Lemma unrecognized_directive_not_fatal :
  unrecognized "bogus line" = true
  /\ exists s',
      fs_blacklist (with_profile ["bogus line"; "blacklist /home/user/.bashrc"])
      = Ret tt s'
      /\ trace s'
         = (EvStderr "Error: invalid profile line %s\n" [FS "bogus line"]
              :: trace staged
              ++ [EvSys (donor_mount RUN_RO_FILE "/home/user/.bashrc");
                  EvLogger2 "blacklist" "/home/user/.bashrc"])%list.
Proof.
  split; [vm_compute; reflexivity |]. eexists. split; vm_compute; reflexivity.
Qed.

Lemma unrecognized_directive_skipped_witness :
  fs_blacklist_entry "/home/user" "bogus line" [] start
  = Ret [] (emit (EvStderr "Error: invalid profile line %s\n" [FS "bogus line"]) start)
  /\ fs_blacklist_entries "/home/user" ["bogus line"; "blacklist /home/user/.bashrc"] [] start
     = fs_blacklist_entries "/home/user" ["blacklist /home/user/.bashrc"] []
         (emit (EvStderr "Error: invalid profile line %s\n" [FS "bogus line"]) start).
Proof.
  apply (unrecognized_directive_skipped "/home/user" "bogus line"
           ["blacklist /home/user/.bashrc"] [] start).
  reflexivity.
Defined.

(** ** C3 *)



(** ** C4 *)

(** The claim fails when the child ends with status 7: the parent exits
    with status 0. *)
Lemma join_parent_ignores_child_status :
  exists s',
    join_forked 55 None 4242 start = Exit 0 s'
    /\ k_child_status (kern s') 4242 = 7
    /\ trace s' = [EvSys (SysSignal SIGTERM); EvSys (SysWaitpid 4242); EvCall CCtflush].
Proof. eexists. split; [| split]; vm_compute; reflexivity. Qed.

Lemma join_parent_exit_witness :
  join_forked 55 None 4242 start
  = flush_and_exit 0 (after_sys (SysWaitpid 4242) (after_sys (SysSignal SIGTERM) start)).
Proof.
  apply (join_parent_exit 55 None 4242 start). reflexivity.
Defined.

(** ** C5 *)

(** The claim fails on the overlay path: the run returns, and after its
    chroot nothing is mounted on the staging area; the flag is set, so the
    next staging bootstrap does not mount either. *)
Lemma overlay_chroot_keeps_flag :
  exists s' post,
    fs_overlayfs start = Ret tt s'
    /\ events_after_chroot (trace s') = Some post
    /\ existsb is_staging_mount post = false
    /\ tmpfs_mounted s' = 1
    /\ exists s'',
        fs_build_mnt_dir s' = Ret tt s''
        /\ trace s'' = trace s'.
Proof.
  eexists. eexists. split; [| split; [| split; [| split]]]; try (vm_compute; reflexivity).
  eexists. split; vm_compute; reflexivity.
Qed.

(** A chroot into /srv/data with the flag set on entry, and an overlay. *)
Lemma staging_flag_after_chroot_witness :
  (flag_set (final (fs_chroot "/srv/data" (set_tmpfs_mounted 1 start)))
   /\ exists pre mid post,
       trace (final (fs_chroot "/srv/data" (set_tmpfs_mounted 1 start)))
       = (trace (set_tmpfs_mounted 1 start) ++ pre ++ EvSys (SysChroot "/srv/data")
            :: mid ++ EvSys staging_mount :: post)%list)
  /\ (flag_set (final (fs_overlayfs start))
      /\ (exists pre mid post,
             trace (final (fs_overlayfs start))
             = (trace start ++ pre
                  ++ EvSys (SysMount (Some "/run") ((RUN_MNT_DIR ++ "/oroot") ++ "/run") None
                                     (Z.lor MS_BIND MS_REC) None)
                  :: mid ++ EvSys (SysChroot (RUN_MNT_DIR ++ "/oroot")) :: post)%list
             /\ Forall no_staging_mount post)
      /\ grows no_staging_mount (final (fs_overlayfs start))
               (final (fs_build_mnt_dir (final (fs_overlayfs start))))).
Proof.
  split.
  - apply (proj1 staging_flag_after_chroot "/srv/data" (set_tmpfs_mounted 1 start)).
    vm_compute. reflexivity.
  - apply (proj2 staging_flag_after_chroot start). vm_compute. reflexivity.
Defined.

(** ** C8 *)

Lemma overlay_driver_by_kernel_witness :
  overlay_kernel_check (state0 1000 "3.18.0")
  = Ret false (debugged "Linux kernel version %d.%d\n" [FD 3; FD 18] (state0 1000 "3.18.0"))
  /\ (exists basedir pre post,
         trace (final (fs_overlayfs (state0 1000 "3.18.0")))
         = (trace (state0 1000 "3.18.0") ++ pre
              ++ EvSys (SysMount (Some "overlay") (RUN_MNT_DIR ++ "/oroot")
                                 (Some "overlay") MS_MGC_VAL
                                 (Some ("lowerdir=/,upperdir=" ++ (basedir ++ "/odiff")
                                        ++ ",workdir=" ++ (basedir ++ "/owork"))%string))
              :: post)%list)
  /\ overlay_kernel_check (state0 1000 "3.10.0")
     = Ret true (debugged "Linux kernel version %d.%d\n" [FD 3; FD 10] (state0 1000 "3.10.0"))
  /\ (exists basedir pre post,
         trace (final (fs_overlayfs (state0 1000 "3.10.0")))
         = (trace (state0 1000 "3.10.0") ++ pre
              ++ EvSys (SysMount (Some "overlayfs") (RUN_MNT_DIR ++ "/oroot")
                                 (Some "overlayfs") MS_MGC_VAL
                                 (Some ("lowerdir=/,upperdir=" ++ (basedir ++ "/odiff"))%string))
              :: post)%list)
  /\ (forall a s', fs_overlayfs (with_keep "3.10.0") <> Ret a s')
  /\ fs_overlayfs (state0 1000 "2.6.32")
     = Exit 1 (emit (EvStderr "Error: minimum kernel version required 3.x\n" [])
                    (debugged "Linux kernel version %d.%d\n" [FD 2; FD 6]
                              (state0 1000 "2.6.32"))).
Proof.
  split; [| split; [| split; [| split; [| split]]]].
  - refine (proj1 (proj1 (overlay_driver_by_kernel (state0 1000 "3.18.0")
                            (mkUts "3.18.0" "#1 SMP") _) _)); reflexivity.
  - refine (proj1 (proj2 (proj1 (overlay_driver_by_kernel (state0 1000 "3.18.0")
                                   (mkUts "3.18.0" "#1 SMP") _) _)) _ _);
      vm_compute; reflexivity.
  - refine (proj1 (proj1 (proj2 (overlay_driver_by_kernel (state0 1000 "3.10.0")
                                   (mkUts "3.10.0" "#1 SMP") _)) _)); reflexivity.
  - refine (proj1 (proj2 (proj1 (proj2 (overlay_driver_by_kernel (state0 1000 "3.10.0")
                                          (mkUts "3.10.0" "#1 SMP") _)) _)) _ _);
      vm_compute; reflexivity.
  - refine (proj1 (proj2 (proj2 (proj2 (proj1 (proj2 (overlay_driver_by_kernel
                                   (with_keep "3.10.0")
                                   (mkUts "3.10.0" "#1 SMP") _)) _))) _)); reflexivity.
  - refine (proj2 (proj2 (overlay_driver_by_kernel (state0 1000 "2.6.32")
                            (mkUts "2.6.32" "#1 SMP") _)) 2 6 _ _); reflexivity.
Defined.

Example sscanf_release_3_18 : sscanf_d_dot_d "3.18.0" = Some (3, 18).
Proof. reflexivity. Qed.

Example sscanf_release_3_10 : sscanf_d_dot_d "3.10.0" = Some (3, 10).
Proof. reflexivity. Qed.

(** On 3.18.0 the overlay is mounted with a workdir. *)
Example overlay_modern_run :
  filter is_overlay_mount (trace (final (fs_overlayfs (state0 1000 "3.18.0"))))
  = [EvSys (SysMount (Some "overlay") "/run/firejail/mnt/oroot" (Some "overlay") MS_MGC_VAL
                     (Some "lowerdir=/,upperdir=/run/firejail/mnt/odiff,workdir=/run/firejail/mnt/owork"));
     EvSys (SysMount (Some "overlay") "/run/firejail/mnt/oroot/home" (Some "overlay") MS_MGC_VAL
                     (Some "lowerdir=/home,upperdir=/run/firejail/mnt/hdiff,workdir=/run/firejail/mnt/hwork"))].
Proof. vm_compute. reflexivity. Qed.

(** On 3.10.0 it is mounted by the legacy driver, without one. *)
Example overlay_legacy_run :
  filter is_overlay_mount (trace (final (fs_overlayfs (state0 1000 "3.10.0"))))
  = [EvSys (SysMount (Some "overlayfs") "/run/firejail/mnt/oroot" (Some "overlayfs") MS_MGC_VAL
                     (Some "lowerdir=/,upperdir=/run/firejail/mnt/odiff"))].
Proof. vm_compute. reflexivity. Qed.

(** On 3.10.0 with the keep mode the run ends with status 1 and no overlay. *)
Example overlay_legacy_keep_run :
  exists s',
    fs_overlayfs (with_keep "3.10.0") = Exit 1 s'
    /\ filter is_overlay_mount (trace s') = []
    /\ last (trace s') EvFork
       = EvStderr "Error: option --overlay= not available for kernels older than 3.18\n" [].
Proof. eexists. split; [| split]; vm_compute; reflexivity. Qed.

(** ** C10 *)

(** Root joins sandbox 55: neither side applies anything. *)
Lemma join_as_root_takes_nothing_witness :
  (forall pid' s', join_extract (W := root_world) pid' s' = Ret tt s')
  /\ root_join_inv (glob (state0 0 "4.4.0"))
                   (final (join (W := root_world) 55 join_argv 2 (state0 0 "4.4.0")))
  /\ grows (root_join_event (glob (state0 0 "4.4.0"))) (state0 0 "4.4.0")
           (final (join (W := root_world) 55 join_argv 2 (state0 0 "4.4.0")))
  /\ (caller_requests_none (glob (state0 0 "4.4.0")) ->
      grows (fun e => applies_context e = false) (state0 0 "4.4.0")
            (final (join (W := root_world) 55 join_argv 2 (state0 0 "4.4.0")))).
Proof.
  apply (join_as_root_takes_nothing (W := root_world) 55 join_argv 2 (state0 0 "4.4.0")).
  - intros k. reflexivity.
  - reflexivity.
  - reflexivity.
Defined.

(** A join by root, on the concrete system, in the process where fork
    returns 0: the child drops privileges and starts the command. *)
Example join_as_root_child_run :
  trace (final (join (W := root_world) 55 join_argv 2 forked_child))
  = [EvCall (CBuildCmdline join_argv 2);
     EvCall CEuidRoot; EvCall CEuidUser; EvCall CEuidRoot;
     EvCall (CJoinNamespace 55 "ipc"); EvCall (CJoinNamespace 55 "net");
     EvCall (CJoinNamespace 55 "pid"); EvCall (CJoinNamespace 55 "uts");
     EvCall (CJoinNamespace 55 "mnt"); EvFork;
     EvSys (SysChroot "/proc/55/root");
     EvStdout "changing root to %s\n" [FS "/proc/55/root"];
     EvSys (SysPrctl PR_SET_PDEATHSIG SIGKILL);
     EvSys (SysChdir "/"); EvSys (SysChdir "/home/user");
     EvSys (SysSetenv "QT_X11_NO_MITSHM" "1" 1);
     EvSys (SysSetenv "container" "firejail" 1);
     EvCall (CDropPrivs 0);
     EvSys (SysChdir "/"); EvSys (SysChdir "/home/user");
     EvCall CStartApplication;
     EvSys (SysSignal SIGTERM); EvSys (SysWaitpid 0); EvCall CCtflush].
Proof. vm_compute. reflexivity. Qed.

End Concrete.

From Stdlib Require DecimalPos.

(** ** Side conditions of [triple_go] *)

Ltac ev_true := exact Logic.I.
Ltac ev_quiet := split; reflexivity.
Ltac ev_refl := reflexivity.
Ltac inv_keep := idtac; intros ? ?; cbn; assumption.

(** * Further properties of the filesystem policy engine *)

Section FsRest.

Context {K : Type} {W : World K} {X : WorldExt K}.

Abbreviation st := (state K).
Abbreviation Run := (M (state K)).

(** ** Reasoning about runs, continued *)

(** A run that ends in its first part. *)
Lemma triple_bind_noret {A B} (I : st -> Prop) (P : event -> Prop)
      (m : Run A) (f : A -> Run B) :
  triple I P m -> noret I m -> triple I P (bind m f).
Proof.
  intros Hm Hn s Hs. specialize (Hm s Hs). specialize (Hn s Hs). unfold bind.
  destruct (m s) as [a s1|c s1|s1]; cbn in *; auto.
  exfalso. now apply (Hn a s1).
Qed.

Lemma sys_run c (s : st) : sys c s = Ret (succeeds c s) (after_sys c s).
Proof. unfold sys, succeeds, after_sys. now destruct (sys_step (kern s) c). Qed.

Lemma bind_sys {B} c (f : bool -> Run B) (s : st) :
  bind (sys c) f s = f (succeeds c s) (after_sys c s).
Proof. apply bind_Ret, sys_run. Qed.


(** ** The staging directory *)

(** X1.  A staging directory that exists and does not belong to root stops every
    entry point of the engine at once: the run ends with status 1 after the
    error message, before any system call. *)
Theorem nonroot_staging_dir_refused :
  forall (s : st) sb sd,
    k_stat (kern s) RUN_FIREJAIL_BASEDIR = Some sb ->
    k_stat (kern s) RUN_FIREJAIL_DIR = Some sd ->
    st_uid sd <> 0 \/ st_gid sd <> 0 ->
    fs_build_firejail_dir s = Exit 1 (emit nonroot_refusal s)
    /\ fs_build_mnt_dir s = Exit 1 (emit nonroot_refusal s)
    /\ fs_build_cp_command s = Exit 1 (emit nonroot_refusal s)
    /\ (forall op filename,
           op <> OPERATION_MAX ->
           disable_file op filename s
           = Exit 1 (emit nonroot_refusal (set_last_disable UNSUCCESSFUL s))).
Proof.
  intros s sb sd Hb Hd Ho.
  assert (Hc : negb (st_uid sd =? 0) || negb (st_gid sd =? 0) = true).
  { destruct Ho as [Ho|Ho]; [apply orb_true_intro; left | apply orb_true_intro; right];
      apply negb_true_iff; now apply Z.eqb_neq. }
  assert (E : forall v, fs_build_firejail_dir (set_last_disable v s)
                        = Exit 1 (emit nonroot_refusal (set_last_disable v s))).
  { intros v. unfold fs_build_firejail_dir, ensure_dir. run. rewrite Hb. run.
    rewrite Hd, Hc. reflexivity. }
  assert (E0 : fs_build_firejail_dir s = Exit 1 (emit nonroot_refusal s)).
  { unfold fs_build_firejail_dir, ensure_dir. run. rewrite Hb. run.
    rewrite Hd, Hc. reflexivity. }
  assert (E1 : fs_build_mnt_dir s = Exit 1 (emit nonroot_refusal s)).
  { unfold fs_build_mnt_dir. now rewrite (bind_Exit _ _ _ _ _ E0). }
  split; [exact E0 | split; [exact E1 | split]].
  - unfold fs_build_cp_command. now rewrite (bind_Exit _ _ _ _ _ E1).
  - intros op filename Hop. unfold disable_file.
    destruct op; try congruence; run; now rewrite (bind_Exit _ _ _ _ _ (E UNSUCCESSFUL)).
Qed.

Lemma fs_build_firejail_dir_flag_quiet v :
  triple (fun s : st => tmpfs_mounted s = v) quiet fs_build_firejail_dir.
Proof. triple_go (@flag_stable K v) ltac:(ev_quiet) ltac:(inv_keep). Qed.

Lemma fs_build_mnt_dir_set_quiet :
  triple (flag_set : st -> Prop) quiet fs_build_mnt_dir.
Proof.
  unfold fs_build_mnt_dir.
  apply triple_bind; [apply flag_set_of_flag, fs_build_firejail_dir_flag_quiet | intros _].
  apply triple_bind.
  { apply flag_set_of_flag. intros v.
    triple_go (@flag_stable K v) ltac:(ev_quiet) ltac:(inv_keep). }
  intros _. apply triple_bind_get_known with (Q := fun a => nz a = true).
  { intros s H. exact H. }
  intros m Hm. rewrite Hm. apply triple_ret.
Qed.

(** X2.  The tmpfs of the staging area is mounted once: a staging bootstrap that
    returns leaves the flag set, and a bootstrap that starts with the flag set
    mounts nothing, logs nothing and leaves the flag set. *)
Theorem staging_tmpfs_mounted_once :
  forall (s s1 : st),
    fs_build_mnt_dir s = Ret tt s1 ->
    flag_set s1
    /\ flag_set (final (fs_build_mnt_dir s1))
    /\ grows quiet s1 (final (fs_build_mnt_dir s1)).
Proof.
  intros s s1 H. pose proof (fs_build_mnt_dir_flag_set _ _ H) as F.
  split; [exact F |]. exact (fs_build_mnt_dir_set_quiet s1 F).
Qed.


(** ** Globbing and the exception list *)

Lemma for_each_skips_dot op nb paths (s : st) :
  for_each (globbing_path op nb) paths s
  = for_each (globbing_path op nb) (filter (fun p => negb (dot_entry p)) paths) s.
Proof.
  revert s. induction paths as [|p l IH]; intros s; [reflexivity |].
  cbn [filter for_each]. destruct (dot_entry p) eqn:E; cbn [negb for_each].
  - rewrite <- IH. unfold bind at 1, globbing_path. unfold dot_entry in E.
    now rewrite E.
  - unfold bind. destruct (globbing_path op nb p s); auto.
Qed.

(** X3.  Expansions whose last component is [.] or [..] are never touched: a
    glob acts as if they were not among its expansions, and does nothing at
    all when there are no others. *)
Theorem globbing_ignores_dot_entries :
  forall op pattern nb paths (s : st),
    k_glob (kern s) pattern = Some paths ->
    globbing op pattern nb s
    = for_each (globbing_path op nb) (filter (fun p => negb (dot_entry p)) paths) s
    /\ (Forall (fun p => dot_entry p = true) paths ->
        globbing op pattern nb s = Ret tt s).
Proof.
  intros op pattern nb paths s Hg.
  assert (E : globbing op pattern nb s = for_each (globbing_path op nb) paths s).
  { unfold globbing. run. now rewrite Hg. }
  split.
  - rewrite E. apply for_each_skips_dot.
  - intros Hd. rewrite E, for_each_skips_dot.
    replace (filter (fun p => negb (dot_entry p)) paths) with (@nil string);
      [reflexivity |].
    clear -Hd. induction Hd as [|p l Hp _ IH]; [reflexivity |].
    cbn. now rewrite Hp.
Qed.

(** X4.  The exception list decides by its first pattern that is not a plain
    mismatch: a path may be denied exactly when every pattern mismatches it,
    it is spared only by a pattern that matches it, and a longer list never
    allows a denial that a shorter one forbids. *)
Theorem exception_list_decides :
  forall nb path,
    (okay_to_blacklist nb path = inl true
     <-> Forall (fun p => k_fnmatch p path = FNM_NOMATCH) nb)
    /\ (okay_to_blacklist nb path = inl false ->
        exists p, In p nb /\ k_fnmatch p path = FNM_MATCH)
    /\ (forall extra,
           okay_to_blacklist (nb ++ extra) path = inl true ->
           okay_to_blacklist nb path = inl true).
Proof.
  intros nb path. induction nb as [|p nb [IH1 [IH2 IH3]]].
  - cbn. repeat split; auto; discriminate.
  - cbn [okay_to_blacklist app]. destruct (k_fnmatch p path) eqn:E.
    + repeat split; try discriminate.
      * intros H. inversion H; congruence.
      * intros _. exists p. split; [now left | exact E].
    + split; [split |split].
      * intros H. constructor; [exact E | now apply IH1].
      * intros H. inversion H; subst. now apply IH1.
      * intros H. destruct (IH2 H) as [q [Hq Hm]]. exists q. split; [now right | exact Hm].
      * exact IH3.
    + repeat split; try discriminate.
      intros H. inversion H; congruence.
Qed.

(** ** The profile interpreter *)

Lemma fs_blacklist_entry_keeps homedir data nb (s : st) nb' s' :
  strncmp0 data "noblacklist " 12 = false ->
  fs_blacklist_entry homedir data nb s = Ret nb' s' -> nb' = nb.
Proof.
  intros Hn. unfold fs_blacklist_entry.
  destruct (ignored_directive data).
  { intros H. now inversion H. }
  destruct (strncmp0 data "bind " 5).
  { intros H. apply bind_Ret_inv in H. destruct H as [a [s1 [_ H]]]. now inversion H. }
  rewrite Hn.
  destruct (directive_op data) as [[op ptr]|].
  - intros H. apply bind_Ret_inv in H. destruct H as [a [s1 [_ H]]]. now inversion H.
  - run. intros H. now inversion H.
Qed.

(** X5.  The exception list only grows during a pass over the profile, and only
    [noblacklist] directives make it grow. *)
Theorem exception_list_only_grows :
  forall homedir entries nb (s : st) nb' s',
    fs_blacklist_entries homedir entries nb s = Ret nb' s' ->
    (exists extra, nb' = (nb ++ extra)%list)
    /\ (Forall (fun d => strncmp0 d "noblacklist " 12 = false) entries -> nb' = nb).
Proof.
  intros homedir entries nb s nb' s' H. split.
  - exact (fs_blacklist_entries_extends _ _ _ _ _ _ H).
  - intros Hf. revert nb s H. induction Hf as [|d l Hd _ IH]; intros nb s H; cbn in H.
    + now inversion H.
    + apply bind_Ret_inv in H. destruct H as [nb1 [s1 [H1 H2]]].
      apply (fs_blacklist_entry_keeps _ _ _ _ _ _ Hd) in H1. subst nb1.
      exact (IH _ _ H2).
Qed.

(** X6.  A profile of lines that are left to other parts of the program
    ([whitelist], the [args-] forms, empty lines) changes nothing; a line that
    begins with [args-noexec] is one of them even without the space that ends
    the keyword. *)
Theorem ignored_directives_change_nothing :
  forall homedir entries nb (s : st),
    Forall (fun d => ignored_directive d = true) entries ->
    fs_blacklist_entries homedir entries nb s = Ret nb s
    /\ forall rest, ignored_directive ("args-noexec" ++ rest) = true.
Proof.
  intros homedir entries nb s Hf. split.
  - induction Hf as [|d l Hd _ IH]; [reflexivity |].
    cbn [fs_blacklist_entries]. unfold fs_blacklist_entry at 1. rewrite Hd. exact IH.
  - intros rest. reflexivity.
Qed.

(** X7.  A [bind] directive with a missing endpoint (no second directory, or a
    directory that fails stat) is reported on stderr and skipped: nothing is
    mounted and the pass goes on. *)
Theorem bind_missing_endpoint_skipped :
  forall homedir arg nb (s : st),
    match split_comma arg with
    | (_, None) => True
    | (dname1, Some dname2) =>
        k_stat (kern s) dname1 = None \/ k_stat (kern s) dname2 = None
    end ->
    exists msg args,
      fs_blacklist_entry homedir ("bind " ++ arg) nb s
      = Ret nb (emit (EvStderr msg args) s).
Proof.
  intros homedir arg nb s H.
  change (fs_blacklist_entry homedir ("bind " ++ arg) nb s)
    with (bind (fs_blacklist_bind arg) (fun _ => ret nb) s).
  unfold fs_blacklist_bind. destruct (split_comma arg) as [d1 [d2|]].
  - run. destruct (k_stat (kern s) d1) eqn:E1.
    + destruct H as [H|H]; [discriminate |]. run. rewrite H. run. eauto.
    + run. eauto.
  - run. eauto.
Qed.



(** ** One profile target *)

Lemma last_disable_stable v : @stable K (fun s => last_disable s = v).
Proof. split; intros ? s H; exact H. Qed.

Lemma fs_build_firejail_dir_last_disable v :
  triple (fun s : st => last_disable s = v) any_event fs_build_firejail_dir.
Proof. triple_go (last_disable_stable v) ltac:(ev_true) ltac:(inv_keep). Qed.

(** X9.  The read-only, read-write and noexec operations never report success
    through [last_disable]: on a target that realpath can resolve, the
    variable is [UNSUCCESSFUL] when [disable_file] ends, whether or not the
    remount was made. *)
Theorem remount_leaves_last_disable_unsuccessful :
  forall op filename (s : st),
    is_remount_op op = true ->
    (forall k, k_realpath k filename <> inr EACCES) ->
    last_disable (final (disable_file op filename s)) = UNSUCCESSFUL.
Proof.
  intros op filename s Hop Hr.
  pose proof (last_disable_stable UNSUCCESSFUL) as Hst.
  pose proof (fs_build_firejail_dir_last_disable UNSUCCESSFUL) as Hb.
  assert (T : triple (fun x : st => last_disable x = UNSUCCESSFUL) any_event
                     (disable_file op filename)).
  { unfold disable_file.
    apply triple_bind; [apply triple_assert | intros _].
    apply triple_bind; [apply triple_modify; [reflexivity | reflexivity] | intros _].
    apply triple_bind; [exact Hb | intros _].
    apply triple_bind_get_known with (Q := fun r => r <> inr EACCES).
    { intros x _. apply Hr. }
    intros [fname|errno] Hne.
    - destruct op; try discriminate Hop;
        triple_go Hst ltac:(ev_true) ltac:(inv_keep).
    - destruct (Z.eqb_spec errno EACCES) as [->|]; [congruence |].
      cbn. apply triple_ret. }
  unfold disable_file in *. revert T. unfold triple.
  destruct op; try discriminate Hop; run; intros T;
    exact (proj1 (T (set_last_disable UNSUCCESSFUL s) eq_refl)).
Qed.

(** X10.  A target that realpath cannot resolve for lack of permission is denied
    by force, whatever the operation of the directive: the directory donor is
    mounted over the name as given, then the file donor if that fails.  If one
    of them succeeds the denial is logged under that name; if both fail the
    target is skipped and the run goes on. *)
Theorem unreadable_target_denied_by_force :
  forall op filename (s s1 : st),
    op <> OPERATION_MAX ->
    fs_build_firejail_dir (set_last_disable UNSUCCESSFUL s) = Ret tt s1 ->
    k_realpath (kern s1) filename = inr EACCES ->
    let dir_donor := donor_mount RUN_RO_DIR filename in
    let file_donor := donor_mount RUN_RO_FILE filename in
    exists s2 p1 p2,
      disable_file op filename s = Ret tt s2
      /\ Forall is_stdout p1 /\ Forall is_stdout p2
      /\ match sys_step (kern s1) dir_donor, sys_step (kern s1) file_donor with
         | Some k', _ =>
             kern s2 = k' /\ last_disable s2 = SUCCESSFUL
             /\ trace s2 = (trace s1 ++ p1 ++ [EvSys dir_donor] ++ p2
                            ++ [EvLogger2 (blacklist_tag op) filename])%list
         | None, Some k' =>
             kern s2 = k' /\ last_disable s2 = SUCCESSFUL
             /\ trace s2 = (trace s1 ++ p1 ++ [EvSys dir_donor; EvSys file_donor] ++ p2
                            ++ [EvLogger2 (blacklist_tag op) filename])%list
         | None, None =>
             kern s2 = kern s1 /\ last_disable s2 = UNSUCCESSFUL
             /\ trace s2 = (trace s1 ++ p1 ++ [EvSys dir_donor; EvSys file_donor] ++ p2)%list
         end.
Proof.
  intros op filename s s1 Hop Hb Hr dir_donor file_donor.
  assert (L1 : last_disable s1 = UNSUCCESSFUL).
  { pose proof (fs_build_firejail_dir_last_disable
                  UNSUCCESSFUL (set_last_disable UNSUCCESSFUL s) eq_refl) as T.
    rewrite Hb in T. exact (proj1 T). }
  assert (E : disable_file op filename s = disable_file_forced op filename s1).
  { unfold disable_file.
    destruct op; try congruence; run; rewrite (bind_Ret _ _ _ _ _ Hb); run;
      rewrite Hr; reflexivity. }
  rewrite E. unfold disable_file_forced. rewrite bind_debugf. cbn beta.
  set (s0 := debugged _ _ s1).
  assert (K0 : kern s0 = kern s1) by apply kern_debugged.
  assert (L0 : last_disable s0 = UNSUCCESSFUL).
  { subst s0. unfold debugged. now destruct (nz (arg_debug (glob s1))). }
  assert (G0 : glob s0 = glob s1) by apply glob_debugged.
  assert (T0 : exists p1, Forall is_stdout p1 /\ trace s0 = (trace s1 ++ p1)%list).
  { destruct (grows_debugged "Debug: no access to file %s, forcing mount\n"
                             [FS filename] s1) as [p [Hp Fp]]. now exists p. }
  destruct T0 as [p1 [F1 T0]].
  rewrite <- K0.
  destruct (sys_step (kern s0) dir_donor) as [k1|] eqn:E1.
  - exists (emit (EvLogger2 (blacklist_tag op) filename)
              (debugged "Disable %s\n" [FS filename]
                 (set_last_disable SUCCESSFUL (set_kern k1 (emit (EvSys dir_donor) s0))))).
    exists p1.
    exists (if nz (arg_debug (glob s1)) then [EvStdout "Disable %s\n" [FS filename]] else []).
    split; [| split; [exact F1 | split; [| split; [| split]]]].
    + sys_with E1. rewrite bind_debugf. cbn beta.
      unfold log_blacklist, blacklist_tag. destruct op; try congruence; reflexivity.
    + destruct (nz (arg_debug (glob s1))); repeat constructor.
    + cbn. apply kern_debugged.
    + cbn. unfold debugged. cbn. now destruct (nz (arg_debug (glob s0))).
    + cbn. unfold debugged at 1. cbn. rewrite G0.
      destruct (nz (arg_debug (glob s1))); cbn; rewrite T0;
        repeat rewrite <- app_assoc; reflexivity.
  - destruct (sys_step (kern s0) file_donor) as [k2|] eqn:E2.
    + exists (emit (EvLogger2 (blacklist_tag op) filename)
                (debugged "Disable %s\n" [FS filename]
                   (set_last_disable SUCCESSFUL
                      (set_kern k2 (emit (EvSys file_donor) (emit (EvSys dir_donor) s0)))))).
      exists p1.
      exists (if nz (arg_debug (glob s1)) then [EvStdout "Disable %s\n" [FS filename]] else []).
      split; [| split; [exact F1 | split; [| split; [| split]]]].
      * sys_with E1. sys_with E2. rewrite bind_debugf. cbn beta.
        unfold log_blacklist, blacklist_tag. destruct op; try congruence; reflexivity.
      * destruct (nz (arg_debug (glob s1))); repeat constructor.
      * cbn. apply kern_debugged.
      * cbn. unfold debugged. cbn. now destruct (nz (arg_debug (glob s0))).
      * cbn. unfold debugged at 1. cbn. rewrite G0.
        destruct (nz (arg_debug (glob s1))); cbn; rewrite T0;
          repeat rewrite <- app_assoc; reflexivity.
    + exists (debugged "Warning (blacklisting): %s is an invalid file, skipping...\n"
                       [FS filename] (emit (EvSys file_donor) (emit (EvSys dir_donor) s0))).
      exists p1.
      exists (if nz (arg_debug (glob s1))
              then [EvStdout "Warning (blacklisting): %s is an invalid file, skipping...\n"
                             [FS filename]]
              else []).
      split; [| split; [exact F1 | split; [| split; [| split]]]].
      * sys_with E1. sys_with E2. rewrite L0. apply debugf_run.
      * destruct (nz (arg_debug (glob s1))); repeat constructor.
      * rewrite kern_debugged. reflexivity.
      * unfold debugged. cbn. now destruct (nz (arg_debug (glob s0))).
      * unfold debugged at 1. cbn. rewrite G0.
        destruct (nz (arg_debug (glob s1))); cbn; rewrite T0;
          repeat rewrite <- app_assoc; reflexivity.
Qed.

(** ** Mount primitives *)

(** X11.  The read-only remount that does not give up always returns to its
    caller.  On a path that exists it attempts both mounts, the second
    whatever became of the first, and then either logs the remount, when both
    succeeded, or prints a warning. *)
Theorem fs_rdonly_noexit_always_returns :
  forall dir (s : st),
    let s1 := after_sys (rdonly_bind dir) s in
    let s2 := after_sys (rdonly_remount dir) s1 in
    fs_rdonly_noexit dir s
    = Ret tt
        match k_stat (kern s) dir with
        | None => s
        | Some _ =>
            emit (if succeeds (rdonly_bind dir) s && succeeds (rdonly_remount dir) s1
                  then EvLogger2 "read-only" dir
                  else EvStderr "Warning: cannot mount %s read-only\n" [FS dir]) s2
        end.
Proof.
  intros dir s s1 s2. unfold fs_rdonly_noexit. run.
  destruct (k_stat (kern s) dir); [| reflexivity].
  rewrite bind_sys. cbn beta. rewrite bind_sys. cbn beta. fold s1. fold s2.
  destruct (succeeds (rdonly_bind dir) s), (succeeds (rdonly_remount dir) s1); reflexivity.
Qed.


(** ** The basic filesystem *)

Ltac ev_remount := cbn; rewrite ?andb_false_r; reflexivity.

(** X12.  Started by root, the basic filesystem denies nothing and makes nothing
    noexec: no donor is mounted (the configuration of firejail stays
    visible) and no mount carries MS_NOEXEC.  The uid that counts is the one
    read on entry. *)
Theorem basic_fs_as_root :
  forall a (s : st),
    k_getuid (kern s) = 0 ->
    grows (fun e => mount_with MS_NOEXEC e = false /\ is_denial_mount e = false)
          s (final (fs_basic_fs a s)).
Proof.
  intros a s Hu. unfold fs_basic_fs, getuid. unfold bind at 1, get at 1. rewrite Hu.
  match goal with
  | |- grows ?P _ (final (?m s)) => assert (T : triple (fun _ : st => True) P m)
  end.
  { cbn [nz Z.eqb negb when].
    triple_go (@stable_True K) ltac:(ev_quiet) ltac:(inv_keep). }
  exact (proj2 (T s Logic.I)).
Qed.

(** X13.  With a writable /etc requested the basic filesystem never remounts /etc,
    and with a writable /var it never remounts /var, whoever the caller is. *)
Theorem basic_fs_respects_writable :
  forall a (s : st),
    (nz (arg_writable_etc a) = true ->
     grows (fun e => remounts "/etc" e = false) s (final (fs_basic_fs a s)))
    /\ (nz (arg_writable_var a) = true ->
        grows (fun e => remounts "/var" e = false) s (final (fs_basic_fs a s))).
Proof.
  intros a s. split; intros H.
  - assert (T : triple (fun _ : st => True) (fun e => remounts "/etc" e = false)
                       (fs_basic_fs a)).
    { unfold fs_basic_fs. rewrite H. cbn [negb when].
      triple_go (@stable_True K) ltac:(ev_remount) ltac:(inv_keep). }
    exact (proj2 (T s Logic.I)).
  - assert (T : triple (fun _ : st => True) (fun e => remounts "/var" e = false)
                       (fs_basic_fs a)).
    { unfold fs_basic_fs. rewrite H. cbn [negb when].
      triple_go (@stable_True K) ltac:(ev_remount) ltac:(inv_keep). }
    exact (proj2 (T s Logic.I)).
Qed.

(** ** Entering a chroot *)

(** X14.  Without chroot-desktop support [fs_chroot] only changes root and
    rebuilds the staging area: it makes no bind mount, copies no resolv.conf
    and runs none of the /var bootstrap. *)
Theorem plain_chroot_does_no_desktop_setup :
  forall rootdir (s : st),
    (forall k, checkcfg k CFG_CHROOT_DESKTOP = false) ->
    grows (fun e => desktop_step e = false) s (final (fs_chroot rootdir s)).
Proof.
  intros rootdir s Hc.
  assert (T : triple (fun _ : st => True) (fun e => desktop_step e = false)
                     (fs_chroot rootdir)).
  { unfold fs_chroot.
    apply triple_bind_get_known with (Q := fun b => b = false).
    { intros x _. apply Hc. }
    intros b ->. cbn [when].
    apply triple_bind; [apply triple_ret | intros _].
    apply triple_bind;
      [triple_go (@stable_True K) ltac:(ev_refl) ltac:(inv_keep) | intros _].
    apply triple_bind;
      [triple_go (@stable_True K) ltac:(ev_refl) ltac:(inv_keep) | intros _].
    apply triple_bind;
      [triple_go (@stable_True K) ltac:(ev_refl) ltac:(inv_keep) | intros _].
    apply triple_bind_get_known with (Q := fun b => b = false).
    { intros x _. apply Hc. }
    intros b ->. apply triple_ret. }
  exact (proj2 (T s Logic.I)).
Qed.

Lemma fs_chroot_prepare_symlink rootdir (s : st) :
  (forall k, is_link k (rootdir ++ "/etc/resolv.conf") = true) ->
  exists s', fs_chroot_prepare rootdir s = Exit 1 s'.
Proof.
  intros Hl. unfold fs_chroot_prepare. rewrite bind_debugf. cbn beta.
  set (s0 := debugged _ _ s).
  destruct (sys_step (kern s0) (SysMount (Some "/dev") (rootdir ++ "/dev") None
                                         (Z.lor MS_BIND MS_REC) None)) as [k1|] eqn:E1;
    sys_with E1; [| eexists; reflexivity].
  assert (Tail : forall x : st,
             exists s',
               bind (get (fun s => is_dir (kern s) (rootdir ++ "/run")))
                    (fun d =>
                       bind (if d then ret tt
                             else bind (sys (SysMkdir (rootdir ++ "/run") o0755))
                                       (fun _ => bind (sys (SysChown (rootdir ++ "/run") 0 0))
                                                      (fun _ => ret tt)))
                            (fun _ =>
                               bind (debugf "Updating /etc/resolv.conf in %s\n"
                                            [FS (rootdir ++ "/etc/resolv.conf")])
                                    (fun _ =>
                                       bind (get (fun s => is_link (kern s)
                                                             (rootdir ++ "/etc/resolv.conf")))
                                            (fun l =>
                                               if l then
                                                 bind (eprintf "Error: invalid %s file\n"
                                                         [FS (rootdir ++ "/etc/resolv.conf")])
                                                      (fun _ => exit 1)
                                               else
                                                 bind (call_ext (CCopyFile "/etc/resolv.conf"
                                                         (rootdir ++ "/etc/resolv.conf") 0 0 o0644))
                                                      (fun rv =>
                                                         when (rv =? -1)
                                                           (eprintf "Warning: /etc/resolv.conf not initialized\n" [])))))) x
               = Exit 1 s').
  { intros x. run. destruct (is_dir (kern x) (rootdir ++ "/run")); run.
    - rewrite bind_debugf. run. rewrite Hl. run. eexists. reflexivity.
    - rewrite bind_sys. run. rewrite bind_sys. run.
      rewrite bind_debugf. run. rewrite Hl. run. eexists. reflexivity. }
  destruct (k_getenv k1 "FIREJAIL_X11") as [v|]; run.
  - rewrite bind_debugf. cbn beta.
    match goal with
    | |- context [bind (sys_or_die ?c ?m) _ ?x] =>
        destruct (sys_step (kern x) c) as [k2|] eqn:E2; sys_with E2;
        [| eexists; reflexivity]
    end.
    match goal with
    | |- ex (fun s' => _ ?x = _) =>
        destruct (Tail x) as [s' E]; run_in E; exists s'; exact E
    end.
  - match goal with
    | |- ex (fun s' => _ ?x = _) =>
        destruct (Tail x) as [s' E]; run_in E; exists s'; exact E
    end.
Qed.

(** X15.  With chroot-desktop support, a resolv.conf inside the new root that is a
    symbolic link ends the run with status 1 before the change of root:
    nothing is copied through the link and chroot is never called. *)
Theorem symlinked_resolv_conf_stops_chroot :
  forall rootdir (s : st),
    checkcfg (kern s) CFG_CHROOT_DESKTOP = true ->
    (forall k, is_link k (rootdir ++ "/etc/resolv.conf") = true) ->
    (exists s', fs_chroot rootdir s = Exit 1 s')
    /\ grows (fun e => is_chroot e = false /\ is_copy e = false)
             s (final (fs_chroot rootdir s)).
Proof.
  intros rootdir s Hc Hl.
  destruct (fs_chroot_prepare_symlink rootdir s Hl) as [s' E].
  assert (R : fs_chroot rootdir s = Exit 1 s').
  { unfold fs_chroot. run. rewrite Hc. cbn [when]. now rewrite (bind_Exit _ _ _ _ _ E). }
  split; [now exists s' |].
  rewrite R. cbn [final].
  assert (T : triple (fun _ : st => True)
                     (fun e => is_chroot e = false /\ is_copy e = false)
                     (fs_chroot_prepare rootdir)).
  { unfold fs_chroot_prepare.
    apply triple_bind;
      [triple_go (@stable_True K) ltac:(ev_quiet) ltac:(inv_keep) | intros _].
    apply triple_bind;
      [triple_go (@stable_True K) ltac:(ev_quiet) ltac:(inv_keep) | intros _].
    apply triple_bind;
      [triple_go (@stable_True K) ltac:(ev_quiet) ltac:(inv_keep) | intros x].
    apply triple_bind;
      [triple_go (@stable_True K) ltac:(ev_quiet) ltac:(inv_keep) | intros _].
    apply triple_bind;
      [triple_go (@stable_True K) ltac:(ev_quiet) ltac:(inv_keep) | intros d].
    apply triple_bind;
      [triple_go (@stable_True K) ltac:(ev_quiet) ltac:(inv_keep) | intros _].
    apply triple_bind;
      [triple_go (@stable_True K) ltac:(ev_quiet) ltac:(inv_keep) | intros _].
    apply triple_bind_get_known with (Q := fun b => b = true).
    { intros y _. apply Hl. }
    intros b ->. triple_go (@stable_True K) ltac:(ev_quiet) ltac:(inv_keep). }
  pose proof (proj2 (T s Logic.I)) as G. now rewrite E in G.
Qed.


(** ** The checks of the chroot and overlay directories *)

Ltac chroot_refused :=
  eexists 1, _; split; [reflexivity |];
  split; [reflexivity |];
  split; [intros H0; discriminate H0 |];
  intros _; split; [reflexivity |]; eexists; reflexivity.

(** X16.  The check of a chroot directory changes nothing in the system and
    answers 0 or 1.  It answers 0 only for a directory that exists, belongs to
    user 0 and has /dev, /var/tmp, /proc and /tmp (and /tmp/.X11-unix when
    FIREJAIL_X11 is set); any other answer is 1, after one line on stderr. *)
Theorem fs_check_chroot_dir_sound :
  forall rootdir (s : st),
    EUID_ASSERT_ok (kern s) = true ->
    exists rv s',
      fs_check_chroot_dir rootdir s = Ret rv s'
      /\ kern s' = kern s
      /\ (rv = 0 ->
          trace s' = trace s
          /\ (exists x, k_stat (kern s) rootdir = Some x /\ st_uid x = 0)
          /\ Forall (fun sub => k_stat (kern s) (rootdir ++ sub) <> None)
                    ["/dev"; "/var/tmp"; "/proc"; "/tmp"]
          /\ (k_getenv (kern s) "FIREJAIL_X11" <> None ->
              k_stat (kern s) (rootdir ++ "/tmp/.X11-unix") <> None
              /\ mask_x11_abstract_socket (glob s') = 1))
      /\ (rv <> 0 ->
          rv = 1 /\ exists msg, trace s' = (trace s ++ [EvStderr msg []])%list).
Proof.
  intros rootdir s Ha. unfold fs_check_chroot_dir.
  rewrite (bind_Ret _ _ _ _ _ (EUID_ASSERT_run s Ha)). run.
  destruct (k_stat (kern s) rootdir) as [x|] eqn:E0; run; [| chroot_refused].
  destruct (Z.eqb_spec (st_uid x) 0) as [Hu|Hu]; run; [| chroot_refused].
  unfold chroot_needs. run.
  destruct (k_stat (kern s) (rootdir ++ "/dev")) eqn:E1; run; [| chroot_refused].
  destruct (k_stat (kern s) (rootdir ++ "/var/tmp")) eqn:E2; run; [| chroot_refused].
  destruct (k_stat (kern s) (rootdir ++ "/proc")) eqn:E3; run; [| chroot_refused].
  destruct (k_stat (kern s) (rootdir ++ "/tmp")) eqn:E4; run; [| chroot_refused].
  assert (F : Forall (fun sub => k_stat (kern s) (rootdir ++ sub) <> None)
                     ["/dev"; "/var/tmp"; "/proc"; "/tmp"]).
  { repeat constructor; congruence. }
  destruct (k_getenv (kern s) "FIREJAIL_X11") as [v|] eqn:E5; run.
  - destruct (k_stat (kern s) (rootdir ++ "/tmp/.X11-unix")) eqn:E6; run;
      [| chroot_refused].
    eexists 0, _. split; [reflexivity |]. split; [reflexivity |].
    split; [| intros H0; now contradiction H0].
    intros _. split; [reflexivity |]. split; [now exists x |]. split; [exact F |].
    intros _. split; [congruence | reflexivity].
  - eexists 0, _. split; [reflexivity |]. split; [reflexivity |].
    split; [| intros H0; now contradiction H0].
    intros _. split; [reflexivity |]. split; [now exists x |]. split; [exact F |].
    intros H0. now contradiction H0.
Qed.

(** X17.  The directory of a persistent overlay that the check returns is
    [~/.firejail/<name>]; it is no symbolic link and, when reuse is not
    allowed, it does not exist yet.  An existing [~/.firejail] is accepted
    only if it is no symbolic link, and the check mounts nothing. *)
Theorem fs_check_overlay_dir_sound :
  forall subdirname allow_reuse (s : st) name s',
    fs_check_overlay_dir subdirname allow_reuse s = Ret name s' ->
    let home := str_or_null (cfg_homedir (glob s)) in
    name = home ++ "/.firejail/" ++ subdirname
    /\ is_link (kern s') name = false
    /\ (allow_reuse = 0 -> k_stat (kern s') name = None)
    /\ (k_stat (kern s) (home ++ "/.firejail") <> None ->
        is_link (kern s) (home ++ "/.firejail") = false /\ s' = s)
    /\ grows (fun e => is_mount e = false) s s'.
Proof.
  intros subdirname allow_reuse s name s' H home.
  assert (G : grows (fun e => is_mount e = false) s s').
  { assert (T : triple (fun _ : st => True) (fun e => is_mount e = false)
                       (fs_check_overlay_dir subdirname allow_reuse)).
    { triple_go (@stable_True K) ltac:(ev_refl) ltac:(inv_keep). }
    pose proof (proj2 (T s Logic.I)) as G. now rewrite H in G. }
  unfold fs_check_overlay_dir in H. run_in H. fold home in H.
  ret_inv H u1 s1 H1. run_in H.
  destruct (is_link (kern s1) (home ++ "/.firejail/" ++ subdirname)) eqn:El;
    run_in H; [discriminate H |].
  ret_inv H u2 s2 H2. run_in H. inversion H; subst name s'; clear H.
  assert (R : s2 = s1 /\ (allow_reuse = 0 ->
                          k_stat (kern s1) (home ++ "/.firejail/" ++ subdirname) = None)).
  { destruct (Z.eqb_spec allow_reuse 0) as [Hz|Hz].
    - run_in H2.
      destruct (k_stat (kern s1) (home ++ "/.firejail/" ++ subdirname)) eqn:Es;
        run_in H2; [discriminate H2 |].
      inversion H2. now split.
    - inversion H2. split; [reflexivity | intros; contradiction]. }
  destruct R as [-> R].
  split; [reflexivity |]. split; [exact El |]. split; [exact R |]. split; [| exact G].
  intros Hx. destruct (k_stat (kern s) (home ++ "/.firejail")) eqn:Ed; [| congruence].
  run_in H1. destruct (is_link (kern s) (home ++ "/.firejail")) eqn:Eh; run_in H1.
  - discriminate H1.
  - inversion H1. now split.
Qed.

(** X18.  When the copy of the cp command returns, the copy is in place: either a
    file of that name was there after the staging bootstrap, and nothing was
    copied, or /bin/cp was resolved to a file that exists and is no symbolic
    link, the copy succeeded, and the copy belongs to root with mode 0755. *)
Theorem fs_build_cp_command_post :
  forall (s s' : st),
    fs_build_cp_command s = Ret tt s' ->
    exists s1,
      fs_build_mnt_dir s = Ret tt s1
      /\ ((k_stat (kern s1) RUN_CP_COMMAND <> None /\ s' = s1)
          \/ (k_stat (kern s1) RUN_CP_COMMAND = None
              /\ exists fname,
                  k_realpath (kern s1) "/bin/cp" = inl fname
                  /\ k_stat (kern s1) fname <> None
                  /\ is_link (kern s1) fname = false
                  /\ ext_call (kern s1) (CCopyFile fname RUN_CP_COMMAND 0 0 o0755)
                     = Returned 0 (kern s')
                  /\ ASSERT_PERMS_ok (kern s') RUN_CP_COMMAND 0 0 o0755 = true)).
Proof.
  intros s s' H. unfold fs_build_cp_command in H.
  ret_inv H u1 s1 H1. destruct u1. exists s1. split; [exact H1 |].
  run_in H. destruct (k_stat (kern s1) RUN_CP_COMMAND) eqn:Ec; run_in H.
  - inversion H. left. split; [congruence | reflexivity].
  - right. split; [reflexivity |].
    destruct (k_realpath (kern s1) "/bin/cp") as [fname|e] eqn:Er; run_in H;
      [| discriminate H].
    destruct (k_stat (kern s1) fname) eqn:Ef; run_in H; [| discriminate H].
    destruct (is_link (kern s1) fname) eqn:El; run_in H; [discriminate H |].
    ret_inv H rv s2 H2. unfold call_ext in H2.
    destruct (ext_call (kern s1) (CCopyFile fname RUN_CP_COMMAND 0 0 o0755))
      as [rv' k'|c k'] eqn:Ex; [| discriminate H2].
    inversion H2; subst rv s2; clear H2.
    destruct (nz rv') eqn:En; run_in H; [discriminate H |].
    assert (rv' = 0) by (unfold nz in En; apply negb_false_iff in En; now apply Z.eqb_eq).
    subst rv'.
    unfold ASSERT_PERMS in H. run_in H.
    destruct (ASSERT_PERMS_ok k' RUN_CP_COMMAND 0 0 o0755) eqn:Ea; run_in H;
      [| discriminate H].
    inversion H; subst s'; clear H. cbn.
    exists fname. repeat split; auto; congruence.
Qed.


(** ** The kernel release *)

Lemma scan_digits_stop acc rest :
  starts_with_digit rest = false -> scan_digits acc rest = (acc, rest).
Proof.
  destruct rest as [|c r]; [reflexivity |]. cbn.
  destruct (digit_val c); [discriminate | reflexivity].
Qed.

Ltac eval_digit :=
  match goal with
  | |- context [digit_val ?c] =>
      let v := eval vm_compute in (digit_val c) in change (digit_val c) with v
  end; cbn iota beta.

Lemma scan_digits_acc d acc rest :
  starts_with_digit rest = false ->
  scan_digits (Z.pos acc) (NilEmpty.string_of_uint d ++ rest)
  = (Z.pos (Pos.of_uint_acc d acc), rest).
Proof.
  intros Hr. revert acc.
  induction d; intros acc; cbn [NilEmpty.string_of_uint append Pos.of_uint_acc];
    [now apply scan_digits_stop | ..];
    cbn [scan_digits]; eval_digit; rewrite <- IHd; f_equal; lia.
Qed.

Lemma scan_digits_uint d rest :
  starts_with_digit rest = false ->
  scan_digits 0 (NilEmpty.string_of_uint d ++ rest) = (Z.of_N (Pos.of_uint d), rest).
Proof.
  intros Hr. induction d; cbn [NilEmpty.string_of_uint append Pos.of_uint];
    [now apply scan_digits_stop | ..];
    cbn [scan_digits]; eval_digit;
    [ exact IHd | .. ];
    cbn [Z.of_N]; rewrite <- (scan_digits_acc d _ rest Hr); reflexivity.
Qed.

Lemma string_of_Z_pos p : string_of_Z (Z.pos p) = NilEmpty.string_of_uint (Pos.to_uint p).
Proof.
  unfold string_of_Z. cbn [Z.to_int NilZero.string_of_int NilZero.string_of_uint].
  destruct (Pos.to_uint p) eqn:E; try reflexivity.
  exfalso. pose proof (DecimalPos.Unsigned.of_to p) as H. rewrite E in H. discriminate H.
Qed.

(** Scanning what [%d] printed gives the number back. *)
Lemma scan_digits_string_of_Z z rest :
  0 <= z -> starts_with_digit rest = false ->
  scan_digits 0 (string_of_Z z ++ rest) = (z, rest).
Proof.
  intros Hz Hr. destruct z as [|p|p]; [| | lia].
  - change (string_of_Z 0 ++ rest)%string with (String "0" rest).
    cbn [scan_digits]. eval_digit. now apply scan_digits_stop.
  - rewrite string_of_Z_pos, scan_digits_uint by exact Hr.
    now rewrite DecimalPos.Unsigned.of_to.
Qed.

Lemma string_of_uint_digit d rest :
  d <> Decimal.Nil ->
  exists c tl, (NilEmpty.string_of_uint d ++ rest)%string = String c tl
               /\ digit_val c <> None.
Proof.
  intros Hd. destruct d; [congruence | ..];
    cbn [NilEmpty.string_of_uint append]; eexists _, _; (split; [reflexivity |]);
    vm_compute; discriminate.
Qed.

Lemma string_of_Z_digit z rest :
  0 <= z ->
  exists c tl, (string_of_Z z ++ rest)%string = String c tl /\ digit_val c <> None.
Proof.
  intros Hz. destruct z as [|p|p]; [| | lia].
  - exists "0"%char, rest. split; [reflexivity | vm_compute; discriminate].
  - rewrite string_of_Z_pos. apply string_of_uint_digit.
    intros E. pose proof (DecimalPos.Unsigned.of_to p) as H. rewrite E in H.
    discriminate H.
Qed.

Lemma scan_int_digit c tl :
  digit_val c <> None ->
  scan_int (String c tl)
  = let (v, rest) := scan_digits 0 (String c tl) in Some (store_int v, rest).
Proof.
  intros H.
  destruct c as [b0 b1 b2 b3 b4 b5 b6 b7].
  destruct b0, b1, b2, b3, b4, b5, b6, b7;
    try (exfalso; apply H; vm_compute; reflexivity); reflexivity.
Qed.

Lemma store_int_small v : 0 <= v < 2 ^ 31 -> store_int v = v.
Proof.
  intros H. unfold store_int.
  replace (Z.max (- 2 ^ 63) (Z.min v (2 ^ 63 - 1))) with v by lia.
  rewrite Z.mod_small by lia. lia.
Qed.

(** [%d] reads back what [%d] printed, up to the first character that is no
    digit. *)
Lemma scan_int_string_of_Z z rest :
  0 <= z < 2 ^ 31 -> starts_with_digit rest = false ->
  scan_int (string_of_Z z ++ rest) = Some (z, rest).
Proof.
  intros Hz Hr.
  destruct (string_of_Z_digit z rest (proj1 Hz)) as [c [tl [E Hd]]].
  pose proof (scan_digits_string_of_Z z rest (proj1 Hz) Hr) as S.
  rewrite E in *. rewrite (scan_int_digit c tl Hd), S.
  now rewrite store_int_small.
Qed.

(** X19.  The driver of the overlay for every release of the form
    [major.minor...]: the release is read as these two numbers; a major
    version below 3 ends the run with status 1, and from 3 on the legacy
    driver is chosen exactly for 3.0 to 3.17. *)
Theorem overlay_driver_by_release :
  forall major minor rest (s : st) u,
    0 <= major < 2 ^ 31 -> 0 <= minor < 2 ^ 31 ->
    starts_with_digit rest = false ->
    k_uname (kern s) = Some u ->
    release u = release_string major minor rest ->
    sscanf_d_dot_d (release u) = Some (major, minor)
    /\ (major < 3 -> exists s', overlay_kernel_check s = Exit 1 s')
    /\ (3 <= major ->
        overlay_kernel_check s
        = Ret ((major =? 3) && (minor <? 18))
              (debugged "Linux kernel version %d.%d\n" [FD major; FD minor] s)).
Proof.
  intros major minor rest s u Hmaj Hmin Hr Hu Hrel.
  assert (P : sscanf_d_dot_d (release u) = Some (major, minor)).
  { rewrite Hrel. unfold sscanf_d_dot_d, release_string.
    rewrite scan_int_string_of_Z by (exact Hmaj || reflexivity).
    cbn [append]. now rewrite scan_int_string_of_Z. }
  split; [exact P |].
  rewrite (overlay_kernel_check_run s u major minor Hu P).
  split; intros H.
  - destruct (Z.ltb_spec major 3); [eauto | lia].
  - destruct (Z.ltb_spec major 3); [lia | reflexivity].
Qed.


(** ** The whole pass *)



End FsRest.

(** * Further properties of the join protocol *)

Section JoinRest.

Context {K : Type} {W : World K}.

Abbreviation st := (state K).
Abbreviation Run := (M (state K)).

(** ** Reading the status of the target *)

(** X21.  The scan of the status file ends at the first line that begins with
    [Seccomp:]: the lines after it are not read, so a capability mask that
    follows it is not taken. *)
Theorem scan_status_stops_at_seccomp :
  forall pre buf post (s : st),
    strncmp0 buf "Seccomp:" 8 = true ->
    scan_status (pre ++ buf :: post) s = scan_status (pre ++ [buf]) s.
Proof.
  intros pre buf post s H. revert s.
  induction pre as [|a pre IH]; intros s; cbn [app scan_status].
  - now rewrite H.
  - destruct (strncmp0 a "Seccomp:" 8); [reflexivity |].
    destruct (strncmp0 a "CapBnd:" 7); [| apply IH].
    run. apply IH.
Qed.

Lemma scan_llx_range s v : scan_llx s = Some v -> 0 <= v < 2 ^ 64.
Proof.
  unfold scan_llx.
  destruct (match skip_space s with
            | String "-" r => (true, r)
            | String "+" r => (false, r)
            | _ => (false, skip_space s)
            end) as [neg s2].
  match goal with
  | |- match ?s3 with _ => _ end = _ -> _ => destruct s3 as [|c r]; [discriminate |]
  end.
  destruct (hex_val c); [| discriminate].
  intros H. inversion H. apply Z.mod_pos_bound. lia.
Qed.

(** X22.  The scan of the status file always returns.  It leaves the system, the
    trace and the globals of the other files alone; of the three variables
    of join.c it only ever sets the two flags to 1, and the capability mask
    stays a 64-bit value. *)
Theorem scan_status_sets_only_its_variables :
  forall lines (s : st),
    exists s',
      scan_status lines s = Ret tt s'
      /\ kern s' = kern s /\ trace s' = trace s /\ glob s' = glob s
      /\ (apply_caps s' = apply_caps s \/ apply_caps s' = 1)
      /\ (apply_seccomp s' = apply_seccomp s \/ apply_seccomp s' = 1)
      /\ (0 <= caps s < 2 ^ 64 -> 0 <= caps s' < 2 ^ 64).
Proof.
  induction lines as [|buf rest IH]; intros s; cbn [scan_status].
  - exists s. repeat split; auto; lia.
  - destruct (strncmp0 buf "Seccomp:" 8).
    + run.
      destruct (match scan_int (str_drop 8 buf) with
                | Some (v, _) => v
                | None => k_indeterminate (kern s)
                end =? 2); run.
      * eexists. split; [reflexivity |]. cbn. repeat split; auto; lia.
      * exists s. repeat split; auto; lia.
    + destruct (strncmp0 buf "CapBnd:" 7); [| apply IH].
      run.
      match goal with
      | |- exists s', scan_status rest ?x = _ /\ _ =>
          destruct (IH x) as [s' [E [Hk [Ht [Hg [Ha [Hs Hc]]]]]]]; exists s'
      end.
      cbn [kern trace glob apply_caps apply_seccomp caps set_caps set_apply_caps] in *.
      assert (R : 0 <= caps s' < 2 ^ 64).
      { apply Hc. destruct (scan_llx (str_drop 7 buf)) as [v|] eqn:El.
        - exact (scan_llx_range _ _ El).
        - apply Z.mod_pos_bound. lia. }
      split; [exact E |]. split; [exact Hk |]. split; [exact Ht |]. split; [exact Hg |].
      split; [| split; [exact Hs | intros _; exact R]].
      destruct Ha as [Ha|Ha]; right; congruence.
Qed.


(** ** The command of a join *)

(** X23.  The word that is to be the command of a join is refused when it looks
    like an option, with status 1 and before the command line is built,
    unless a double dash came first.  After a double dash the next word is
    taken as the command whatever it looks like, and a double dash that is
    the last word only sets its flag. *)
Theorem extract_command_option_guard :
  forall argv index (s : st),
    EUID_ASSERT_ok (kern s) = true ->
    0 <= index < Z.of_nat (List.length argv) ->
    let arg := nth (Z.to_nat index) argv "" in
    (strcmp0 arg "--" = false -> option_like arg = true ->
     arg_doubledash (glob s) = 0 ->
     extract_command argv index s
     = Exit 1 (emit (EvStderr "Error: invalid option %s after --join\n" [FS arg]) s))
    /\ (strcmp0 arg "--" = true -> index + 1 < Z.of_nat (List.length argv) ->
        exists tl,
          trace (final (extract_command argv index s))
          = (trace s ++ EvCall (CBuildCmdline argv (index + 1)) :: tl)%list)
    /\ (strcmp0 arg "--" = true -> index + 1 = Z.of_nat (List.length argv) ->
        extract_command argv index s
        = Ret tt (set_glob (with_arg_doubledash 1 (glob s)) s)).
Proof.
  intros argv index s Ha Hi arg. unfold extract_command.
  rewrite (bind_Ret _ _ _ _ _ (EUID_ASSERT_run s Ha)).
  destruct (Z.geb_spec index (Z.of_nat (List.length argv))); [lia |].
  fold arg. split; [| split].
  - intros Hd Ho Hz. rewrite Hd. run. cbn [andb]. run. rewrite Hz.
    unfold option_like in Ho. fold arg. rewrite Ho. reflexivity.
  - intros Hd Hn. rewrite Hd. run.
    destruct (Z.geb_spec (index + 1) (Z.of_nat (List.length argv))); [lia |].
    cbn [andb]. run. cbn [arg_doubledash with_arg_doubledash Z.eqb andb].
    set (s0 := set_glob (with_arg_doubledash 1 (glob s)) s).
    destruct (ext_call (kern s) (CBuildCmdline argv (index + 1))) as [rv k'|c k'] eqn:Ex.
    + assert (C : call_ext_ (CBuildCmdline argv (index + 1)) s0
                  = Ret tt (set_kern k' (emit (EvCall (CBuildCmdline argv (index + 1))) s0))).
      { unfold call_ext_, call_ext, bind, s0. cbn [kern set_glob]. now rewrite Ex. }
      rewrite (bind_Ret _ _ _ _ _ C).
      destruct (built_cmdline argv (index + 1)) as [cl wt]. run.
      rewrite debugf_run. cbn [final]. unfold debugged. cbn.
      destruct (nz (arg_debug (glob s))); cbn; eexists; rewrite <- ?app_assoc; reflexivity.
    + assert (C : call_ext_ (CBuildCmdline argv (index + 1)) s0
                  = Exit c (set_kern k' (emit (EvCall (CBuildCmdline argv (index + 1))) s0))).
      { unfold call_ext_, call_ext, bind, s0. cbn [kern set_glob]. now rewrite Ex. }
      rewrite (bind_Exit _ _ _ _ _ C). exists []. reflexivity.
  - intros Hd Hn. rewrite Hd. run.
    destruct (Z.geb_spec (index + 1) (Z.of_nat (List.length argv))); [| lia].
    reflexivity.
Qed.

(** ** Entering the namespaces *)

Lemma join_namespace_or_exit_open pid ns (s : st) :
  namespaces_open pid ->
  exists k',
    join_namespace_or_exit pid ns s
    = Ret tt (set_kern k' (emit (EvCall (CJoinNamespace pid ns)) s)).
Proof.
  intros Ho. destruct (Ho (kern s) ns) as [k' E]. exists k'.
  unfold join_namespace_or_exit, call_ext, bind. now rewrite E.
Qed.

Ltac enter ns Ho :=
  match goal with
  | |- context [bind (join_namespace_or_exit ?pid ns) _ ?x] =>
      let k := fresh "k" in
      let E := fresh "E" in
      destruct (join_namespace_or_exit_open pid ns x Ho) as [k E];
      rewrite (bind_Ret _ _ _ _ _ E); clear E
  | |- context [join_namespace_or_exit ?pid ns ?x] =>
      let k := fresh "k" in
      let E := fresh "E" in
      destruct (join_namespace_or_exit_open pid ns x Ho) as [k E];
      rewrite E; clear E
  end.

(** X24.  The namespaces a join enters, when the target lets it in: only the
    network namespace when that is what was asked for (this request wins
    over the next), only the mount namespace when that was asked for, and
    otherwise ipc, net, pid, uts and mnt, in this order. *)
Theorem join_namespaces_by_mode :
  forall pid (s : st),
    namespaces_open pid ->
    exists s',
      join_namespaces pid s = Ret tt s'
      /\ glob s' = glob s
      /\ trace s'
         = (trace s ++ map (fun ns => EvCall (CJoinNamespace pid ns))
                           (joined_namespaces (glob s)))%list.
Proof.
  intros pid s Ho. unfold join_namespaces, joined_namespaces. run.
  destruct (nz (arg_join_network (glob s))); [| destruct (nz (arg_join_filesystem (glob s)))].
  - enter "net" Ho. eexists. split; [reflexivity |]. split; reflexivity.
  - enter "mnt" Ho. eexists. split; [reflexivity |]. split; reflexivity.
  - enter "ipc" Ho. enter "net" Ho. enter "pid" Ho. enter "uts" Ho. enter "mnt" Ho.
    eexists. split; [reflexivity |]. split; [reflexivity |].
    cbn. repeat rewrite <- app_assoc. reflexivity.
Qed.

Lemma join_namespace_or_exit_closed pid ns :
  namespaces_closed pid ->
  noret (fun _ : st => True) (join_namespace_or_exit pid ns).
Proof.
  intros Hc s _ a s'. specialize (Hc (kern s) ns).
  unfold join_namespace_or_exit, call_ext, bind.
  destruct (ext_call (kern s) (CJoinNamespace pid ns)) as [rv k'|c k'].
  - destruct (Z.eqb_spec rv 0); [contradiction | discriminate].
  - discriminate.
Qed.

Lemma join_namespaces_closed pid :
  namespaces_closed pid -> noret (fun _ : st => True) (join_namespaces pid).
Proof.
  intros Hc s _ a s' H. unfold join_namespaces in H. run_in H.
  destruct (nz (arg_join_network (glob s)));
    [| destruct (nz (arg_join_filesystem (glob s)))].
  - exact (join_namespace_or_exit_closed pid "net" Hc s Logic.I a s' H).
  - exact (join_namespace_or_exit_closed pid "mnt" Hc s Logic.I a s' H).
  - apply bind_Ret_inv in H. destruct H as [u [s1 [H _]]].
    exact (join_namespace_or_exit_closed pid "ipc" Hc s Logic.I u s1 H).
Qed.

Lemma scan_status_adds_nothing (P : event -> Prop) lines :
  triple (fun _ : st => True) P (scan_status lines).
Proof.
  induction lines as [|buf rest IH]; cbn [scan_status]; [apply triple_ret |].
  destruct (strncmp0 buf "Seccomp:" 8);
    [| destruct (strncmp0 buf "CapBnd:" 7); [| exact IH]];
    triple_go (@stable_True K) ltac:(fail) ltac:(inv_keep).
Qed.

Lemma extract_caps_seccomp_adds (P : event -> Prop) pid :
  (forall fmt args, P (EvStderr fmt args)) ->
  triple (fun _ : st => True) P (extract_caps_seccomp pid).
Proof.
  intros HP. unfold extract_caps_seccomp.
  apply triple_bind; [apply triple_get | intros [lines|]].
  - apply scan_status_adds_nothing.
  - triple_go (@stable_True K) ltac:(apply HP) ltac:(inv_keep).
Qed.

(** X25.  A target that lets nobody into its namespaces stops the join: the
    process never forks and the join does not return. *)
Theorem closed_namespaces_stop_join :
  forall pid argv index (s : st),
    (forall p, namespaces_closed p) ->
    (forall a s', join pid argv index s <> Ret a s')
    /\ grows (fun e => is_fork e = false) s (final (join pid argv index s)).
Proof.
  intros pid argv index s Hc.
  assert (X1 : forall p, triple (fun _ : st => True) (fun e => is_fork e = false)
                                (extract_caps_seccomp p)).
  { intros p. apply extract_caps_seccomp_adds. reflexivity. }
  assert (X2 : forall p, triple (fun _ : st => True) any_event (extract_caps_seccomp p)).
  { intros p. apply extract_caps_seccomp_adds. intros; exact Logic.I. }
  assert (E : forall p homedir,
             triple (fun _ : st => True) (fun e => is_fork e = false) (join_enter p homedir)
             /\ noret (fun _ : st => True) (join_enter p homedir)).
  { intros p homedir. specialize (X1 p). specialize (X2 p). unfold join_enter. split.
    - apply triple_bind;
        [triple_go (@stable_True K) ltac:(ev_refl) ltac:(inv_keep) | intros _].
      apply triple_bind;
        [triple_go (@stable_True K) ltac:(ev_refl) ltac:(inv_keep) | intros _].
      apply triple_bind; [apply triple_get | intros cg].
      apply triple_bind;
        [triple_go (@stable_True K) ltac:(ev_refl) ltac:(inv_keep) | intros _].
      apply triple_bind_noret; [| now apply join_namespaces_closed].
      triple_go (@stable_True K) ltac:(ev_refl) ltac:(inv_keep).
    - apply noret_bind_r with (P := any_event);
        [triple_go (@stable_True K) ltac:(ev_true) ltac:(inv_keep) | intros _].
      apply noret_bind_r with (P := any_event);
        [triple_go (@stable_True K) ltac:(ev_true) ltac:(inv_keep) | intros _].
      apply noret_bind_r with (P := any_event); [apply triple_get | intros cg].
      apply noret_bind_r with (P := any_event);
        [triple_go (@stable_True K) ltac:(ev_true) ltac:(inv_keep) | intros _].
      apply noret_bind_l. now apply join_namespaces_closed. }
  split.
  - assert (N : noret (fun _ : st => True) (join pid argv index)).
    { unfold join.
      apply noret_bind_r with (P := any_event); [apply triple_EUID_ASSERT | intros _].
      apply noret_bind_r with (P := any_event); [apply triple_get | intros homedir].
      apply noret_bind_r with (P := any_event);
        [triple_go (@stable_True K) ltac:(ev_true) ltac:(inv_keep) | intros p].
      apply noret_bind_r with (P := any_event);
        [triple_go (@stable_True K) ltac:(ev_true) ltac:(inv_keep) | intros _].
      apply E. }
    exact (N s Logic.I).
  - assert (T : triple (fun _ : st => True) (fun e => is_fork e = false)
                       (join pid argv index)).
    { unfold join.
      apply triple_bind; [apply triple_EUID_ASSERT | intros _].
      apply triple_bind; [apply triple_get | intros homedir].
      apply triple_bind;
        [triple_go (@stable_True K) ltac:(ev_refl) ltac:(inv_keep) | intros p].
      apply triple_bind;
        [triple_go (@stable_True K) ltac:(ev_refl) ltac:(inv_keep) | intros _].
      apply E. }
    exact (proj2 (T s Logic.I)).
Qed.


(** ** The child of a join *)

(** X26.  When the shell has been resolved there is a command to run.  A command
    given by the caller is left as it is; otherwise the command line and the
    window title are the shell (the configured one, or the one guessed), and
    that shell has just been found inside the sandbox.  Nothing but these
    globals changes. *)
Theorem join_resolve_shell_post :
  forall (s s' : st),
    join_resolve_shell s = Ret tt s' ->
    kern s' = kern s /\ trace s' = trace s
    /\ (cfg_command_line (glob s) <> None -> s' = s)
    /\ (cfg_command_line (glob s) = None ->
        exists sh,
          cfg_command_line (glob s') = Some sh
          /\ cfg_window_title (glob s') = Some sh
          /\ cfg_shell (glob s') = Some sh
          /\ k_stat (kern s') sh <> None
          /\ (cfg_shell (glob s) = Some sh
              \/ cfg_shell (glob s) = None /\ guess_shell (kern s) = Some sh)).
Proof.
  intros s s' H. unfold join_resolve_shell in H. run_in H.
  destruct (cfg_command_line (glob s)) as [cl|] eqn:Ec.
  - inversion H; subst s'. repeat split; auto. intros; discriminate.
  - run_in H. destruct (cfg_shell (glob s)) as [sh|] eqn:Es; run_in H.
    + rewrite Es in H. cbn [str_or_null] in H.
      destruct (k_stat (kern s) sh) eqn:Et; run_in H; [| discriminate H].
      inversion H; subst s'; clear H. cbn.
      split; [reflexivity |]. split; [reflexivity |]. split; [intros E; now contradiction E |].
      intros _. exists sh. rewrite Es. repeat split; auto. congruence.
    + destruct (guess_shell (kern s)) as [sh|] eqn:Eg; run_in H; [| discriminate H].
      cbn [str_or_null cfg_shell with_cfg_shell] in H.
      destruct (k_stat (kern s) sh) eqn:Et; run_in H; [| discriminate H].
      inversion H; subst s'; clear H. cbn.
      split; [reflexivity |]. split; [reflexivity |]. split; [intros E; now contradiction E |].
      intros _. exists sh. repeat split; auto. congruence.
Qed.

Lemma glob_stable g : @stable K (fun s => glob s = g).
Proof. split; intros ? s H; exact H. Qed.

(** One step of a run that returned, with what the step keeps. *)
Lemma ret_step {A B} (I : st -> Prop) (m : Run A) (f : A -> Run B) (s : st) b s' :
  triple I any_event m -> I s -> bind m f s = Ret b s' ->
  exists a s1, I s1 /\ (exists tr, trace s1 = (trace s ++ tr)%list) /\ f a s1 = Ret b s'.
Proof.
  intros T Hs H. apply bind_Ret_inv in H. destruct H as [a [s1 [H1 H2]]].
  destruct (triple_Ret _ _ _ _ _ _ T Hs H1) as [I1 [tr [G _]]].
  exists a, s1. split; [exact I1 | split; [now exists tr | exact H2]].
Qed.

Ltac step_in H s0 :=
  let a := fresh "a" in
  let s1 := fresh "s" in
  let I1 := fresh "I" in
  let tr := fresh "tr" in
  let G := fresh "G" in
  eapply (ret_step (fun x : st => glob x = glob s0)) in H;
  [ destruct H as [a [s1 [I1 [[tr G] H]]]]
  | solve [triple_go (glob_stable (glob s0)) ltac:(ev_true) ltac:(inv_keep)]
  | solve [assumption | reflexivity] ].

Lemma ends_with_after (a x y : list event) e :
  y = (a ++ x)%list -> exists t, (y ++ [e])%list = (a ++ t ++ [e])%list.
Proof. intros ->. exists x. now rewrite app_assoc. Qed.

Ltac glob_to s H :=
  repeat match goal with
         | E : glob ?x = glob s |- _ => rewrite E in H
         end.

(** X27.  The child ends the application of the security context by giving up
    its privileges: when no user namespace is to be joined, the last thing
    the context does is [drop_privs] with the caller's nogroups flag; when
    one is to be joined, [drop_privs] is not called at all. *)
Theorem join_context_drops_privileges :
  forall (s s' : st),
    join_apply_context s = Ret tt s' ->
    (nz (arg_noroot (glob s)) = false ->
     exists tr,
       trace s' = (trace s ++ tr ++ [EvCall (CDropPrivs (arg_nogroups (glob s)))])%list)
    /\ (nz (arg_noroot (glob s)) = true ->
        grows (fun e => is_drop_privs e = false) s s').
Proof.
  intros s s' H. split; intros Hn.
  - unfold join_apply_context in H.
    do 13 (step_in H s).
    run_in H. glob_to s H. rewrite Hn in H. run_in H. glob_to s H.
    unfold call_ext_, call_ext, bind in H.
    match type of H with
    | context [ext_call ?k ?c] => destruct (ext_call k c) as [rv k'|c' k']
    end; [| discriminate H].
    inversion H; subst s'; clear H. cbn [trace set_kern emit].
    eapply ends_with_after.
    repeat match goal with
           | E : trace _ = (trace _ ++ _)%list |- _ => rewrite E; clear E
           end.
    repeat rewrite <- app_assoc. reflexivity.
  - assert (T : triple (fun x : st => glob x = glob s) (fun e => is_drop_privs e = false)
                       join_apply_context).
    { pose proof (glob_stable (glob s)) as Hst. unfold join_apply_context.
      do 13 (apply triple_bind;
             [triple_go Hst ltac:(ev_refl) ltac:(inv_keep) | intro]).
      apply triple_bind_get_known with (Q := fun v => nz v = true).
      { intros x Hx. now rewrite Hx. }
      intros v Hv. rewrite Hv.
      triple_go Hst ltac:(ev_refl) ltac:(inv_keep). }
    exact (proj2 (triple_Ret _ _ _ _ _ _ T eq_refl H)).
Qed.

(** A run that begins with a system call: the call opens what the run adds
    to the trace, whatever its result. *)
Lemma sys_first {B} (c : syscall) (f : bool -> Run B) (x : st) :
  (forall b, triple (fun _ : st => True) any_event (f b)) ->
  exists tl, trace (final (bind (sys c) f x)) = (trace x ++ EvSys c :: tl)%list.
Proof.
  intros T. unfold bind, sys.
  destruct (sys_step (kern x) c) as [k'|];
    match goal with
    | |- exists tl, trace (final (f ?b ?y)) = _ =>
        destruct (proj2 (T b y Logic.I)) as [tr [G _]]; rewrite G; cbn;
        exists tr; now rewrite <- app_assoc
    end.
Qed.

Ltac after_sys_first :=
  match goal with
  | |- exists tl, trace (final (bind (sys ?c) ?f ?x)) = _ =>
      let tl := fresh "tl" in
      let E := fresh "E" in
      destruct (sys_first c f x) as [tl E];
      [ intro; triple_go (@stable_True K) ltac:(ev_true) ltac:(inv_keep)
      | exists tl; rewrite E; cbn [trace set_kern emit];
        repeat (rewrite <- app_assoc || rewrite <- app_comm_cons); reflexivity ]
  end.

(** X28.  A join of the network namespace alone leaves the child in the root
    directory of the caller: chroot is never called, and the child begins
    with prctl.  Any other join begins the work of the child with a chroot
    into the root of the target; the child reports the chroot when it
    succeeded and goes on with prctl whether it succeeded or not. *)
Theorem join_child_chroot_by_mode :
  forall pid homedir (s : st),
    let rootdir := "/proc/" ++ string_of_Z pid ++ "/root" in
    (nz (arg_join_network (glob s)) = true ->
     grows (fun e => is_chroot e = false) s (final (join_child pid homedir s))
     /\ exists tl,
         trace (final (join_child pid homedir s))
         = (trace s ++ EvSys (SysPrctl PR_SET_PDEATHSIG SIGKILL) :: tl)%list)
    /\ (nz (arg_join_network (glob s)) = false ->
        exists tl,
          trace (final (join_child pid homedir s))
          = (trace s ++ EvSys (SysChroot rootdir)
               :: (if succeeds (SysChroot rootdir) s
                   then [EvStdout "changing root to %s\n" [FS rootdir]]
                   else [])
               ++ EvSys (SysPrctl PR_SET_PDEATHSIG SIGKILL) :: tl)%list).
Proof.
  intros pid homedir s rootdir.
  split; intros Hn.
  - split.
    + unfold join_child. unfold bind at 1, get at 1. rewrite Hn.
      match goal with
      | |- grows ?P _ (final (?m s)) => assert (T : triple (fun _ : st => True) P m)
      end.
      { triple_go (@stable_True K) ltac:(ev_refl) ltac:(inv_keep). }
      exact (proj2 (T s Logic.I)).
    + unfold join_child. unfold bind at 1, get at 1. rewrite Hn.
      unfold bind at 1. cbn [ret]. after_sys_first.
  - unfold join_child. unfold bind at 1, get at 1. rewrite Hn.
    rewrite bind_assoc.
    unfold bind at 1. unfold sys at 1. unfold succeeds. cbn [kern].
    fold rootdir.
    destruct (sys_step (kern s) (SysChroot rootdir)) as [k'|];
      unfold bind at 1; cbn [when printf modify ret]; after_sys_first.
Qed.


(** ** The whole join *)

Lemma triple_fork (P : event -> Prop) :
  P EvFork -> triple (fun _ : st => True) P fork.
Proof.
  intros HP s _. unfold fork. destruct (k_fork (kern s)) as [child k']. cbn.
  split; [exact Logic.I | now apply (grows_emit P EvFork s)].
Qed.

(** X29.  A join leaves the mount table and the filesystem log alone: neither
    the parent nor the child mounts anything or writes a log entry. *)
Theorem join_mounts_nothing :
  forall pid argv index (s : st),
    grows quiet s (final (join pid argv index s)).
Proof.
  intros pid argv index s.
  assert (F : triple (fun _ : st => True) quiet fork).
  { apply triple_fork. split; reflexivity. }
  assert (E : forall p homedir, triple (fun _ : st => True) quiet (join_enter p homedir)).
  { intros p homedir.
    assert (X1 : triple (fun _ : st => True) quiet (extract_caps_seccomp p)).
    { apply extract_caps_seccomp_adds. intros; split; reflexivity. }
    triple_go (@stable_True K) ltac:(ev_quiet) ltac:(inv_keep). }
  assert (T : triple (fun _ : st => True) quiet (join pid argv index)).
  { unfold join.
    apply triple_bind; [apply triple_EUID_ASSERT | intros _].
    apply triple_bind; [apply triple_get | intros homedir].
    apply triple_bind;
      [triple_go (@stable_True K) ltac:(ev_quiet) ltac:(inv_keep) | intros p].
    apply triple_bind;
      [triple_go (@stable_True K) ltac:(ev_quiet) ltac:(inv_keep) | intros _].
    apply E. }
  exact (proj2 (T s Logic.I)).
Qed.

End JoinRest.

(** * Further runs on the concrete system *)

Section ConcreteRest.

Import Toy.
Import Lab.

(** ** The staging directory *)

(** /run/firejail planted by user 1000. *)
Lemma nonroot_staging_dir_refused_witness :
  fs_build_firejail_dir planted = Exit 1 (emit nonroot_refusal planted)
  /\ fs_build_mnt_dir planted = Exit 1 (emit nonroot_refusal planted)
  /\ fs_build_cp_command planted = Exit 1 (emit nonroot_refusal planted)
  /\ (forall op filename,
         op <> OPERATION_MAX ->
         disable_file op filename planted
         = Exit 1 (emit nonroot_refusal (set_last_disable UNSUCCESSFUL planted))).
Proof.
  apply (nonroot_staging_dir_refused planted (n_stat (dir 0 [])) (n_stat (dir 1000 []))).
  - reflexivity.
  - reflexivity.
  - left. cbn. lia.
Defined.

Lemma staging_tmpfs_mounted_once_witness :
  flag_set (final (fs_build_mnt_dir start))
  /\ flag_set (final (fs_build_mnt_dir (final (fs_build_mnt_dir start))))
  /\ grows quiet (final (fs_build_mnt_dir start))
           (final (fs_build_mnt_dir (final (fs_build_mnt_dir start)))).
Proof.
  apply (staging_tmpfs_mounted_once start (final (fs_build_mnt_dir start))).
  vm_compute. reflexivity.
Defined.

(** ** Globbing and the exception list *)

(** The dot files of /home/user: [.] and [..] are among the expansions. *)
Lemma globbing_ignores_dot_entries_witness :
  globbing BLACKLIST_FILE "/home/user/.*" [] start
  = for_each (globbing_path BLACKLIST_FILE [])
             (filter (fun p => negb (dot_entry p))
                     ["/home/user/."; "/home/user/.."; "/home/user/.ssh";
                      "/home/user/.bashrc"])
             start
  /\ (Forall (fun p => dot_entry p = true)
             ["/home/user/."; "/home/user/.."; "/home/user/.ssh"; "/home/user/.bashrc"] ->
      globbing BLACKLIST_FILE "/home/user/.*" [] start = Ret tt start).
Proof.
  apply (globbing_ignores_dot_entries BLACKLIST_FILE "/home/user/.*" [] _ start).
  vm_compute. reflexivity.
Defined.

Example dot_entries_filtered :
  filter (fun p => negb (dot_entry p))
         ["/home/user/."; "/home/user/.."; "/home/user/.ssh"; "/home/user/.bashrc"]
  = ["/home/user/.ssh"; "/home/user/.bashrc"].
Proof. vm_compute. reflexivity. Qed.

Lemma exception_list_only_grows_witness :
  (exists extra, ["/home/user/.ssh"] = ([] ++ extra)%list)
  /\ (Forall (fun d => strncmp0 d "noblacklist " 12 = false)
             ["noblacklist /home/user/.ssh"; "blacklist /home/user/.*"] ->
      ["/home/user/.ssh"] = @nil string).
Proof.
  apply (exception_list_only_grows
           "/home/user" ["noblacklist /home/user/.ssh"; "blacklist /home/user/.*"] [] start
           ["/home/user/.ssh"]
           (final (fs_blacklist_entries
                     "/home/user" ["noblacklist /home/user/.ssh"; "blacklist /home/user/.*"]
                     [] start))).
  vm_compute. reflexivity.
Defined.

Lemma ignored_directives_change_nothing_witness :
  fs_blacklist_entries "/home/user"
    ["whitelist /home/user/notes"; ""; "args-noexec/tmp"; "args-path /opt"] [] start
  = Ret [] start
  /\ forall rest, ignored_directive ("args-noexec" ++ rest) = true.
Proof.
  apply (ignored_directives_change_nothing
           "/home/user"
           ["whitelist /home/user/notes"; ""; "args-noexec/tmp"; "args-path /opt"] [] start).
  repeat constructor.
Defined.

(** ** The bind directive *)

Lemma bind_missing_endpoint_skipped_witness :
  exists msg args,
    fs_blacklist_entry "/home/user" ("bind " ++ "/srv/data,/nonexistent") [] start
    = Ret [] (emit (EvStderr msg args) start).
Proof.
  apply (bind_missing_endpoint_skipped "/home/user" "/srv/data,/nonexistent" [] start).
  vm_compute. right. reflexivity.
Defined.


(** ** One profile target *)

Lemma toy_realpath_never_eacces k p : k_realpath k p <> inr EACCES.
Proof.
  cbn. unfold realpath. destruct (lookup (links k) p); [discriminate |].
  destruct (exists_ k p); discriminate.
Qed.

Lemma remount_leaves_last_disable_unsuccessful_witness :
  last_disable (final (disable_file MOUNT_READONLY "/srv/data" start)) = UNSUCCESSFUL.
Proof.
  apply (remount_leaves_last_disable_unsuccessful MOUNT_READONLY "/srv/data" start).
  - reflexivity.
  - intros k. apply toy_realpath_never_eacces.
Defined.

(** The remount was made all the same. *)
Example remount_was_made :
  filter is_mount (trace (final (disable_file MOUNT_READONLY "/srv/data" start)))
  = [EvSys (SysMount (Some "/srv/data") "/srv/data" None (Z.lor MS_BIND MS_REC) None);
     EvSys (SysMount None "/srv/data" None
                     (Z.lor (Z.lor (Z.lor MS_BIND MS_REMOUNT) MS_RDONLY) MS_REC) None)].
Proof. vm_compute. reflexivity. Qed.

(** A read-only directive on a path that cannot be resolved, on a system
    where no mount succeeds: both donors are tried and the run goes on. *)
Lemma unreadable_target_denied_by_force_witness :
  exists s2,
    disable_file (W := world_of sealed) MOUNT_READONLY "/home/user/secret" start = Ret tt s2
    /\ last_disable s2 = UNSUCCESSFUL
    /\ filter is_mount (trace s2)
       = [EvSys (donor_mount "/run/firejail/firejail.ro.dir" "/home/user/secret");
          EvSys (donor_mount "/run/firejail/firejail.ro.file" "/home/user/secret")].
Proof.
  destruct (unreadable_target_denied_by_force
              (W := world_of sealed) MOUNT_READONLY "/home/user/secret" start
              (final (fs_build_firejail_dir (W := world_of sealed)
                        (set_last_disable UNSUCCESSFUL start))))
    as [s2 [p1 [p2 [E [F1 [F2 M]]]]]].
  - discriminate.
  - vm_compute. reflexivity.
  - vm_compute. reflexivity.
  - exists s2. split; [exact E |].
    assert (R : Ret tt s2 = disable_file (W := world_of sealed) MOUNT_READONLY
                                         "/home/user/secret" start) by (symmetry; exact E).
    vm_compute in R. inversion R. split; vm_compute; reflexivity.
Defined.

(** ** The basic filesystem *)

Lemma basic_fs_as_root_witness :
  grows (fun e => mount_with MS_NOEXEC e = false /\ is_denial_mount e = false)
        root_with_jail (final (fs_basic_fs (mkBasicFsArgs 0 0) root_with_jail)).
Proof.
  apply (basic_fs_as_root (mkBasicFsArgs 0 0) root_with_jail). reflexivity.
Defined.

(** A user who is not root gets /etc noexec and the configuration denied. *)
Example basic_fs_as_user :
  existsb (mount_with MS_NOEXEC)
          (trace (final (fs_basic_fs (mkBasicFsArgs 0 0) with_jail))) = true.
Proof. vm_compute. reflexivity. Qed.

Lemma basic_fs_respects_writable_witness :
  (nz (arg_writable_etc (mkBasicFsArgs 1 0)) = true ->
   grows (fun e => remounts "/etc" e = false) with_jail
         (final (fs_basic_fs (mkBasicFsArgs 1 0) with_jail)))
  /\ (nz (arg_writable_var (mkBasicFsArgs 1 0)) = true ->
      grows (fun e => remounts "/var" e = false) with_jail
            (final (fs_basic_fs (mkBasicFsArgs 1 0) with_jail))).
Proof. apply (basic_fs_respects_writable (mkBasicFsArgs 1 0) with_jail). Defined.

(** Without the request /etc is remounted. *)
Example basic_fs_remounts_etc :
  existsb (remounts "/etc") (trace (final (fs_basic_fs (mkBasicFsArgs 0 0) with_jail)))
  = true.
Proof. vm_compute. reflexivity. Qed.

(** ** Entering a chroot *)

Lemma plain_chroot_does_no_desktop_setup_witness :
  grows (fun e => desktop_step e = false) with_jail
        (final (fs_chroot (W := world_of plain) "/jail" with_jail)).
Proof.
  apply (plain_chroot_does_no_desktop_setup (W := world_of plain) "/jail" with_jail).
  intros k. reflexivity.
Defined.

Lemma symlinked_resolv_conf_stops_chroot_witness :
  (exists s', fs_chroot (W := world_of linked_resolv_conf) "/jail" with_jail = Exit 1 s')
  /\ grows (fun e => is_chroot e = false /\ is_copy e = false) with_jail
           (final (fs_chroot (W := world_of linked_resolv_conf) "/jail" with_jail)).
Proof.
  apply (symlinked_resolv_conf_stops_chroot (W := world_of linked_resolv_conf)
                                            "/jail" with_jail).
  - reflexivity.
  - intros k. reflexivity.
Defined.

(** ** The checks of the chroot and overlay directories *)

Lemma fs_check_chroot_dir_sound_witness :
  exists rv s',
    fs_check_chroot_dir "/jail" with_jail = Ret rv s'
    /\ kern s' = kern with_jail
    /\ (rv = 0 ->
        trace s' = trace with_jail
        /\ (exists x, k_stat (kern with_jail) "/jail" = Some x /\ st_uid x = 0)
        /\ Forall (fun sub => k_stat (kern with_jail) ("/jail" ++ sub) <> None)
                  ["/dev"; "/var/tmp"; "/proc"; "/tmp"]
        /\ (k_getenv (kern with_jail) "FIREJAIL_X11" <> None ->
            k_stat (kern with_jail) ("/jail" ++ "/tmp/.X11-unix") <> None
            /\ mask_x11_abstract_socket (glob s') = 1))
    /\ (rv <> 0 ->
        rv = 1 /\ exists msg, trace s' = (trace with_jail ++ [EvStderr msg []])%list).
Proof.
  apply (fs_check_chroot_dir_sound "/jail" with_jail). reflexivity.
Defined.

Example chroot_dir_accepted : fs_check_chroot_dir "/jail" with_jail = Ret 0 with_jail.
Proof. vm_compute. reflexivity. Qed.

(** A directory of user 1000 is refused. *)
Example chroot_dir_of_user_refused :
  fs_check_chroot_dir "/home/user" with_jail
  = Ret 1 (emit (EvStderr "Error: chroot directory should be owned by root\n" []) with_jail).
Proof. vm_compute. reflexivity. Qed.

Lemma fs_check_overlay_dir_sound_witness :
  "/home/user/.firejail/ov"
  = str_or_null (cfg_homedir (glob start)) ++ "/.firejail/" ++ "ov"
  /\ is_link (kern (final (fs_check_overlay_dir "ov" 0 start))) "/home/user/.firejail/ov"
     = false
  /\ (0 = 0 ->
      k_stat (kern (final (fs_check_overlay_dir "ov" 0 start))) "/home/user/.firejail/ov"
      = None)
  /\ (k_stat (kern start) (str_or_null (cfg_homedir (glob start)) ++ "/.firejail") <> None ->
      is_link (kern start) (str_or_null (cfg_homedir (glob start)) ++ "/.firejail") = false
      /\ final (fs_check_overlay_dir "ov" 0 start) = start)
  /\ grows (fun e => is_mount e = false) start (final (fs_check_overlay_dir "ov" 0 start)).
Proof.
  apply (fs_check_overlay_dir_sound "ov" 0 start "/home/user/.firejail/ov"
                                    (final (fs_check_overlay_dir "ov" 0 start))).
  vm_compute. reflexivity.
Defined.

Lemma fs_build_cp_command_post_witness :
  exists s1,
    fs_build_mnt_dir with_jail = Ret tt s1
    /\ ((k_stat (kern s1) RUN_CP_COMMAND <> None
         /\ final (fs_build_cp_command with_jail) = s1)
        \/ (k_stat (kern s1) RUN_CP_COMMAND = None
            /\ exists fname,
                k_realpath (kern s1) "/bin/cp" = inl fname
                /\ k_stat (kern s1) fname <> None
                /\ is_link (kern s1) fname = false
                /\ ext_call (kern s1) (CCopyFile fname RUN_CP_COMMAND 0 0 o0755)
                   = Returned 0 (kern (final (fs_build_cp_command with_jail)))
                /\ ASSERT_PERMS_ok (kern (final (fs_build_cp_command with_jail)))
                                   RUN_CP_COMMAND 0 0 o0755 = true)).
Proof.
  apply (fs_build_cp_command_post with_jail (final (fs_build_cp_command with_jail))).
  vm_compute. reflexivity.
Defined.

(** ** The kernel release *)

Lemma overlay_driver_by_release_witness :
  sscanf_d_dot_d "4.19.0-generic" = Some (4, 19)
  /\ (4 < 3 -> exists s', overlay_kernel_check (on_release "4.19.0-generic") = Exit 1 s')
  /\ (3 <= 4 ->
      overlay_kernel_check (on_release "4.19.0-generic")
      = Ret ((4 =? 3) && (19 <? 18))
            (debugged "Linux kernel version %d.%d\n" [FD 4; FD 19]
                      (on_release "4.19.0-generic"))).
Proof.
  apply (overlay_driver_by_release 4 19 ".0-generic" (on_release "4.19.0-generic")
                                   (mkUts "4.19.0-generic" "#1 SMP")).
  - lia.
  - lia.
  - reflexivity.
  - reflexivity.
  - vm_compute. reflexivity.
Defined.

Example release_3_2 : sscanf_d_dot_d (release_string 3 2 ".0-4-amd64") = Some (3, 2).
Proof. vm_compute. reflexivity. Qed.

(** ** The join protocol *)

Lemma scan_status_stops_at_seccomp_witness :
  scan_status (["CapBnd: 0000003fffffffff"] ++ "Seccomp: 2" :: ["CapBnd: ffff"]) start
  = scan_status (["CapBnd: 0000003fffffffff"] ++ ["Seccomp: 2"]) start.
Proof.
  apply (scan_status_stops_at_seccomp ["CapBnd: 0000003fffffffff"] "Seccomp: 2"
                                      ["CapBnd: ffff"] start).
  reflexivity.
Defined.

(** The mask before the Seccomp line is taken, the one after it is not. *)
Example scan_status_run :
  let s' := final (scan_status ["CapBnd: 0000003fffffffff"; "Seccomp: 2"; "CapBnd: ffff"]
                               start) in
  apply_caps s' = 1 /\ caps s' = 274877906943 /\ apply_seccomp s' = 1.
Proof. vm_compute. repeat split. Qed.

Lemma extract_command_option_guard_witness :
  extract_command ["firejail"; "--join=55"; "-l"] 2 start
  = Exit 1 (emit (EvStderr "Error: invalid option %s after --join\n" [FS "-l"]) start)
  /\ exists tl,
      trace (final (extract_command ["firejail"; "--join=55"; "--"; "-l"] 2 start))
      = (trace start ++ EvCall (CBuildCmdline ["firejail"; "--join=55"; "--"; "-l"] (2 + 1))
                     :: tl)%list.
Proof.
  split.
  - refine (proj1 (extract_command_option_guard ["firejail"; "--join=55"; "-l"] 2 start
                     _ _) _ _ _).
    + reflexivity.
    + cbn. lia.
    + reflexivity.
    + reflexivity.
    + reflexivity.
  - refine (proj1 (proj2 (extract_command_option_guard
                            ["firejail"; "--join=55"; "--"; "-l"] 2 start _ _)) _ _).
    + reflexivity.
    + cbn. lia.
    + reflexivity.
    + cbn. lia.
Defined.

Lemma toy_namespaces_open pid : namespaces_open pid.
Proof. intros k ns. exists k. reflexivity. Qed.

Lemma join_namespaces_by_mode_witness :
  exists s',
    join_namespaces 55 start = Ret tt s'
    /\ glob s' = glob start
    /\ trace s'
       = (trace start ++ map (fun ns => EvCall (CJoinNamespace 55 ns))
                             (joined_namespaces (glob start)))%list.
Proof.
  apply (join_namespaces_by_mode 55 start). apply toy_namespaces_open.
Defined.

Lemma closed_namespaces_stop_join_witness :
  (forall a s', join (W := world_of closed) 55 join_argv 2 root_with_jail <> Ret a s')
  /\ grows (fun e => is_fork e = false) root_with_jail
           (final (join (W := world_of closed) 55 join_argv 2 root_with_jail)).
Proof.
  apply (closed_namespaces_stop_join (W := world_of closed) 55 join_argv 2 root_with_jail).
  intros p k ns. cbn. discriminate.
Defined.

(** The join is stopped at the first namespace. *)
Example closed_namespaces_run :
  exists s',
    join (W := world_of closed) 55 join_argv 2 root_with_jail = Exit 1 s'
    /\ last (trace s') EvFork = EvCall (CJoinNamespace 55 "ipc").
Proof. eexists. split; vm_compute; reflexivity. Qed.

Lemma join_resolve_shell_post_witness :
  kern (final (join_resolve_shell with_jail)) = kern with_jail
  /\ trace (final (join_resolve_shell with_jail)) = trace with_jail
  /\ (cfg_command_line (glob with_jail) <> None ->
      final (join_resolve_shell with_jail) = with_jail)
  /\ (cfg_command_line (glob with_jail) = None ->
      exists sh,
        cfg_command_line (glob (final (join_resolve_shell with_jail))) = Some sh
        /\ cfg_window_title (glob (final (join_resolve_shell with_jail))) = Some sh
        /\ cfg_shell (glob (final (join_resolve_shell with_jail))) = Some sh
        /\ k_stat (kern (final (join_resolve_shell with_jail))) sh <> None
        /\ (cfg_shell (glob with_jail) = Some sh
            \/ cfg_shell (glob with_jail) = None /\ guess_shell (kern with_jail) = Some sh)).
Proof.
  apply (join_resolve_shell_post with_jail (final (join_resolve_shell with_jail))).
  vm_compute. reflexivity.
Defined.

Lemma join_context_drops_privileges_witness :
  (nz (arg_noroot (glob start)) = false ->
   exists tr,
     trace (final (join_apply_context start))
     = (trace start ++ tr ++ [EvCall (CDropPrivs (arg_nogroups (glob start)))])%list)
  /\ (nz (arg_noroot (glob start)) = true ->
      grows (fun e => is_drop_privs e = false) start (final (join_apply_context start))).
Proof.
  apply (join_context_drops_privileges start (final (join_apply_context start))).
  vm_compute. reflexivity.
Defined.

Lemma join_child_chroot_by_mode_witness :
  exists tl,
    trace (final (join_child 55 None start))
    = (trace start ++ EvSys (SysChroot ("/proc/" ++ string_of_Z 55 ++ "/root"))
         :: (if succeeds (SysChroot ("/proc/" ++ string_of_Z 55 ++ "/root")) start
             then [EvStdout "changing root to %s\n"
                            [FS ("/proc/" ++ string_of_Z 55 ++ "/root")]]
             else [])
         ++ EvSys (SysPrctl PR_SET_PDEATHSIG SIGKILL) :: tl)%list.
Proof.
  apply (proj2 (join_child_chroot_by_mode 55 None start)). reflexivity.
Defined.

(** A chroot that fails does not stop the child: it goes on, in the root
    directory of the caller, up to the start of the command. *)
Example join_child_after_failed_chroot :
  exists s' tl,
    join_child (W := world_of rootless) 55 None with_jail = Ret tt s'
    /\ trace s'
       = EvSys (SysChroot "/proc/55/root") :: EvSys (SysPrctl PR_SET_PDEATHSIG SIGKILL) :: tl
    /\ last tl EvFork = EvCall CStartApplication.
Proof. eexists. eexists. split; [| split]; vm_compute; reflexivity. Qed.

End ConcreteRest.
